(** * IFRS 9 staging and provisioning: a shallow embedding

    This development embeds the loan staging engine of the backend
    ([app/utils/staging.py]) and the staging, provision and quality-issue
    approval routes ([app/routes/portfolio.py]) and states the properties of
    the specification about them, followed by further properties that the
    code shows.

    Conventions of the embedding.
    - Python [int] is [Z]; Python [float] and [Decimal] amounts are exact
      rationals [Q]: the inexactness of binary and of 28-digit decimal
      arithmetic is abstracted away, floats are finite, and the one error of
      decimal arithmetic that the code can meet, [InvalidOperation] on
      rounding a [Decimal] to more digits than the context holds, is kept;
      [None] is [option].
    - Python strings are [string] over ASCII.
    - A raised exception is the [Raise] outcome of the [outcome] type.
    - The ORM session is an explicit state: the committed tables, the
      session's working copy, and a budget of storage operations that is
      used to inject a storage failure. *)

From Stdlib Require Import ZArith QArith Qround String Ascii List Lia Bool.
From stdpp Require Import gmap strings list fin_maps.

Local Open Scope Z_scope.

(** ** Exceptions and outcomes *)

Inductive exception : Type :=
| InvalidDaysRange (days_range : string)
    (* ValueError(f"Invalid days range format: {days_range}") *)
| InvalidIntLiteral (literal : string)
    (* the ValueError of int() on a malformed literal *)
| TypeError (message : string)
| UnboundLocalError (variable : string)
| HTTPException (status_code : Z) (detail : string)
| ValidationError (field : string)
| CalculatorError (message : string)
| InvalidOperation
    (* decimal.InvalidOperation, signalled by Decimal.quantize *)
| StorageFailure.

(** Both errors of range parsing are Python [ValueError]s. *)
Definition is_ValueError (e : exception) : bool :=
  match e with
  | InvalidDaysRange _ | InvalidIntLiteral _ => true
  | _ => false
  end.

(** [str(e)]; the [repr] of the literal is taken for a string without quotes
    or escapes. *)
Definition str_exception (e : exception) : string :=
  match e with
  | InvalidDaysRange s => "Invalid days range format: " +:+ s
  | InvalidIntLiteral s => "invalid literal for int() with base 10: '" +:+ s +:+ "'"
  | TypeError m => m
  | UnboundLocalError v =>
      "cannot access local variable '" +:+ v +:+ "' where it is not associated with a value"
  | HTTPException _ d => d
  | ValidationError f => "validation error: " +:+ f
  | CalculatorError m => m
  | InvalidOperation => "[<class 'decimal.InvalidOperation'>]"
  | StorageFailure => "storage failure"
  end.

Inductive outcome (A : Type) : Type :=
| Ok (a : A)
| Raise (e : exception)
| OutOfFuel.
Arguments Ok {A} a.
Arguments Raise {A} e.
Arguments OutOfFuel {A}.

#[global] Instance outcome_ret : MRet outcome := fun A a => Ok a.

#[global] Instance outcome_bind : MBind outcome :=
  fun A B k x =>
    match x with
    | Ok a => k a
    | Raise e => Raise e
    | OutOfFuel => OutOfFuel
    end.

(** ** Python string primitives *)

Module Py.

(* The whitespace that int() strips from an ASCII literal: TAB, LF, VT, FF,
   CR and space.  (str.isspace also accepts FS, GS, RS and US; int() rejects
   a literal that carries one of them.) *)
Definition is_space (c : ascii) : bool :=
  let n := nat_of_ascii c in
  ((9 <=? n)%nat && (n <=? 13)%nat) || (n =? 32)%nat.

Definition is_digit (c : ascii) : bool :=
  let n := nat_of_ascii c in (48 <=? n)%nat && (n <=? 57)%nat.

Definition digit_value (c : ascii) : Z := Z.of_nat (nat_of_ascii c) - 48.

Fixpoint lstrip (s : string) : string :=
  match s with
  | EmptyString => EmptyString
  | String c s' => if is_space c then lstrip s' else s
  end.

Fixpoint rstrip (s : string) : string :=
  match s with
  | EmptyString => EmptyString
  | String c s' =>
      match rstrip s' with
      | EmptyString => if is_space c then EmptyString else String c EmptyString
      | r => String c r
      end
  end.

Definition strip (s : string) : string := rstrip (lstrip s).

(* The digits of an int literal: a digit first, single underscores only
   between digits.  [sep] tells that a digit must come next. *)
Fixpoint digits (acc : Z) (sep : bool) (s : string) : option Z :=
  match s with
  | EmptyString => if sep then None else Some acc
  | String c s' =>
      if is_digit c then digits (10 * acc + digit_value c) false s'
      else if Ascii.eqb c "_" && negb sep then digits acc true s'
      else None
  end.

(* sys.int_max_str_digits: the default limit of CPython 3.11 and later on the
   number of digits of a literal that int() converts. *)
Definition int_max_str_digits : nat := Z.to_nat 4300.

(* int(s) for a str argument, base 10, for a literal within the limit of
   [int_max_str_digits] digits.  Beyond the limit, CPython 3.11 and later
   raise a ValueError of their own ("Exceeds the limit ... for integer string
   conversion"); that error is not part of this embedding, and the properties
   that state a successful conversion bound the length of the literal. *)
Definition int (s : string) : outcome Z :=
  let body := strip s in
  let r :=
    match body with
    | String "+" rest => digits 0 true rest
    | String "-" rest => option_map Z.opp (digits 0 true rest)
    | _ => digits 0 true body
    end in
  match r with
  | Some n => Ok n
  | None => Raise (InvalidIntLiteral s)
  end.

(* s.endswith(c) for a one-character suffix *)
Fixpoint endswith (s : string) (c : ascii) : bool :=
  match s with
  | EmptyString => false
  | String a EmptyString => Ascii.eqb a c
  | String _ s' => endswith s' c
  end.

(* s[:-1] *)
Fixpoint drop_last (s : string) : string :=
  match s with
  | EmptyString => EmptyString
  | String _ EmptyString => EmptyString
  | String a s' => String a (drop_last s')
  end.

(* s.split(sep) for a one-character separator *)
Fixpoint split (s : string) (sep : ascii) : list string :=
  match s with
  | EmptyString => [EmptyString]
  | String a s' =>
      if Ascii.eqb a sep then EmptyString :: split s' sep
      else match split s' sep with
           | p :: ps => String a p :: ps
           | [] => [String a EmptyString]
           end
  end.

(* str.lower on ASCII *)
Definition lower_ascii (c : ascii) : ascii :=
  let n := nat_of_ascii c in
  if (65 <=? n)%nat && (n <=? 90)%nat then ascii_of_nat (n + 32) else c.

Fixpoint lower (s : string) : string :=
  match s with
  | EmptyString => EmptyString
  | String c s' => String (lower_ascii c) (lower s')
  end.

(* int(x) for a float x: truncation toward zero *)
Definition int_of_float (x : Q) : Z := Z.quot (Qnum x) (Zpos (Qden x)).

(* round(x) to the nearest integer, ties to even *)
Definition round_half_even (x : Q) : Z :=
  let f := Qfloor x in
  match (x - inject_Z f ?= 1 # 2)%Q with
  | Lt => f
  | Gt => f + 1
  | Eq => if Z.even f then f else f + 1
  end.

(* round(x, ndigits) for a float x *)
Definition round (x : Q) (ndigits : nat) : Q :=
  let scale := Z.pow 10 (Z.of_nat ndigits) in
  Qmake (round_half_even (x * inject_Z scale)%Q) (Z.to_pos scale).

(* The precision of the default decimal context. *)
Definition decimal_prec : Z := 28.

(* Whether the coefficient of x, quantized to ndigits decimals, fits the
   precision of the context. *)
Definition fits_decimal (x : Q) (ndigits : nat) : bool :=
  Z.abs (round_half_even (x * inject_Z (Z.pow 10 (Z.of_nat ndigits)))%Q)
  <? Z.pow 10 decimal_prec.

(* round(x, ndigits) for a Decimal x: Decimal.__round__ quantizes x to
   ndigits decimals, ties to even, in the current context, and quantize
   signals InvalidOperation when the result has more digits than the
   context's precision. *)
Definition round_decimal (x : Q) (ndigits : nat) : outcome Q :=
  if fits_decimal x ndigits then Ok (round x ndigits) else Raise InvalidOperation.

End Py.

(** ** Range parsing ([app/utils/staging.py], [parse_days_range]) *)

Definition days_bounds : Type := Z * option Z.

Definition parse_days_range (days_range : option string) : outcome days_bounds :=
  match days_range with
  | None | Some EmptyString => Ok (0, None)
  | Some s =>
      if Py.endswith s "+" then
        min_days ← Py.int (Py.drop_last s);
        Ok (min_days, None)
      else
        match Py.split s "-" with
        | [p0; p1] =>
            min_days ← Py.int p0;
            max_days ← Py.int p1;
            Ok (min_days, Some max_days)
        | _ => Raise (InvalidDaysRange s)
        end
  end.

(** ** Data model *)

(** A row of the [loans] table: the columns the staging and provision code
    reads or writes. *)
Module Loan.
Record t : Type := mk {
  id : Z;
  portfolio_id : Z;
  employee_id : option string;
  ndia : option Z;
  outstanding_loan_balance : option Q;
  accumulated_arrears : option Q;
  monthly_installment : option Q;
  loan_amount : option Q;
  loan_term : option Z;
  loan_issue_date : option Z;
  ecl_stage : option Z;
  impairment_category : option string;
  stage : option string;
  last_staged_at : option Z }.

Definition set_ecl_stage (v : option Z) (l : t) : t :=
  mk (id l) (portfolio_id l) (employee_id l) (ndia l) (outstanding_loan_balance l)
     (accumulated_arrears l) (monthly_installment l) (loan_amount l) (loan_term l)
     (loan_issue_date l) v (impairment_category l) (stage l) (last_staged_at l).

Definition set_impairment_category (v : option string) (l : t) : t :=
  mk (id l) (portfolio_id l) (employee_id l) (ndia l) (outstanding_loan_balance l)
     (accumulated_arrears l) (monthly_installment l) (loan_amount l) (loan_term l)
     (loan_issue_date l) (ecl_stage l) v (stage l) (last_staged_at l).

Definition set_stage (v : option string) (l : t) : t :=
  mk (id l) (portfolio_id l) (employee_id l) (ndia l) (outstanding_loan_balance l)
     (accumulated_arrears l) (monthly_installment l) (loan_amount l) (loan_term l)
     (loan_issue_date l) (ecl_stage l) (impairment_category l) v (last_staged_at l).

Definition set_last_staged_at (v : option Z) (l : t) : t :=
  mk (id l) (portfolio_id l) (employee_id l) (ndia l) (outstanding_loan_balance l)
     (accumulated_arrears l) (monthly_installment l) (loan_amount l) (loan_term l)
     (loan_issue_date l) (ecl_stage l) (impairment_category l) (stage l) v.
End Loan.

(** [app/schemas.py]: [DaysRangeConfig], [ECLStagingConfig],
    [LocalImpairmentConfig]. *)
Module ECLStagingConfig.
Record t : Type := mk { stage_1 : string; stage_2 : string; stage_3 : string }.
End ECLStagingConfig.

Module LocalImpairmentConfig.
Record t : Type := mk {
  current : string; olem : string; substandard : string;
  doubtful : string; loss : string }.
End LocalImpairmentConfig.

(** The JSON documents of a staging run. *)
Module StageTotals.
Record t : Type := mk { num_loans : Z; outstanding_loan_balance : Q }.
End StageTotals.

Module CategoryTotals.
Record t : Type := mk {
  num_loans : Z;
  outstanding_loan_balance : Q;
  total_loan_value : Q;
  provision_amount : Q;
  provision_rate : Q }.
End CategoryTotals.

Module CategoryReturn.
Record t : Type := mk {
  num_loans : Z;
  outstanding_loan_balance : Q;
  provision_amount : Q }.
End CategoryReturn.

(** [StagingResult.result_summary]. *)
Inductive summary_doc : Type :=
| ECLSummaryDoc (status : option string) (timestamp : option Z) (total_loans : option Z)
    (stage_1 stage_2 stage_3 : StageTotals.t) (config : option ECLStagingConfig.t)
| LocalSummaryDoc (status : option string) (timestamp : option Z) (total_loans : option Z)
    (current olem substandard doubtful loss : CategoryTotals.t)
    (config : option LocalImpairmentConfig.t)
| OtherSummaryDoc (text : string).

Inductive config_doc : Type :=
| ECLConfigDoc (c : ECLStagingConfig.t)
| LocalConfigDoc (c : LocalImpairmentConfig.t).

Module StagingResult.
Record t : Type := mk {
  portfolio_id : Z;
  staging_type : string;
  created_at : Z;
  config : option config_doc;
  result_summary : option summary_doc }.

Definition set_result_summary (v : option summary_doc) (r : t) : t :=
  mk (portfolio_id r) (staging_type r) (created_at r) (config r) v.
End StagingResult.

(** Rows of the other tables the routes read. *)
Module Portfolio.
Record t : Type := mk { id : Z; user_id : Z }.
End Portfolio.

Module Client.
Record t : Type := mk { id : Z; employee_id : option string }.
End Client.

Module Security.
Record t : Type := mk { id : Z; client_id : Z; security_value : Q }.
End Security.

(** ** The ORM session *)

Module Db.
Record Tables : Type := mkTables {
  loans : list Loan.t;                       (* rows in primary-key order *)
  staging_results : list StagingResult.t;
  portfolios : list Portfolio.t;
  clients : list Client.t;
  securities : list Security.t }.

Definition set_loans (v : list Loan.t) (t : Tables) : Tables :=
  mkTables v (staging_results t) (portfolios t) (clients t) (securities t).

Definition set_staging_results (v : list StagingResult.t) (t : Tables) : Tables :=
  mkTables (loans t) v (portfolios t) (clients t) (securities t).

(** [budget = Some n]: the next [n] storage operations succeed and the one
    after them raises; [None]: the storage never fails. *)
Record Session : Type := mkSession {
  committed : Tables;
  working : Tables;
  budget : option nat }.

Definition open (t : Tables) (budget : option nat) : Session :=
  mkSession t t budget.
End Db.

Definition M (A : Type) : Type := Db.Session -> outcome A * Db.Session.

#[global] Instance session_ret : MRet M := fun A a s => (Ok a, s).

#[global] Instance session_bind : MBind M :=
  fun A B k m s =>
    match m s with
    | (Ok a, s') => k a s'
    | (Raise e, s') => (Raise e, s')
    | (OutOfFuel, s') => (OutOfFuel, s')
    end.

Definition lift {A : Type} (o : outcome A) : M A := fun s => (o, s).

(** try: ... except Exception as e: ... *)
Definition try_except {A : Type} (m : M A) (handler : exception -> M A) : M A :=
  fun s => match m s with
           | (Raise e, s') => handler e s'
           | r => r
           end.

(** Every statement that reaches the database spends one unit of the budget. *)
Definition storage_call : M unit :=
  fun s => match Db.budget s with
           | None => (Ok tt, s)
           | Some (S n) => (Ok tt, Db.mkSession (Db.committed s) (Db.working s) (Some n))
           | Some O => (Raise StorageFailure, s)
           end.

Definition get_working : M Db.Tables := fun s => (Ok (Db.working s), s).

Definition put_working (t : Db.Tables) : M unit :=
  fun s => (Ok tt, Db.mkSession (Db.committed s) t (Db.budget s)).

(** db.commit() *)
Definition commit : M unit :=
  storage_call;;
  (fun s => (Ok tt, Db.mkSession (Db.working s) (Db.working s) (Db.budget s))) : M unit.

(** db.rollback() *)
Definition rollback : M unit :=
  fun s => (Ok tt, Db.mkSession (Db.committed s) (Db.committed s) (Db.budget s)).

(** Positions of the [true] entries, counted from [i]. *)
Fixpoint positions_from (i : nat) (bs : list bool) : list nat :=
  match bs with
  | [] => []
  | b :: bs' => if b then i :: positions_from (S i) bs' else positions_from (S i) bs'
  end.

(** The rows of a portfolio, in primary-key order; a row is addressed by its
    position in the table. *)
Definition portfolio_rows (portfolio_id : Z) (ls : list Loan.t) : list nat :=
  positions_from 0 (map (fun l => Z.eqb (Loan.portfolio_id l) portfolio_id) ls).

(** db.query(func.count(Loan.id)).filter(Loan.portfolio_id == portfolio_id).scalar() or 0 *)
Definition query_loan_count (portfolio_id : Z) : M Z :=
  storage_call;;
  t ← get_working;
  mret (Z.of_nat (length (portfolio_rows portfolio_id (Db.loans t)))).

(** db.query(Loan).filter(Loan.portfolio_id == portfolio_id)
      .order_by(Loan.id).offset(offset).limit(batch_size).all()
    The objects returned are the rows themselves, paired with their position.
    The synchronous functions page without ORDER BY
    ([.limit(batch_size).offset(offset)]); their rows are taken in table
    order, too. *)
Definition query_loan_page (portfolio_id : Z) (offset limit : nat) : M (list (nat * Loan.t)) :=
  storage_call;;
  t ← get_working;
  mret (omap (fun i => option_map (pair i) (Db.loans t !! i))
             (take limit (drop offset (portfolio_rows portfolio_id (Db.loans t))))).

(** Assignment to the attributes of a loaded loan object. *)
Definition write_loan (i : nat) (l : Loan.t) : M unit :=
  t ← get_working;
  put_working (Db.set_loans (<[i := l]> (Db.loans t)) t).

(** The position of the newest matching row: the first one with the greatest
    [created_at]. *)
Fixpoint newest_from (i : nat) (portfolio_id : Z) (staging_type : string)
    (rs : list StagingResult.t) (best : option (nat * Z)) : option nat :=
  match rs with
  | [] => option_map fst best
  | r :: rs' =>
      let matches :=
        Z.eqb (StagingResult.portfolio_id r) portfolio_id
        && String.eqb (StagingResult.staging_type r) staging_type in
      let best' :=
        if matches then
          match best with
          | Some (_, c) => if c <? StagingResult.created_at r
                           then Some (i, StagingResult.created_at r) else best
          | None => Some (i, StagingResult.created_at r)
          end
        else best in
      newest_from (S i) portfolio_id staging_type rs' best'
  end.

(** db.query(StagingResult).filter(...).order_by(StagingResult.created_at.desc()).first() *)
Definition query_latest_staging_result (portfolio_id : Z) (staging_type : string)
    : M (option nat) :=
  storage_call;;
  t ← get_working;
  mret (newest_from 0 portfolio_id staging_type (Db.staging_results t) None).

Definition write_result_summary (i : nat) (doc : summary_doc) : M unit :=
  t ← get_working;
  put_working
    (Db.set_staging_results
       (alter (StagingResult.set_result_summary (Some doc)) i (Db.staging_results t)) t).

(** db.add(StagingResult(...)) *)
Definition add_staging_result (r : StagingResult.t) : M unit :=
  t ← get_working;
  put_working (Db.set_staging_results (Db.staging_results t ++ [r]) t).

(** for x in xs: body *)
Fixpoint for_each {A S : Type} (xs : list A) (body : A -> S -> M S) (acc : S) : M S :=
  match xs with
  | [] => mret acc
  | x :: xs' => acc' ← body x acc; for_each xs' body acc'
  end.

(** ** Batch staging ([app/utils/staging.py]) *)

(** The [while True] loop over pages, which the four batch functions share
    up to the body of the inner [for] loop ([stage_loan]: the loan object
    after the body and the new counters):

      while True:
          loan_batch = <page query>(offset, batch_size)
          if not loan_batch: break
          for loan in loan_batch: <stage_loan>
          db.commit()
          offset += batch_size

    [fuel] bounds the number of pages fetched. *)
Definition stage_and_write {S : Type} (stage_loan : Loan.t -> S -> Loan.t * S)
    (object : nat * Loan.t) (acc : S) : M S :=
  let '(i, loan) := object in
  let '(loan', acc') := stage_loan loan acc in
  write_loan i loan';; mret acc'.

Fixpoint staging_pages {S : Type} (stage_loan : Loan.t -> S -> Loan.t * S)
    (fuel : nat) (portfolio_id : Z) (batch_size : nat) (offset : nat) (acc : S) : M S :=
  match fuel with
  | O => lift OutOfFuel
  | S fuel' =>
      loan_batch ← query_loan_page portfolio_id offset batch_size;
      match loan_batch with
      | [] => mret acc
      | _ =>
          acc' ← for_each loan_batch (stage_and_write stage_loan) acc;
          commit;;
          staging_pages stage_loan fuel' portfolio_id batch_size
            (offset + batch_size)%nat acc'
      end
  end.

(** dict lookups on the run's counters: [d[k]] on a key that is present, and
    [d.get(k, 0)]. *)
Definition getZ {K : Type} `{Countable K} (d : gmap K Z) (k : K) : Z := default 0 (d !! k).
Definition getQ {K : Type} `{Countable K} (d : gmap K Q) (k : K) : Q := default 0%Q (d !! k).

(** What the staging functions return. *)
Inductive staging_return (A : Type) : Type :=
| StagingSuccess (summary : A)          (* {"status": "success", ...} *)
| StagingError (error : string).        (* {"status": "error", "error": str(e)} *)
Arguments StagingSuccess {A} summary.
Arguments StagingError {A} error.

Definition status {A : Type} (r : staging_return A) : string :=
  match r with
  | StagingSuccess _ => "success"
  | StagingError _ => "error"
  end.

Module ECLStagingReturn.
Record t : Type := mk {
  total_loans : Z;
  stage_1 : StageTotals.t;
  stage_2 : StageTotals.t;
  stage_3 : StageTotals.t }.
End ECLStagingReturn.

Definition batch_size : nat := 5000.

(** ndia < max, or max is None *)
Definition below (ndia : Z) (max : option Z) : bool :=
  match max with
  | None => true
  | Some m => ndia <? m
  end.

(** *** [stage_loans_ecl_orm] *)

(** The body of [for loan in loan_batch] (lines 67-93). *)
Definition ecl_orm_stage_loan (stage_2_min : Z) (stage_2_max : option Z) (stage_3_min : Z)
    (timestamp : Z) (loan : Loan.t) (acc : gmap Z Z * gmap Z Q)
    : Loan.t * (gmap Z Z * gmap Z Q) :=
  let '(stage_counts, stage_balances) := acc in
  let ndia := match Loan.ndia loan with Some n => n | None => 0 end in
  let balance :=
    match Loan.outstanding_loan_balance loan with Some b => b | None => 0%Q end in
  let '(loan, stage_counts, stage_balances) :=
    if ndia >=? stage_3_min then
      (Loan.set_ecl_stage (Some 3) loan,
       <[3 := getZ stage_counts 3 + 1]> stage_counts,
       <[3 := Qplus (getQ stage_balances 3) balance]> stage_balances)
    else if (ndia >=? stage_2_min) && below ndia stage_2_max then
      (Loan.set_ecl_stage (Some 2) loan,
       <[2 := getZ stage_counts 2 + 1]> stage_counts,
       <[2 := Qplus (getQ stage_balances 2) balance]> stage_balances)
    else
      (Loan.set_ecl_stage (Some 1) loan,
       <[1 := getZ stage_counts 1 + 1]> stage_counts,
       <[1 := Qplus (getQ stage_balances 1) balance]> stage_balances) in
  (Loan.set_last_staged_at (Some timestamp) loan, (stage_counts, stage_balances)).

Definition ecl_stage_totals (stage_counts : gmap Z Z) (stage_balances : gmap Z Q) (k : Z)
    : StageTotals.t :=
  StageTotals.mk (getZ stage_counts k) (getQ stage_balances k).

(** The parsed bounds of the three stages (lines 33-35 and 450-452). *)
Module ECLBounds.
Record t : Type := mk { stage_1 : days_bounds; stage_2 : days_bounds; stage_3 : days_bounds }.
End ECLBounds.

Definition parse_ecl_bounds (config : ECLStagingConfig.t) : outcome ECLBounds.t :=
  stage_1 ← parse_days_range (Some (ECLStagingConfig.stage_1 config));
  stage_2 ← parse_days_range (Some (ECLStagingConfig.stage_2 config));
  stage_3 ← parse_days_range (Some (ECLStagingConfig.stage_3 config));
  Ok (ECLBounds.mk stage_1 stage_2 stage_3).

(** The [try] block of [stage_loans_ecl_orm], for a page size [batch_size];
    [timestamp] is the value of [datetime.now()]. *)
Definition stage_loans_ecl_orm_try (batch_size : nat) (portfolio_id : Z)
    (config : ECLStagingConfig.t) (timestamp : Z) : M (staging_return ECLStagingReturn.t) :=
  b ← lift (parse_ecl_bounds config);
  let stage_2_min := fst (ECLBounds.stage_2 b) in
  let stage_2_max := snd (ECLBounds.stage_2 b) in
  let stage_3_min := fst (ECLBounds.stage_3 b) in
  total_loans ← query_loan_count portfolio_id;
  let stage_counts : gmap Z Z := <[1 := 0]> (<[2 := 0]> (<[3 := 0]> ∅)) in
  let stage_balances : gmap Z Q := <[1 := 0%Q]> (<[2 := 0%Q]> (<[3 := 0%Q]> ∅)) in
  counters ←
     staging_pages (ecl_orm_stage_loan stage_2_min stage_2_max stage_3_min timestamp)
       (S (Z.to_nat total_loans)) portfolio_id batch_size 0%nat
       (stage_counts, stage_balances);
  let stage_counts := fst counters in
  let stage_balances := (fun v => Py.round v 2) <$> snd counters in
  staging_result ← query_latest_staging_result portfolio_id "ecl";
  match staging_result with
  | Some i =>
      write_result_summary i
        (ECLSummaryDoc (Some "completed"%string) (Some timestamp) (Some total_loans)
           (ecl_stage_totals stage_counts stage_balances 1)
           (ecl_stage_totals stage_counts stage_balances 2)
           (ecl_stage_totals stage_counts stage_balances 3)
           (Some config));;
      commit
  | None => mret tt
  end;;
  mret (StagingSuccess
          (ECLStagingReturn.mk total_loans
             (ecl_stage_totals stage_counts stage_balances 1)
             (ecl_stage_totals stage_counts stage_balances 2)
             (ecl_stage_totals stage_counts stage_balances 3))).

(** try: ... except Exception as e: db.rollback(); return {"status": "error", ...} *)
Definition stage_loans_ecl_orm_with (batch_size : nat) (portfolio_id : Z)
    (config : ECLStagingConfig.t) (timestamp : Z) : M (staging_return ECLStagingReturn.t) :=
  try_except (stage_loans_ecl_orm_try batch_size portfolio_id config timestamp)
    (fun e => rollback;; mret (StagingError (str_exception e))).

Definition stage_loans_ecl_orm : Z -> ECLStagingConfig.t -> Z -> M (staging_return ECLStagingReturn.t) :=
  stage_loans_ecl_orm_with batch_size.

(** *** [stage_loans_local_impairment_orm] *)

Module LocalStagingReturn.
Record t : Type := mk {
  total_loans : Z;
  current : CategoryReturn.t;
  olem : CategoryReturn.t;
  substandard : CategoryReturn.t;
  doubtful : CategoryReturn.t;
  loss : CategoryReturn.t }.
End LocalStagingReturn.

(** The parsed bounds of the five categories. *)
Module LocalBounds.
Record t : Type := mk {
  current : days_bounds; olem : days_bounds; substandard : days_bounds;
  doubtful : days_bounds; loss : days_bounds }.
End LocalBounds.

Definition parse_local_bounds (config : LocalImpairmentConfig.t) : outcome LocalBounds.t :=
  current ← parse_days_range (Some (LocalImpairmentConfig.current config));
  olem ← parse_days_range (Some (LocalImpairmentConfig.olem config));
  substandard ← parse_days_range (Some (LocalImpairmentConfig.substandard config));
  doubtful ← parse_days_range (Some (LocalImpairmentConfig.doubtful config));
  loss ← parse_days_range (Some (LocalImpairmentConfig.loss config));
  Ok (LocalBounds.mk current olem substandard doubtful loss).

(** The if/elif chain on [ndia] shared by both local-impairment batch
    functions (lines 254-273 and 641-660): the category whose branch is
    taken, [None] when no branch is.  The last test of the chain,
    [loss_max is None or ndia is not None], is true for every integer. *)
Definition local_orm_category (b : LocalBounds.t) (ndia : Z) : option string :=
  if (ndia >=? 0) && below ndia (snd (LocalBounds.current b)) then Some "Current"%string
  else if (ndia >=? fst (LocalBounds.olem b)) && below ndia (snd (LocalBounds.olem b))
    then Some "OLEM"%string
  else if (ndia >=? fst (LocalBounds.substandard b))
          && below ndia (snd (LocalBounds.substandard b))
    then Some "Substandard"%string
  else if (ndia >=? fst (LocalBounds.doubtful b)) && below ndia (snd (LocalBounds.doubtful b))
    then Some "Doubtful"%string
  else if (ndia >=? fst (LocalBounds.loss b))
          && (match snd (LocalBounds.loss b) with None => true | Some _ => true end)
    then Some "Loss"%string
  else None.

(** loan.impairment_category = c; category_counts[c] += 1;
    category_balances[c] += balance -- or nothing at all when no branch is
    taken. *)
Definition local_orm_assign (category : option string) (balance : Q) (loan : Loan.t)
    (acc : gmap string Z * gmap string Q) : Loan.t * (gmap string Z * gmap string Q) :=
  match category with
  | Some c =>
      (Loan.set_impairment_category (Some c) loan,
       (<[c := getZ (fst acc) c + 1]> (fst acc),
        <[c := Qplus (getQ (snd acc) c) balance]> (snd acc)))
  | None => (loan, acc)
  end.

(** The body of [for loan in loan_batch] (lines 242-276). *)
Definition local_orm_stage_loan (b : LocalBounds.t) (timestamp : Z) (loan : Loan.t)
    (acc : gmap string Z * gmap string Q) : Loan.t * (gmap string Z * gmap string Q) :=
  let ndia := match Loan.ndia loan with Some n => n | None => 0 end in
  let balance :=
    match Loan.outstanding_loan_balance loan with Some b => b | None => 0%Q end in
  let '(loan, acc) := local_orm_assign (local_orm_category b ndia) balance loan acc in
  (Loan.set_last_staged_at (Some timestamp) loan, acc).

Definition local_initial_counts : gmap string Z :=
  <["Current"%string := 0]> (<["OLEM"%string := 0]> (<["Substandard"%string := 0]>
    (<["Doubtful"%string := 0]> (<["Loss"%string := 0]> ∅)))).

Definition local_initial_balances : gmap string Q :=
  <["Current"%string := 0%Q]> (<["OLEM"%string := 0%Q]> (<["Substandard"%string := 0%Q]>
    (<["Doubtful"%string := 0%Q]> (<["Loss"%string := 0%Q]> ∅)))).

(** The fixed provision rates of lines 294-298 and 676-680. *)
Definition current_rate : Q := 1 # 100.
Definition olem_rate : Q := 5 # 100.
Definition substandard_rate : Q := 25 # 100.
Definition doubtful_rate : Q := 5 # 10.
Definition loss_rate : Q := 10 # 10.

(** One category of the stored summary: counts, balance and
    [Decimal(str(balance)) * rate]. *)
Definition local_category_totals (category_counts : gmap string Z)
    (category_balances : gmap string Q) (c : string) (rate : Q) : CategoryTotals.t :=
  CategoryTotals.mk (getZ category_counts c) (getQ category_balances c)
    (getQ category_balances c) (getQ category_balances c * rate)%Q rate.

Definition local_category_return (category_counts : gmap string Z)
    (category_balances : gmap string Q) (c : string) (rate : Q) : CategoryReturn.t :=
  CategoryReturn.mk (getZ category_counts c) (getQ category_balances c)
    (getQ category_balances c * rate)%Q.

Definition local_summary_doc (status : option string) (timestamp total_loans : option Z)
    (category_counts : gmap string Z) (category_balances : gmap string Q)
    (config : option LocalImpairmentConfig.t) : summary_doc :=
  LocalSummaryDoc status timestamp total_loans
    (local_category_totals category_counts category_balances "Current" current_rate)
    (local_category_totals category_counts category_balances "OLEM" olem_rate)
    (local_category_totals category_counts category_balances "Substandard" substandard_rate)
    (local_category_totals category_counts category_balances "Doubtful" doubtful_rate)
    (local_category_totals category_counts category_balances "Loss" loss_rate)
    config.

Definition stage_loans_local_impairment_orm_try (batch_size : nat) (portfolio_id : Z)
    (config : LocalImpairmentConfig.t) (timestamp : Z)
    : M (staging_return LocalStagingReturn.t) :=
  b ← lift (parse_local_bounds config);
  total_loans ← query_loan_count portfolio_id;
  counters ←
     staging_pages (local_orm_stage_loan b timestamp)
       (S (Z.to_nat total_loans)) portfolio_id batch_size 0%nat
       (local_initial_counts, local_initial_balances);
  let category_counts := fst counters in
  let category_balances := (fun v => Py.round v 2) <$> snd counters in
  staging_result ← query_latest_staging_result portfolio_id "local_impairment";
  match staging_result with
  | Some i =>
      write_result_summary i
        (local_summary_doc (Some "completed"%string) (Some timestamp) (Some total_loans)
           category_counts category_balances (Some config));;
      commit
  | None => mret tt
  end;;
  mret (StagingSuccess
          (LocalStagingReturn.mk total_loans
             (local_category_return category_counts category_balances "Current" current_rate)
             (local_category_return category_counts category_balances "OLEM" olem_rate)
             (local_category_return category_counts category_balances "Substandard"
                substandard_rate)
             (local_category_return category_counts category_balances "Doubtful"
                doubtful_rate)
             (local_category_return category_counts category_balances "Loss" loss_rate))).

Definition stage_loans_local_impairment_orm_with (batch_size : nat) (portfolio_id : Z)
    (config : LocalImpairmentConfig.t) (timestamp : Z)
    : M (staging_return LocalStagingReturn.t) :=
  try_except (stage_loans_local_impairment_orm_try batch_size portfolio_id config timestamp)
    (fun e => rollback;; mret (StagingError (str_exception e))).

Definition stage_loans_local_impairment_orm
    : Z -> LocalImpairmentConfig.t -> Z -> M (staging_return LocalStagingReturn.t) :=
  stage_loans_local_impairment_orm_with batch_size.

(** *** [stage_loans_ecl_orm_sync] *)

Module ECLSyncReturn.
Record t : Type := mk {
  stage_1_count : Z; stage_2_count : Z; stage_3_count : Z;
  stage_1_balance : Q; stage_2_balance : Q; stage_3_balance : Q;
  total_loans : Z }.
End ECLSyncReturn.

(** if loan.outstanding_loan_balance: total += float(loan.outstanding_loan_balance) *)
Definition add_if_truthy (total : Q) (balance : option Q) : Q :=
  match balance with
  | Some b => if Qeq_bool b 0 then total else Qplus total b
  | None => total
  end.

(** The if/elif chain of lines 494-508: Stage 1 is tested first. *)
Definition ecl_sync_stage (stage_1_max : option Z) (stage_2_min : Z) (stage_2_max : option Z)
    (stage_3_min : Z) (stage_3_max : option Z) (ndia : Z) : option Z :=
  if (ndia >=? 0) && below ndia stage_1_max then Some 1
  else if (ndia >=? stage_2_min) && below ndia stage_2_max then Some 2
  else if (ndia >=? stage_3_min)
          && (match stage_3_max with None => true | Some _ => true end) then Some 3
  else None.

Definition stage_name (k : Z) : string :=
  if k =? 1 then "Stage 1" else if k =? 2 then "Stage 2" else "Stage 3".

(** The body of [for loan in loans_batch] (lines 481-508). *)
Definition ecl_sync_stage_loan (stage_1_max : option Z) (stage_2_min : Z)
    (stage_2_max : option Z) (stage_3_min : Z) (stage_3_max : option Z)
    (loan : Loan.t) (acc : gmap Z Z * gmap Z Q) : Loan.t * (gmap Z Z * gmap Z Q) :=
  match Loan.ndia loan with
  | None => (loan, acc)                                   (* continue *)
  | Some ndia =>
      match ecl_sync_stage stage_1_max stage_2_min stage_2_max stage_3_min stage_3_max ndia with
      | Some k =>
          (Loan.set_stage (Some (stage_name k)) loan,
           (<[k := getZ (fst acc) k + 1]> (fst acc),
            <[k := add_if_truthy (getQ (snd acc) k) (Loan.outstanding_loan_balance loan)]>
              (snd acc)))
      | None => (loan, acc)
      end
  end.

(** sum(d.values()) *)
Definition sum_values {K : Type} `{Countable K} (d : gmap K Z) : Z :=
  foldr Z.add 0 (snd <$> map_to_list d).

(** The new [StagingResult] row takes [timestamp] as its [created_at]. *)
Definition stage_loans_ecl_orm_sync_try (batch_size : nat) (portfolio_id : Z)
    (config : ECLStagingConfig.t) (timestamp : Z) : M ECLSyncReturn.t :=
  b ← lift (parse_ecl_bounds config);
  let stage_1_max := snd (ECLBounds.stage_1 b) in
  let stage_2_min := fst (ECLBounds.stage_2 b) in
  let stage_2_max := snd (ECLBounds.stage_2 b) in
  let stage_3_min := fst (ECLBounds.stage_3 b) in
  let stage_3_max := snd (ECLBounds.stage_3 b) in
  total_loans ← query_loan_count portfolio_id;
  let stage_counts : gmap Z Z := <[1 := 0]> (<[2 := 0]> (<[3 := 0]> ∅)) in
  let stage_balances : gmap Z Q := <[1 := 0%Q]> (<[2 := 0%Q]> (<[3 := 0%Q]> ∅)) in
  counters ←
     staging_pages
       (ecl_sync_stage_loan stage_1_max stage_2_min stage_2_max stage_3_min stage_3_max)
       (S (Z.to_nat total_loans)) portfolio_id batch_size 0%nat
       (stage_counts, stage_balances);
  let stage_counts := fst counters in
  let stage_balances := snd counters in
  add_staging_result
    (StagingResult.mk portfolio_id "ecl" timestamp (Some (ECLConfigDoc config))
       (Some (ECLSummaryDoc None None None
                (ecl_stage_totals stage_counts stage_balances 1)
                (ecl_stage_totals stage_counts stage_balances 2)
                (ecl_stage_totals stage_counts stage_balances 3)
                None)));;
  commit;;
  mret (ECLSyncReturn.mk
          (getZ stage_counts 1) (getZ stage_counts 2) (getZ stage_counts 3)
          (getQ stage_balances 1) (getQ stage_balances 2) (getQ stage_balances 3)
          (sum_values stage_counts)).

(** except Exception as e: db.rollback(); raise *)
Definition stage_loans_ecl_orm_sync_with (batch_size : nat) (portfolio_id : Z)
    (config : ECLStagingConfig.t) (timestamp : Z) : M ECLSyncReturn.t :=
  try_except (stage_loans_ecl_orm_sync_try batch_size portfolio_id config timestamp)
    (fun e => rollback;; lift (Raise e)).

Definition stage_loans_ecl_orm_sync : Z -> ECLStagingConfig.t -> Z -> M ECLSyncReturn.t :=
  stage_loans_ecl_orm_sync_with batch_size.

(** *** [stage_loans_local_impairment_orm_sync] *)

Module LocalSyncReturn.
Record t : Type := mk {
  current_count : Z; olem_count : Z; substandard_count : Z;
  doubtful_count : Z; loss_count : Z;
  current_balance : Q; olem_balance : Q; substandard_balance : Q;
  doubtful_balance : Q; loss_balance : Q;
  total_loans : Z }.
End LocalSyncReturn.

(** The body of [for loan in loans_batch] (lines 629-660). *)
Definition local_sync_stage_loan (b : LocalBounds.t) (loan : Loan.t)
    (acc : gmap string Z * gmap string Q) : Loan.t * (gmap string Z * gmap string Q) :=
  match Loan.ndia loan with
  | None => (loan, acc)                                   (* continue *)
  | Some ndia =>
      let balance :=
        match Loan.outstanding_loan_balance loan with Some b => b | None => 0%Q end in
      local_orm_assign (local_orm_category b ndia) balance loan acc
  end.

Definition stage_loans_local_impairment_orm_sync_try (batch_size : nat) (portfolio_id : Z)
    (config : LocalImpairmentConfig.t) (timestamp : Z) : M LocalSyncReturn.t :=
  b ← lift (parse_local_bounds config);
  total_loans ← query_loan_count portfolio_id;
  counters ←
     staging_pages (local_sync_stage_loan b)
       (S (Z.to_nat total_loans)) portfolio_id batch_size 0%nat
       (local_initial_counts, local_initial_balances);
  let category_counts := fst counters in
  let category_balances := snd counters in
  add_staging_result
    (StagingResult.mk portfolio_id "local_impairment" timestamp
       (Some (LocalConfigDoc config))
       (Some (local_summary_doc None None None category_counts category_balances None)));;
  commit;;
  mret (LocalSyncReturn.mk
          (getZ category_counts "Current") (getZ category_counts "OLEM")
          (getZ category_counts "Substandard") (getZ category_counts "Doubtful")
          (getZ category_counts "Loss")
          (getQ category_balances "Current") (getQ category_balances "OLEM")
          (getQ category_balances "Substandard") (getQ category_balances "Doubtful")
          (getQ category_balances "Loss")
          (sum_values category_counts)).

Definition stage_loans_local_impairment_orm_sync_with (batch_size : nat) (portfolio_id : Z)
    (config : LocalImpairmentConfig.t) (timestamp : Z) : M LocalSyncReturn.t :=
  try_except
    (stage_loans_local_impairment_orm_sync_try batch_size portfolio_id config timestamp)
    (fun e => rollback;; lift (Raise e)).

Definition stage_loans_local_impairment_orm_sync
    : Z -> LocalImpairmentConfig.t -> Z -> M LocalSyncReturn.t :=
  stage_loans_local_impairment_orm_sync_with batch_size.

(** ** Staging routes ([app/routes/portfolio.py]) *)

(** Modelled from the spec: [is_in_range] of [app/calculators/ecl.py], which
    is not among the sources.  Section 4.2: an interval contains the value
    when min <= d and (d < max or max is unbounded). *)
Definition is_in_range (value : Z) (range : days_bounds) : bool :=
  (fst range <=? value) && below value (snd range).

(** Modelled from the spec: [parse_days_range] of
    [app/calculators/local_impairment.py], which the routes import and which is
    not among the sources.  Section 4.1 describes one range parser; it is taken
    to be the parser of [app/utils/staging.py]. *)
Definition calculators_parse_days_range (days_range : string) : outcome days_bounds :=
  parse_days_range (Some days_range).

(** [app/schemas.py]: [LoanStageInfo]; every field is required. *)
Module LoanStageInfo.
Record t : Type := mk {
  loan_id : Z;
  employee_id : string;
  stage : string;
  outstanding_loan_balance : Q;
  ndia : Z;
  loan_issue_date : Z;
  loan_amount : Q;
  monthly_installment : Q;
  loan_term : Z;
  accumulated_arrears : Q }.
End LoanStageInfo.

(** A required field of a pydantic model rejects [None]. *)
Definition required {A : Type} (field : string) (v : option A) : outcome A :=
  match v with
  | Some a => Ok a
  | None => Raise (ValidationError field)
  end.

(** LoanStageInfo(loan_id=loan.id, employee_id=loan.employee_id, stage=stage, ...) *)
Definition make_LoanStageInfo (loan : Loan.t) (stage : string) (ndia : Z)
    : outcome LoanStageInfo.t :=
  employee_id ← required "employee_id" (Loan.employee_id loan);
  outstanding_loan_balance ←
    required "outstanding_loan_balance" (Loan.outstanding_loan_balance loan);
  loan_issue_date ← required "loan_issue_date" (Loan.loan_issue_date loan);
  loan_amount ← required "loan_amount" (Loan.loan_amount loan);
  monthly_installment ← required "monthly_installment" (Loan.monthly_installment loan);
  loan_term ← required "loan_term" (Loan.loan_term loan);
  accumulated_arrears ← required "accumulated_arrears" (Loan.accumulated_arrears loan);
  Ok (LoanStageInfo.mk (Loan.id loan) employee_id stage outstanding_loan_balance ndia
        loan_issue_date loan_amount monthly_installment loan_term accumulated_arrears).

(** int(loan.ndia) *)
Definition int_of_ndia (ndia : option Z) : outcome Z :=
  match ndia with
  | Some n => Ok n
  | None =>
      Raise (TypeError
        "int() argument must be a string, a bytes-like object or a real number, not 'NoneType'")
  end.

(** db.query(Portfolio).filter(Portfolio.id == portfolio_id,
                               Portfolio.user_id == current_user.id).first() *)
Definition find_portfolio (t : Db.Tables) (portfolio_id current_user : Z)
    : option Portfolio.t :=
  find (fun p => Z.eqb (Portfolio.id p) portfolio_id
                 && Z.eqb (Portfolio.user_id p) current_user)
       (Db.portfolios t).

(** db.query(Loan).filter(Loan.portfolio_id == portfolio_id).all() *)
Definition loans_of_portfolio (t : Db.Tables) (portfolio_id : Z) : list Loan.t :=
  filter (fun l => Loan.portfolio_id l = portfolio_id) (Db.loans t).

(** try: parse ... except ValueError as e: raise HTTPException(400, detail=str(e)) *)
Definition parse_or_400 (days_range : string) : outcome days_bounds :=
  match calculators_parse_days_range days_range with
  | Raise e => if is_ValueError e then Raise (HTTPException 400 (str_exception e))
               else Raise e
  | r => r
  end.

Fixpoint for_each_outcome {A S : Type} (xs : list A) (body : A -> S -> outcome S) (acc : S)
    : outcome S :=
  match xs with
  | [] => Ok acc
  | x :: xs' => acc' ← body x acc; for_each_outcome xs' body acc'
  end.

(** *** [stage_loans_ecl] *)

(** The if/elif/else chain of lines 449-457, for a number of days. *)
Definition ecl_route_stage (stage_1_range stage_2_range stage_3_range : days_bounds)
    (ndia : Z) : string :=
  if is_in_range ndia stage_1_range then "Stage 1"
  else if is_in_range ndia stage_2_range then "Stage 2"
  else if is_in_range ndia stage_3_range then "Stage 3"
  else "Stage 3".                      (* Default to Stage 3 if no stage matches *)

(** Modelled from the spec: the chain of lines 449-457 on [loan.ndia] as the
    column holds it.  The route passes [loan.ndia] to [is_in_range] without a
    test for [None], and the first call, [is_in_range(loan.ndia,
    stage_1_range)], is always evaluated.  Section 4.2 gives the test of
    [is_in_range] as min <= d, which for [d = None] is a comparison of an
    int with [None]: Python raises a [TypeError] for it.  The text of the
    message depends on how the helper writes the comparison; no property
    relies on it. *)
Definition ecl_route_stage_of (stage_1_range stage_2_range stage_3_range : days_bounds)
    (ndia : option Z) : outcome string :=
  match ndia with
  | Some d => Ok (ecl_route_stage stage_1_range stage_2_range stage_3_range d)
  | None =>
      Raise (TypeError "'<=' not supported between instances of 'int' and 'NoneType'")
  end.

(** The body of [for loan in loans] (lines 446-480): the chain on
    [loan.ndia] first (lines 449-457), then [int(loan.ndia)] (line 460), then
    the response entry (lines 467-478). *)
Definition stage_loans_ecl_loan (stage_1_range stage_2_range stage_3_range : days_bounds)
    (loan : Loan.t) (staged_loans : list LoanStageInfo.t) : outcome (list LoanStageInfo.t) :=
  stage ← ecl_route_stage_of stage_1_range stage_2_range stage_3_range (Loan.ndia loan);
  ndia ← int_of_ndia (Loan.ndia loan);
  info ← make_LoanStageInfo loan stage ndia;
  Ok (staged_loans ++ [info]).

Definition stage_loans_ecl (t : Db.Tables) (current_user : Z) (portfolio_id : Z)
    (config : ECLStagingConfig.t) : outcome (list LoanStageInfo.t) :=
  match find_portfolio t portfolio_id current_user with
  | None => Raise (HTTPException 404 "Portfolio not found")
  | Some _ =>
      stage_1_range ← parse_or_400 (ECLStagingConfig.stage_1 config);
      stage_2_range ← parse_or_400 (ECLStagingConfig.stage_2 config);
      stage_3_range ← parse_or_400 (ECLStagingConfig.stage_3 config);
      for_each_outcome (loans_of_portfolio t portfolio_id)
        (stage_loans_ecl_loan stage_1_range stage_2_range stage_3_range) []
  end.

(** *** [stage_loans_local_impairment] *)

(** bool(x) for an optional number *)
Definition truthy (x : option Q) : bool :=
  match x with
  | Some q => negb (Qeq_bool q 0)
  | None => false
  end.

(** Lines 526-538: the days past due used for the classification. *)
Definition local_route_ndia (loan : Loan.t) : Z :=
  match Loan.ndia loan with
  | None =>
      match Loan.accumulated_arrears loan, Loan.monthly_installment loan with
      | Some arrears, Some installment =>
          if truthy (Some arrears) && truthy (Some installment)
             && negb (Qle_bool installment 0)
          then Py.int_of_float ((arrears / installment) * 30)%Q
          else 0
      | _, _ => 0
      end
  | Some n => n
  end.

(** The if/elif chain of lines 541-550; it has no [else], so the local
    variable [stage] keeps the value it had, if any. *)
Definition local_route_stage (b : LocalBounds.t) (ndia : Z) (stage : option string)
    : option string :=
  if is_in_range ndia (LocalBounds.current b) then Some "Current"%string
  else if is_in_range ndia (LocalBounds.olem b) then Some "OLEM"%string
  else if is_in_range ndia (LocalBounds.substandard b) then Some "Substandard"%string
  else if is_in_range ndia (LocalBounds.doubtful b) then Some "Doubtful"%string
  else if is_in_range ndia (LocalBounds.loss b) then Some "Loss"%string
  else stage.

(** Reading a local variable that may be unbound. *)
Definition read_local (name : string) (v : option string) : outcome string :=
  match v with
  | Some s => Ok s
  | None => Raise (UnboundLocalError name)
  end.

(** The body of [for loan in loans] (lines 524-573); the state of the loop is
    the list built so far and the local variable [stage]. *)
Definition stage_loans_local_impairment_loan (b : LocalBounds.t) (loan : Loan.t)
    (st : list LoanStageInfo.t * option string)
    : outcome (list LoanStageInfo.t * option string) :=
  let '(staged_loans, stage) := st in
  let ndia := local_route_ndia loan in
  let stage := local_route_stage b ndia stage in
  ndia ← int_of_ndia (Loan.ndia loan);                    (* line 553 *)
  stage_value ← read_local "stage" stage;
  info ← make_LoanStageInfo loan stage_value ndia;
  Ok (staged_loans ++ [info], stage).

Definition stage_loans_local_impairment (t : Db.Tables) (current_user : Z)
    (portfolio_id : Z) (config : LocalImpairmentConfig.t) : outcome (list LoanStageInfo.t) :=
  match find_portfolio t portfolio_id current_user with
  | None => Raise (HTTPException 404 "Portfolio not found")
  | Some _ =>
      current_range ← parse_or_400 (LocalImpairmentConfig.current config);
      olem_range ← parse_or_400 (LocalImpairmentConfig.olem config);
      substandard_range ← parse_or_400 (LocalImpairmentConfig.substandard config);
      doubtful_range ← parse_or_400 (LocalImpairmentConfig.doubtful config);
      loss_range ← parse_or_400 (LocalImpairmentConfig.loss config);
      let b := LocalBounds.mk current_range olem_range substandard_range doubtful_range
                 loss_range in
      st ← for_each_outcome (loans_of_portfolio t portfolio_id)
             (stage_loans_local_impairment_loan b) ([], None);
      Ok (fst st)
  end.

(** ** Provision aggregation ([app/routes/portfolio.py]) *)

(** [app/schemas.py]: [StagedLoans], [ProvisionRateConfig], [CategoryData],
    [LocalImpairmentSummary], [ECLSummaryMetrics], [ECLSummary]. *)
Module StagedLoans.
Record t : Type := mk { portfolio_id : Z; loans : list LoanStageInfo.t }.
End StagedLoans.

Module ProvisionRateConfig.
Record t : Type := mk {
  current : Q; olem : Q; substandard : Q; doubtful : Q; loss : Q }.
End ProvisionRateConfig.

Module CategoryData.
Record t : Type := mk {
  num_loans : Z;
  total_loan_value : Q;
  provision_amount : Q;
  provision_rate : Q }.
End CategoryData.

Module LocalImpairmentSummary.
Record t : Type := mk {
  portfolio_id : Z;
  calculation_date : Z;
  current : CategoryData.t;
  olem : CategoryData.t;
  substandard : CategoryData.t;
  doubtful : CategoryData.t;
  loss : CategoryData.t;
  total_provision : Q;
  provision_percentage : Q }.
End LocalImpairmentSummary.

Module ECLSummaryMetrics.
Record t : Type := mk {
  avg_pd : Q; avg_lgd : Q; avg_ead : Q;
  total_provision : Q; provision_percentage : Q }.
End ECLSummaryMetrics.

Module ECLSummary.
Record t : Type := mk {
  portfolio_id : Z;
  calculation_date : Z;
  stage_1 : CategoryData.t;
  stage_2 : CategoryData.t;
  stage_3 : CategoryData.t;
  summary_metrics : ECLSummaryMetrics.t }.
End ECLSummary.

(** db.query(Loan).filter(Loan.id == loan_id).first() *)
Definition find_loan (t : Db.Tables) (loan_id : Z) : option Loan.t :=
  find (fun l => Z.eqb (Loan.id l) loan_id) (Db.loans t).

(** x > 0 on amounts *)
Definition Qpositive (x : Q) : bool := negb (Qle_bool x 0).

(** *** [calculate_local_provision] *)

(** The loans and the running total of one category. *)
Definition bucket : Type := list Loan.t * Q.

Definition bucket_add (loan : Loan.t) (balance : Q) (b : bucket) : bucket :=
  (fst b ++ [loan], Qplus (snd b) balance).

Module LocalAcc.
Record t : Type := mk {
  current : bucket; olem : bucket; substandard : bucket;
  doubtful : bucket; loss : bucket }.
Definition empty : t := mk ([], 0%Q) ([], 0%Q) ([], 0%Q) ([], 0%Q) ([], 0%Q).
End LocalAcc.

(** The body of [for loan_with_stage in staged_loans.loans] (lines 1000-1026). *)
Definition local_provision_loan (t : Db.Tables) (loan_with_stage : LoanStageInfo.t)
    (acc : LocalAcc.t) : LocalAcc.t :=
  match find_loan t (LoanStageInfo.loan_id loan_with_stage) with
  | None => acc                                        (* Skip if loan not found *)
  | Some loan =>
      let outstanding_loan_balance := LoanStageInfo.outstanding_loan_balance loan_with_stage in
      let stage := Py.lower (LoanStageInfo.stage loan_with_stage) in
      let add := bucket_add loan outstanding_loan_balance in
      if String.eqb stage "current" then
        LocalAcc.mk (add (LocalAcc.current acc)) (LocalAcc.olem acc)
          (LocalAcc.substandard acc) (LocalAcc.doubtful acc) (LocalAcc.loss acc)
      else if String.eqb stage "olem" then
        LocalAcc.mk (LocalAcc.current acc) (add (LocalAcc.olem acc))
          (LocalAcc.substandard acc) (LocalAcc.doubtful acc) (LocalAcc.loss acc)
      else if String.eqb stage "substandard" then
        LocalAcc.mk (LocalAcc.current acc) (LocalAcc.olem acc)
          (add (LocalAcc.substandard acc)) (LocalAcc.doubtful acc) (LocalAcc.loss acc)
      else if String.eqb stage "doubtful" then
        LocalAcc.mk (LocalAcc.current acc) (LocalAcc.olem acc)
          (LocalAcc.substandard acc) (add (LocalAcc.doubtful acc)) (LocalAcc.loss acc)
      else if String.eqb stage "loss" then
        LocalAcc.mk (LocalAcc.current acc) (LocalAcc.olem acc)
          (LocalAcc.substandard acc) (LocalAcc.doubtful acc) (add (LocalAcc.loss acc))
      else acc
  end.

Definition local_provision_loop (t : Db.Tables) (loans : list LoanStageInfo.t) : LocalAcc.t :=
  fold_left (fun acc loan_with_stage => local_provision_loan t loan_with_stage acc)
    loans LocalAcc.empty.

(** CategoryData(num_loans=len(loans), total_loan_value=round(total, 2),
                 provision_amount=round(provision, 2), provision_rate=rate) *)
Definition local_category_data (b : bucket) (rate : Q) : CategoryData.t :=
  CategoryData.mk (Z.of_nat (length (fst b))) (Py.round (snd b) 2)
    (Py.round (snd b * rate)%Q 2) rate.

(** Lines 1028-1088, from the totals of the loop. *)
Definition local_provision_summary (portfolio_id reporting_date : Z) (acc : LocalAcc.t)
    (provision_config : ProvisionRateConfig.t) : LocalImpairmentSummary.t :=
  let current_total := snd (LocalAcc.current acc) in
  let olem_total := snd (LocalAcc.olem acc) in
  let substandard_total := snd (LocalAcc.substandard acc) in
  let doubtful_total := snd (LocalAcc.doubtful acc) in
  let loss_total := snd (LocalAcc.loss acc) in
  let current_provision := (current_total * ProvisionRateConfig.current provision_config)%Q in
  let olem_provision := (olem_total * ProvisionRateConfig.olem provision_config)%Q in
  let substandard_provision :=
    (substandard_total * ProvisionRateConfig.substandard provision_config)%Q in
  let doubtful_provision :=
    (doubtful_total * ProvisionRateConfig.doubtful provision_config)%Q in
  let loss_provision := (loss_total * ProvisionRateConfig.loss provision_config)%Q in
  let total_loan_value :=
    (current_total + olem_total + substandard_total + doubtful_total + loss_total)%Q in
  let total_provision :=
    (current_provision + olem_provision + substandard_provision + doubtful_provision
     + loss_provision)%Q in
  let provision_percentage :=
    if Qpositive total_loan_value
    then (total_provision / total_loan_value * 100)%Q else 0%Q in
  LocalImpairmentSummary.mk portfolio_id reporting_date
    (local_category_data (LocalAcc.current acc) (ProvisionRateConfig.current provision_config))
    (local_category_data (LocalAcc.olem acc) (ProvisionRateConfig.olem provision_config))
    (local_category_data (LocalAcc.substandard acc)
       (ProvisionRateConfig.substandard provision_config))
    (local_category_data (LocalAcc.doubtful acc)
       (ProvisionRateConfig.doubtful provision_config))
    (local_category_data (LocalAcc.loss acc) (ProvisionRateConfig.loss provision_config))
    (Py.round total_provision 2)
    (Py.round provision_percentage 1).

(** [reporting_date] is the date used for [calculation_date] (the argument,
    or today's date when it is absent). *)
Definition calculate_local_provision (t : Db.Tables) (current_user : Z)
    (staged_loans : StagedLoans.t) (provision_config : ProvisionRateConfig.t)
    (reporting_date : Z) : outcome LocalImpairmentSummary.t :=
  match find_portfolio t (StagedLoans.portfolio_id staged_loans) current_user with
  | None => Raise (HTTPException 404 "Portfolio not found or not authorized")
  | Some _ =>
      let acc := local_provision_loop t (StagedLoans.loans staged_loans) in
      Ok (local_provision_summary (StagedLoans.portfolio_id staged_loans) reporting_date
            acc provision_config)
  end.

(** *** [calculate_ecl_provision] *)

(** The risk-component calculators of [app/calculators/ecl.py], which are not
    among the sources: they are parameters of the aggregation, and each may
    raise.  Their results are taken to be finite floats, as the staged
    balances are: rounding a float does not raise. *)
Class Calculators : Type := {
  calculate_loss_given_default : Loan.t -> list Security.t -> outcome Q;
  calculate_probability_of_default : Loan.t -> Z -> outcome Q;
  calculate_exposure_at_default_percentage : Loan.t -> Z -> outcome Q;
  calculate_marginal_ecl : Loan.t -> Q -> Q -> Q -> outcome Q }.

(** client_ids = {loan.employee_id for loan in staged_loans.loans} *)
Definition client_ids_of (loans : list LoanStageInfo.t) : gset string :=
  list_to_set (LoanStageInfo.employee_id <$> loans).

(** db.query(Client).filter(Client.id == security.client_id).first() *)
Definition find_client (t : Db.Tables) (client_id : Z) : option Client.t :=
  find (fun c => Z.eqb (Client.id c) client_id) (Db.clients t).

(** db.query(Security).join(Client, Security.client_id == Client.id)
      .filter(Client.employee_id.in_(client_ids)).all() *)
Definition query_securities (t : Db.Tables) (client_ids : gset string) : list Security.t :=
  filter (fun s =>
            existsb (fun c => Z.eqb (Client.id c) (Security.client_id s)
                              && match Client.employee_id c with
                                 | Some e => bool_decide (e ∈ client_ids)
                                 | None => false
                                 end)
                    (Db.clients t) = true)
         (Db.securities t).

(** The key under which a security is grouped: the employee id of its client,
    when there is a client and its employee id is not empty. *)
Definition security_owner (t : Db.Tables) (security : Security.t) : option string :=
  match find_client t (Security.client_id security) with
  | Some client =>
      match Client.employee_id client with
      | Some e => if String.eqb e EmptyString then None else Some e
      | None => None
      end
  | None => None
  end.

(** Lines 1150-1165. *)
Definition group_securities (t : Db.Tables) (client_ids : gset string)
    : gmap string (list Security.t) :=
  if bool_decide (client_ids = ∅) then ∅
  else
    fold_left
      (fun client_securities security =>
         match security_owner t security with
         | Some e => <[e := default [] (client_securities !! e) ++ [security]]> client_securities
         | None => client_securities
         end)
      (query_securities t client_ids) ∅.

Module ECLAcc.
Record t : Type := mk {
  stage_1 : bucket; stage_2 : bucket; stage_3 : bucket;
  stage_1_provision : Q; stage_2_provision : Q; stage_3_provision : Q;
  total_lgd : Q; total_pd : Q; total_ead_percentage : Q;
  total_loans : Z }.
Definition empty : t := mk ([], 0%Q) ([], 0%Q) ([], 0%Q) 0%Q 0%Q 0%Q 0%Q 0%Q 0%Q 0.
End ECLAcc.

Section ECLProvision.
Context {calc : Calculators}.

(** The four calculator calls made in each of the three branches. *)
Definition ecl_components (loan : Loan.t) (securities : list Security.t) (ndia : Z)
    (reporting_date : Z) : outcome (Q * Q * Q * Q) :=
  lgd ← calculate_loss_given_default loan securities;
  pd ← calculate_probability_of_default loan ndia;
  ead_percentage ← calculate_exposure_at_default_percentage loan reporting_date;
  ecl ← calculate_marginal_ecl loan ead_percentage pd lgd;
  Ok (lgd, pd, ead_percentage, ecl).

(** The body of [for loan_with_stage in staged_loans.loans] (lines 1168-1242). *)
Definition ecl_provision_loan (t : Db.Tables)
    (client_securities : gmap string (list Security.t)) (reporting_date : Z)
    (loan_with_stage : LoanStageInfo.t) (acc : ECLAcc.t) : outcome ECLAcc.t :=
  match find_loan t (LoanStageInfo.loan_id loan_with_stage) with
  | None => Ok acc                                   (* Skip if loan not found *)
  | Some loan =>
      let outstanding_loan_balance :=
        LoanStageInfo.outstanding_loan_balance loan_with_stage in
      let client_securities_list :=
        default [] (client_securities !! LoanStageInfo.employee_id loan_with_stage) in
      let stage := Py.lower (LoanStageInfo.stage loan_with_stage) in
      let ndia := LoanStageInfo.ndia loan_with_stage in
      let add := bucket_add loan outstanding_loan_balance in
      acc' ←
        (if String.eqb stage "stage 1" then
           '(lgd, pd, ead_percentage, ecl) ←
             ecl_components loan client_securities_list ndia reporting_date;
           Ok (ECLAcc.mk (add (ECLAcc.stage_1 acc)) (ECLAcc.stage_2 acc) (ECLAcc.stage_3 acc)
                 (ECLAcc.stage_1_provision acc + ecl)%Q (ECLAcc.stage_2_provision acc)
                 (ECLAcc.stage_3_provision acc)
                 (ECLAcc.total_lgd acc + lgd)%Q (ECLAcc.total_pd acc + pd)%Q
                 (ECLAcc.total_ead_percentage acc + ead_percentage)%Q
                 (ECLAcc.total_loans acc))
         else if String.eqb stage "stage 2" then
           '(lgd, pd, ead_percentage, ecl) ←
             ecl_components loan client_securities_list ndia reporting_date;
           Ok (ECLAcc.mk (ECLAcc.stage_1 acc) (add (ECLAcc.stage_2 acc)) (ECLAcc.stage_3 acc)
                 (ECLAcc.stage_1_provision acc) (ECLAcc.stage_2_provision acc + ecl)%Q
                 (ECLAcc.stage_3_provision acc)
                 (ECLAcc.total_lgd acc + lgd)%Q (ECLAcc.total_pd acc + pd)%Q
                 (ECLAcc.total_ead_percentage acc + ead_percentage)%Q
                 (ECLAcc.total_loans acc))
         else if String.eqb stage "stage 3" then
           '(lgd, pd, ead_percentage, ecl) ←
             ecl_components loan client_securities_list ndia reporting_date;
           Ok (ECLAcc.mk (ECLAcc.stage_1 acc) (ECLAcc.stage_2 acc) (add (ECLAcc.stage_3 acc))
                 (ECLAcc.stage_1_provision acc) (ECLAcc.stage_2_provision acc)
                 (ECLAcc.stage_3_provision acc + ecl)%Q
                 (ECLAcc.total_lgd acc + lgd)%Q (ECLAcc.total_pd acc + pd)%Q
                 (ECLAcc.total_ead_percentage acc + ead_percentage)%Q
                 (ECLAcc.total_loans acc))
         else Ok acc);
      (* Increment total loan count *)
      Ok (ECLAcc.mk (ECLAcc.stage_1 acc') (ECLAcc.stage_2 acc') (ECLAcc.stage_3 acc')
            (ECLAcc.stage_1_provision acc') (ECLAcc.stage_2_provision acc')
            (ECLAcc.stage_3_provision acc')
            (ECLAcc.total_lgd acc') (ECLAcc.total_pd acc') (ECLAcc.total_ead_percentage acc')
            (ECLAcc.total_loans acc' + 1))
  end.

Definition ecl_provision_loop (t : Db.Tables) (reporting_date : Z)
    (loans : list LoanStageInfo.t) : outcome ECLAcc.t :=
  let client_securities := group_securities t (client_ids_of loans) in
  for_each_outcome loans (ecl_provision_loan t client_securities reporting_date)
    ECLAcc.empty.

(** total / total_loans if total_loans > 0 else 0 *)
Definition average (total : Q) (total_loans : Z) : Q :=
  if 0 <? total_loans then (total / inject_Z total_loans)%Q else 0%Q.

(** Decimal(provision) / Decimal(total) if total > 0 else 0 *)
Definition effective_rate (provision total : Q) : Q :=
  if Qpositive total then (provision / total)%Q else 0%Q.

(** round(x, ndigits) of a value that is the Decimal quotient [x] when
    [total > 0] and the int 0 otherwise: rounding the Decimal can signal
    [InvalidOperation], rounding the int cannot. *)
Definition round_guarded (total x : Q) (ndigits : nat) : outcome Q :=
  if Qpositive total then Py.round_decimal x ndigits else Ok (Py.round x ndigits).

(** CategoryData(num_loans=len(loans), total_loan_value=round(total, 2),
                 provision_amount=round(provision, 2),
                 provision_rate=round(rate, 4)) *)
Definition ecl_category_data (b : bucket) (provision : Q) : outcome CategoryData.t :=
  let rate := effective_rate provision (snd b) in
  provision_rate ← round_guarded (snd b) rate 4;
  Ok (CategoryData.mk (Z.of_nat (length (fst b))) (Py.round (snd b) 2)
        (Py.round provision 2) provision_rate).

(** Lines 1244-1300, from the totals of the loop.  The arguments of the
    response are evaluated in the order of the source: the three stages,
    then the summary metrics. *)
Definition ecl_provision_summary (portfolio_id reporting_date : Z) (acc : ECLAcc.t)
    : outcome ECLSummary.t :=
  let avg_lgd := average (ECLAcc.total_lgd acc) (ECLAcc.total_loans acc) in
  let avg_pd := average (ECLAcc.total_pd acc) (ECLAcc.total_loans acc) in
  let avg_ead_percentage :=
    average (ECLAcc.total_ead_percentage acc) (ECLAcc.total_loans acc) in
  let total_loan_value :=
    (snd (ECLAcc.stage_1 acc) + snd (ECLAcc.stage_2 acc) + snd (ECLAcc.stage_3 acc))%Q in
  let total_provision :=
    (ECLAcc.stage_1_provision acc + ECLAcc.stage_2_provision acc
     + ECLAcc.stage_3_provision acc)%Q in
  let provision_percentage :=
    if Qpositive total_loan_value
    then (total_provision / total_loan_value * 100)%Q else 0%Q in
  stage_1 ← ecl_category_data (ECLAcc.stage_1 acc) (ECLAcc.stage_1_provision acc);
  stage_2 ← ecl_category_data (ECLAcc.stage_2 acc) (ECLAcc.stage_2_provision acc);
  stage_3 ← ecl_category_data (ECLAcc.stage_3 acc) (ECLAcc.stage_3_provision acc);
  rounded_percentage ← round_guarded total_loan_value provision_percentage 2;
  Ok (ECLSummary.mk portfolio_id reporting_date stage_1 stage_2 stage_3
        (ECLSummaryMetrics.mk (Py.round avg_pd 4) (Py.round avg_lgd 4)
           (Py.round avg_ead_percentage 4) (Py.round total_provision 2)
           rounded_percentage)).

Definition calculate_ecl_provision (t : Db.Tables) (current_user : Z)
    (staged_loans : StagedLoans.t) (reporting_date : Z) : outcome ECLSummary.t :=
  match find_portfolio t (StagedLoans.portfolio_id staged_loans) current_user with
  | None => Raise (HTTPException 404 "Portfolio not found or not authorized")
  | Some _ =>
      acc ← ecl_provision_loop t reporting_date (StagedLoans.loans staged_loans);
      ecl_provision_summary (StagedLoans.portfolio_id staged_loans) reporting_date acc
  end.

End ECLProvision.

(** ** Quality-issue routes ([app/routes/portfolio.py]) *)

(** A row of the quality-issue table: the columns these routes read or
    write. *)
Module QualityIssue.
Record t : Type := mk { id : Z; portfolio_id : Z; status : string }.

Definition set_status (v : string) (i : t) : t := mk (id i) (portfolio_id i) v.
End QualityIssue.

(** [app/schemas.py]: [QualityIssueComment], the class these routes build
    their comments with; every field is required. *)
Module QualityIssueComment.
Record t : Type := mk {
  id : Z; quality_issue_id : Z; user_id : Z; comment : string; created_at : Z }.
End QualityIssueComment.

(** QualityIssueComment(id=..., quality_issue_id=..., user_id=..., comment=...,
                        created_at=...); an argument left out is [None]. *)
Definition make_QualityIssueComment (id : option Z) (quality_issue_id user_id : Z)
    (comment : string) (created_at : option Z) : outcome QualityIssueComment.t :=
  id ← required "id" id;
  created_at ← required "created_at" created_at;
  Ok (QualityIssueComment.mk id quality_issue_id user_id comment created_at).

(** The issues and the comments the session holds; a route's changes reach
    the store at its [db.commit()], and are dropped when it raises before. *)
Module QualityStore.
Record t : Type := mk { issues : list QualityIssue.t; comments : list QualityIssueComment.t }.

Definition set_issue (i : nat) (v : QualityIssue.t) (s : t) : t :=
  mk (<[i := v]> (issues s)) (comments s).

(* db.add(new_comment) *)
Definition add_comment (c : QualityIssueComment.t) (s : t) : t :=
  mk (issues s) (comments s ++ [c]).
End QualityStore.

(** if comment: -- for an optional string *)
Definition truthy_string (x : option string) : bool :=
  match x with
  | Some s => negb (String.eqb s EmptyString)
  | None => false
  end.

Definition string_or_empty (x : option string) : string := default EmptyString x.

(** db.query(QualityIssue).filter(QualityIssue.portfolio_id == portfolio_id,
                                  QualityIssue.status == "open").all()
    The objects returned are the rows themselves, paired with their position. *)
Definition is_open_issue (portfolio_id : Z) (i : QualityIssue.t) : bool :=
  Z.eqb (QualityIssue.portfolio_id i) portfolio_id && String.eqb (QualityIssue.status i) "open".

Definition query_open_issues (s : QualityStore.t) (portfolio_id : Z)
    : list (nat * QualityIssue.t) :=
  omap (fun i => option_map (pair i) (QualityStore.issues s !! i))
    (positions_from 0 (map (is_open_issue portfolio_id) (QualityStore.issues s))).

(** db.query(QualityIssue).filter(QualityIssue.id == issue_id,
                                  QualityIssue.portfolio_id == portfolio_id).first() *)
Definition query_issue (s : QualityStore.t) (issue_id portfolio_id : Z)
    : option (nat * QualityIssue.t) :=
  head (omap (fun i => option_map (pair i) (QualityStore.issues s !! i))
          (positions_from 0
             (map (fun i => Z.eqb (QualityIssue.id i) issue_id
                            && Z.eqb (QualityIssue.portfolio_id i) portfolio_id)
                (QualityStore.issues s)))).

Module ApprovalResponse.
Record t : Type := mk { message : string; count : Z }.
End ApprovalResponse.

(** The body of [for issue in open_issues] (lines 897-908). *)
Definition approve_all_issue (current_user : Z) (comment : option string)
    (object : nat * QualityIssue.t) (s : QualityStore.t) : outcome QualityStore.t :=
  let '(i, issue) := object in
  let s := QualityStore.set_issue i (QualityIssue.set_status "approved" issue) s in
  if truthy_string comment then
    new_comment ←
      make_QualityIssueComment None (QualityIssue.id issue) current_user
        ("Batch approval: " +:+ string_or_empty comment) None;
    Ok (QualityStore.add_comment new_comment s)
  else Ok s.

(** [approve_all_quality_issues]: the response and the store after the
    request. *)
Definition approve_all_quality_issues (t : Db.Tables) (s : QualityStore.t)
    (current_user portfolio_id : Z) (comment : option string)
    : outcome ApprovalResponse.t * QualityStore.t :=
  match find_portfolio t portfolio_id current_user with
  | None => (Raise (HTTPException 404 "Portfolio not found"), s)
  | Some _ =>
      let open_issues := query_open_issues s portfolio_id in
      match open_issues with
      | [] => (Ok (ApprovalResponse.mk "No open quality issues to approve" 0), s)
      | _ =>
          match for_each_outcome open_issues (approve_all_issue current_user comment) s with
          | Ok s' =>                                               (* db.commit() *)
              (Ok (ApprovalResponse.mk "All quality issues approved"
                     (Z.of_nat (length open_issues))), s')
          | Raise e => (Raise e, s)
          | OutOfFuel => (OutOfFuel, s)
          end
      end
  end.

(** [approve_quality_issue]: the issue returned and the store after the
    request. *)
Definition approve_quality_issue (t : Db.Tables) (s : QualityStore.t)
    (current_user portfolio_id issue_id : Z) (comment : option string)
    : outcome QualityIssue.t * QualityStore.t :=
  match find_portfolio t portfolio_id current_user with
  | None => (Raise (HTTPException 404 "Portfolio not found"), s)
  | Some _ =>
      match query_issue s issue_id portfolio_id with
      | None => (Raise (HTTPException 404 "Quality issue not found"), s)
      | Some (i, issue) =>
          let issue' := QualityIssue.set_status "approved" issue in
          let s1 := QualityStore.set_issue i issue' s in
          if truthy_string comment then
            match make_QualityIssueComment None issue_id current_user
                    ("Issue approved: " +:+ string_or_empty comment) None with
            | Ok new_comment => (Ok issue', QualityStore.add_comment new_comment s1)
            | Raise e => (Raise e, s)
            | OutOfFuel => (OutOfFuel, s)
            end
          else (Ok issue', s1)
      end
  end.

(** [add_comment_to_quality_issue]; [comment] is [comment_data.comment]. *)
Definition add_comment_to_quality_issue (t : Db.Tables) (s : QualityStore.t)
    (current_user portfolio_id issue_id : Z) (comment : string)
    : outcome QualityIssueComment.t * QualityStore.t :=
  match find_portfolio t portfolio_id current_user with
  | None => (Raise (HTTPException 404 "Portfolio not found"), s)
  | Some _ =>
      match query_issue s issue_id portfolio_id with
      | None => (Raise (HTTPException 404 "Quality issue not found"), s)
      | Some _ =>
          match make_QualityIssueComment None issue_id current_user comment None with
          | Ok new_comment => (Ok new_comment, QualityStore.add_comment new_comment s)
          | Raise e => (Raise e, s)
          | OutOfFuel => (OutOfFuel, s)
          end
      end
  end.

(** ** Counting helpers used in the statements *)

(** s.count(c) *)
Fixpoint count_char (c : ascii) (s : string) : nat :=
  match s with
  | EmptyString => 0%nat
  | String a s' => if Ascii.eqb a c then S (count_char c s') else count_char c s'
  end.

(** A string of ASCII decimal digits, and the number it writes. *)
Fixpoint all_digits (s : string) : bool :=
  match s with
  | EmptyString => true
  | String c s' => Py.is_digit c && all_digits s'
  end.

Fixpoint decimal_value (acc : Z) (s : string) : Z :=
  match s with
  | EmptyString => acc
  | String c s' => decimal_value (10 * acc + Py.digit_value c) s'
  end.

(** ** The effect of the page loop, in closed form *)

(** The table once the body of the inner loop has run on the rows at the
    positions [ps]: those rows are replaced by their staged versions. *)
Definition stage_rows (f : Loan.t -> Loan.t) (ps : list nat) (ls : list Loan.t)
    : list Loan.t :=
  imap (fun i l => if bool_decide (i ∈ ps) then f l else l) ls.

(** The counters once the body of the inner loop has run on the rows at the
    positions [ps]. *)
Definition count_rows {S : Type} (g : Loan.t -> S -> S) (ps : list nat) (ls : list Loan.t)
    (acc : S) : S :=
  fold_left (fun a l => g l a) (omap (fun i => ls !! i) ps) acc.

(** The inner [for] loop on a page of loaded objects, as a function of the
    table and the counters. *)
Definition page_writes {S : Type} (stage_loan : Loan.t -> S -> Loan.t * S)
    (batch : list (nat * Loan.t)) (st : list Loan.t * S) : list Loan.t * S :=
  fold_left
    (fun st x => (<[fst x := fst (stage_loan (snd x) (snd st))]> (fst st),
                  snd (stage_loan (snd x) (snd st))))
    batch st.

(** The objects of a page: the rows at the positions [ps]. *)
Definition load_rows (ls : list Loan.t) (ps : list nat) : list (nat * Loan.t) :=
  omap (fun i => option_map (pair i) (ls !! i)) ps.

(** A session whose working copy has the loans [ls]. *)
Definition with_loans (ls : list Loan.t) (s : Db.Session) : Db.Session :=
  Db.mkSession (Db.committed s) (Db.set_loans ls (Db.working s)) (Db.budget s).

(** A session with nothing pending on the tables [t]. *)
Definition clean (t : Db.Tables) (budget : option nat) : Db.Session :=
  Db.mkSession t t budget.

(** The budget after one storage operation; [None] when the operation
    fails. *)
Definition spend (budget : option nat) : option (option nat) :=
  match budget with
  | None => Some None
  | Some (S n) => Some (Some n)
  | Some O => None
  end.

(** The two halves of the loop bodies: the loan after the body (it does not
    depend on the counters) and the counters after the body. *)
Definition ecl_orm_staged (b : ECLBounds.t) (timestamp : Z) (loan : Loan.t) : Loan.t :=
  fst (ecl_orm_stage_loan (fst (ECLBounds.stage_2 b)) (snd (ECLBounds.stage_2 b))
         (fst (ECLBounds.stage_3 b)) timestamp loan (∅, ∅)).

Definition ecl_orm_counted (b : ECLBounds.t) (loan : Loan.t) (acc : gmap Z Z * gmap Z Q)
    : gmap Z Z * gmap Z Q :=
  snd (ecl_orm_stage_loan (fst (ECLBounds.stage_2 b)) (snd (ECLBounds.stage_2 b))
         (fst (ECLBounds.stage_3 b)) 0 loan acc).

Definition local_orm_staged (b : LocalBounds.t) (timestamp : Z) (loan : Loan.t) : Loan.t :=
  fst (local_orm_stage_loan b timestamp loan (∅, ∅)).

Definition local_orm_counted (b : LocalBounds.t) (loan : Loan.t)
    (acc : gmap string Z * gmap string Q) : gmap string Z * gmap string Q :=
  snd (local_orm_stage_loan b 0 loan acc).

Definition local_sync_staged (b : LocalBounds.t) (loan : Loan.t) : Loan.t :=
  fst (local_sync_stage_loan b loan (∅, ∅)).

Definition local_sync_counted (b : LocalBounds.t) (loan : Loan.t)
    (acc : gmap string Z * gmap string Q) : gmap string Z * gmap string Q :=
  snd (local_sync_stage_loan b loan acc).

(** The outcome of an [stage_loans_ecl_orm] run that meets no storage
    failure: the counters, the summary returned, and the tables left. *)
Definition ecl_orm_counters (b : ECLBounds.t) (portfolio_id : Z) (t : Db.Tables)
    : gmap Z Z * gmap Z Q :=
  count_rows (ecl_orm_counted b) (portfolio_rows portfolio_id (Db.loans t)) (Db.loans t)
    (<[1 := 0]> (<[2 := 0]> (<[3 := 0]> ∅)),
     <[1 := 0%Q]> (<[2 := 0%Q]> (<[3 := 0%Q]> ∅))).

Definition ecl_orm_totals (b : ECLBounds.t) (portfolio_id : Z) (t : Db.Tables) (k : Z)
    : StageTotals.t :=
  ecl_stage_totals (fst (ecl_orm_counters b portfolio_id t))
    ((fun v => Py.round v 2) <$> snd (ecl_orm_counters b portfolio_id t)) k.

Definition ecl_orm_return (b : ECLBounds.t) (portfolio_id : Z) (t : Db.Tables)
    : ECLStagingReturn.t :=
  ECLStagingReturn.mk (Z.of_nat (length (portfolio_rows portfolio_id (Db.loans t))))
    (ecl_orm_totals b portfolio_id t 1) (ecl_orm_totals b portfolio_id t 2)
    (ecl_orm_totals b portfolio_id t 3).

Definition ecl_orm_doc (b : ECLBounds.t) (portfolio_id : Z) (config : ECLStagingConfig.t)
    (timestamp : Z) (t : Db.Tables) : summary_doc :=
  ECLSummaryDoc (Some "completed"%string) (Some timestamp)
    (Some (Z.of_nat (length (portfolio_rows portfolio_id (Db.loans t)))))
    (ecl_orm_totals b portfolio_id t 1) (ecl_orm_totals b portfolio_id t 2)
    (ecl_orm_totals b portfolio_id t 3) (Some config).

(** The newest summary row of the kind, when there is one, takes the
    document. *)
Definition store_doc (portfolio_id : Z) (staging_type : string) (doc : summary_doc)
    (t : Db.Tables) : Db.Tables :=
  match newest_from 0 portfolio_id staging_type (Db.staging_results t) None with
  | Some i =>
      Db.set_staging_results
        (alter (StagingResult.set_result_summary (Some doc)) i (Db.staging_results t)) t
  | None => t
  end.

Definition ecl_orm_tables (b : ECLBounds.t) (portfolio_id : Z) (config : ECLStagingConfig.t)
    (timestamp : Z) (t : Db.Tables) : Db.Tables :=
  store_doc portfolio_id "ecl" (ecl_orm_doc b portfolio_id config timestamp t)
    (Db.set_loans
       (stage_rows (ecl_orm_staged b timestamp) (portfolio_rows portfolio_id (Db.loans t))
          (Db.loans t)) t).

(** The same for [stage_loans_local_impairment_orm]. *)
Definition local_orm_counters (b : LocalBounds.t) (portfolio_id : Z) (t : Db.Tables)
    : gmap string Z * gmap string Q :=
  count_rows (local_orm_counted b) (portfolio_rows portfolio_id (Db.loans t)) (Db.loans t)
    (local_initial_counts, local_initial_balances).

Definition local_orm_return (b : LocalBounds.t) (portfolio_id : Z) (t : Db.Tables)
    : LocalStagingReturn.t :=
  let category_counts := fst (local_orm_counters b portfolio_id t) in
  let category_balances :=
    (fun v => Py.round v 2) <$> snd (local_orm_counters b portfolio_id t) in
  LocalStagingReturn.mk (Z.of_nat (length (portfolio_rows portfolio_id (Db.loans t))))
    (local_category_return category_counts category_balances "Current" current_rate)
    (local_category_return category_counts category_balances "OLEM" olem_rate)
    (local_category_return category_counts category_balances "Substandard" substandard_rate)
    (local_category_return category_counts category_balances "Doubtful" doubtful_rate)
    (local_category_return category_counts category_balances "Loss" loss_rate).

Definition local_orm_doc (b : LocalBounds.t) (portfolio_id : Z)
    (config : LocalImpairmentConfig.t) (timestamp : Z) (t : Db.Tables) : summary_doc :=
  local_summary_doc (Some "completed"%string) (Some timestamp)
    (Some (Z.of_nat (length (portfolio_rows portfolio_id (Db.loans t)))))
    (fst (local_orm_counters b portfolio_id t))
    ((fun v => Py.round v 2) <$> snd (local_orm_counters b portfolio_id t))
    (Some config).

Definition local_orm_tables (b : LocalBounds.t) (portfolio_id : Z)
    (config : LocalImpairmentConfig.t) (timestamp : Z) (t : Db.Tables) : Db.Tables :=
  store_doc portfolio_id "local_impairment"
    (local_orm_doc b portfolio_id config timestamp t)
    (Db.set_loans
       (stage_rows (local_orm_staged b timestamp) (portfolio_rows portfolio_id (Db.loans t))
          (Db.loans t)) t).

(** The same for [stage_loans_local_impairment_orm_sync]: the row it adds
    and the tables it leaves. *)
Definition local_sync_counters (b : LocalBounds.t) (portfolio_id : Z) (t : Db.Tables)
    : gmap string Z * gmap string Q :=
  count_rows (local_sync_counted b) (portfolio_rows portfolio_id (Db.loans t)) (Db.loans t)
    (local_initial_counts, local_initial_balances).

Definition local_sync_row (b : LocalBounds.t) (portfolio_id : Z)
    (config : LocalImpairmentConfig.t) (timestamp : Z) (t : Db.Tables) : StagingResult.t :=
  StagingResult.mk portfolio_id "local_impairment" timestamp (Some (LocalConfigDoc config))
    (Some (local_summary_doc None None None
             (fst (local_sync_counters b portfolio_id t))
             (snd (local_sync_counters b portfolio_id t)) None)).

Definition local_sync_tables (b : LocalBounds.t) (portfolio_id : Z)
    (config : LocalImpairmentConfig.t) (timestamp : Z) (t : Db.Tables) : Db.Tables :=
  Db.set_staging_results
    (Db.staging_results t ++ [local_sync_row b portfolio_id config timestamp t])
    (Db.set_loans
       (stage_rows (local_sync_staged b) (portfolio_rows portfolio_id (Db.loans t))
          (Db.loans t)) t).

Definition local_sync_return (b : LocalBounds.t) (portfolio_id : Z) (t : Db.Tables)
    : LocalSyncReturn.t :=
  let category_counts := fst (local_sync_counters b portfolio_id t) in
  let category_balances := snd (local_sync_counters b portfolio_id t) in
  LocalSyncReturn.mk
    (getZ category_counts "Current") (getZ category_counts "OLEM")
    (getZ category_counts "Substandard") (getZ category_counts "Doubtful")
    (getZ category_counts "Loss")
    (getQ category_balances "Current") (getQ category_balances "OLEM")
    (getQ category_balances "Substandard") (getQ category_balances "Doubtful")
    (getQ category_balances "Loss")
    (sum_values category_counts).

(** The same for [stage_loans_ecl_orm_sync]. *)
Definition ecl_sync_staged (b : ECLBounds.t) (loan : Loan.t) : Loan.t :=
  fst (ecl_sync_stage_loan (snd (ECLBounds.stage_1 b)) (fst (ECLBounds.stage_2 b))
         (snd (ECLBounds.stage_2 b)) (fst (ECLBounds.stage_3 b)) (snd (ECLBounds.stage_3 b))
         loan (∅, ∅)).

Definition ecl_sync_counted (b : ECLBounds.t) (loan : Loan.t) (acc : gmap Z Z * gmap Z Q)
    : gmap Z Z * gmap Z Q :=
  snd (ecl_sync_stage_loan (snd (ECLBounds.stage_1 b)) (fst (ECLBounds.stage_2 b))
         (snd (ECLBounds.stage_2 b)) (fst (ECLBounds.stage_3 b)) (snd (ECLBounds.stage_3 b))
         loan acc).

Definition ecl_sync_counters (b : ECLBounds.t) (portfolio_id : Z) (t : Db.Tables)
    : gmap Z Z * gmap Z Q :=
  count_rows (ecl_sync_counted b) (portfolio_rows portfolio_id (Db.loans t)) (Db.loans t)
    (<[1 := 0]> (<[2 := 0]> (<[3 := 0]> ∅)),
     <[1 := 0%Q]> (<[2 := 0%Q]> (<[3 := 0%Q]> ∅))).

Definition ecl_sync_row (b : ECLBounds.t) (portfolio_id : Z) (config : ECLStagingConfig.t)
    (timestamp : Z) (t : Db.Tables) : StagingResult.t :=
  StagingResult.mk portfolio_id "ecl" timestamp (Some (ECLConfigDoc config))
    (Some (ECLSummaryDoc None None None
             (ecl_stage_totals (fst (ecl_sync_counters b portfolio_id t))
                (snd (ecl_sync_counters b portfolio_id t)) 1)
             (ecl_stage_totals (fst (ecl_sync_counters b portfolio_id t))
                (snd (ecl_sync_counters b portfolio_id t)) 2)
             (ecl_stage_totals (fst (ecl_sync_counters b portfolio_id t))
                (snd (ecl_sync_counters b portfolio_id t)) 3)
             None)).

Definition ecl_sync_tables (b : ECLBounds.t) (portfolio_id : Z) (config : ECLStagingConfig.t)
    (timestamp : Z) (t : Db.Tables) : Db.Tables :=
  Db.set_staging_results
    (Db.staging_results t ++ [ecl_sync_row b portfolio_id config timestamp t])
    (Db.set_loans
       (stage_rows (ecl_sync_staged b) (portfolio_rows portfolio_id (Db.loans t))
          (Db.loans t)) t).

Definition ecl_sync_return (b : ECLBounds.t) (portfolio_id : Z) (t : Db.Tables)
    : ECLSyncReturn.t :=
  let stage_counts := fst (ecl_sync_counters b portfolio_id t) in
  let stage_balances := snd (ecl_sync_counters b portfolio_id t) in
  ECLSyncReturn.mk
    (getZ stage_counts 1) (getZ stage_counts 2) (getZ stage_counts 3)
    (getQ stage_balances 1) (getQ stage_balances 2) (getQ stage_balances 3)
    (sum_values stage_counts).

(** The stage [stage_loans_ecl_orm_sync] gives a loan and the category
    [stage_loans_local_impairment_orm_sync] gives it: none for a loan without
    days past due, which the loop skips, or when no branch is taken. *)
Definition ecl_sync_stage_of (b : ECLBounds.t) (loan : Loan.t) : option Z :=
  match Loan.ndia loan with
  | Some ndia =>
      ecl_sync_stage (snd (ECLBounds.stage_1 b)) (fst (ECLBounds.stage_2 b))
        (snd (ECLBounds.stage_2 b)) (fst (ECLBounds.stage_3 b)) (snd (ECLBounds.stage_3 b))
        ndia
  | None => None
  end.

Definition local_sync_category_of (b : LocalBounds.t) (loan : Loan.t) : option string :=
  match Loan.ndia loan with
  | Some ndia => local_orm_category b ndia
  | None => None
  end.

(** The labels in the response of a staging route. *)
Definition stage_labels (response : outcome (list LoanStageInfo.t)) : outcome (list string) :=
  match response with
  | Ok loans => Ok (LoanStageInfo.stage <$> loans)
  | Raise e => Raise e
  | OutOfFuel => OutOfFuel
  end.

(** ** The aggregation in the words of the specification *)

(** A staged loan reference resolves when the store has a loan with its id. *)
Definition resolved (t : Db.Tables) (l : LoanStageInfo.t) : bool :=
  match find_loan t (LoanStageInfo.loan_id l) with
  | Some _ => true
  | None => false
  end.

(** The staged loans assigned to a category (named in lower case) that
    resolve in the store. *)
Definition category_loans (t : Db.Tables) (category : string) (loans : list LoanStageInfo.t)
    : list LoanStageInfo.t :=
  List.filter
    (fun l => resolved t l && String.eqb (Py.lower (LoanStageInfo.stage l)) category) loans.

(** balanceTotal: the sum of the staged outstanding balances of a category. *)
Definition category_balance (t : Db.Tables) (category : string)
    (loans : list LoanStageInfo.t) : Q :=
  fold_left Qplus (LoanStageInfo.outstanding_loan_balance <$> category_loans t category loans)
    0%Q.

(** What the loop of [calculate_local_provision] has put into the bucket [b]
    of a category, starting from [b0]. *)
Definition bucket_spec (t : Db.Tables) (category : string) (loans : list LoanStageInfo.t)
    (b0 b : bucket) : Prop :=
  snd b = fold_left Qplus
            (LoanStageInfo.outstanding_loan_balance <$> category_loans t category loans)
            (snd b0)
  /\ length (fst b) = (length (fst b0) + length (category_loans t category loans))%nat.

(** The reported rate of a stage against its provision and balance: the
    effective rate rounded to four decimals, the effective rate being the
    quotient for a positive balance and 0 for a zero balance. *)
Definition effective_rate_spec (b : bucket) (provision : Q) (data : CategoryData.t) : Prop :=
  CategoryData.provision_rate data = Py.round (effective_rate provision (snd b)) 4
  /\ ((0 < snd b)%Q -> effective_rate provision (snd b) = (provision / snd b)%Q)
  /\ ((snd b == 0)%Q ->
      effective_rate provision (snd b) = 0%Q
      /\ (CategoryData.provision_rate data == 0)%Q).

(** A stage whose rate, rounded to four decimals, does not fit the decimal
    context: its balance is positive. *)
Definition rate_overflows (b : bucket) (provision : Q) : Prop :=
  (0 < snd b)%Q /\ Py.fits_decimal (provision / snd b)%Q 4 = false.

(** The provision percentage of the totals [acc], before rounding. *)
Definition ecl_percentage (acc : ECLAcc.t) : Q :=
  ((ECLAcc.stage_1_provision acc + ECLAcc.stage_2_provision acc
    + ECLAcc.stage_3_provision acc)
   / (snd (ECLAcc.stage_1 acc) + snd (ECLAcc.stage_2 acc) + snd (ECLAcc.stage_3 acc))
   * 100)%Q.

(** The percentage of the totals [acc], rounded to two decimals, does not fit
    the decimal context: the total balance is positive. *)
Definition percentage_overflows (acc : ECLAcc.t) : Prop :=
  (0 < snd (ECLAcc.stage_1 acc) + snd (ECLAcc.stage_2 acc) + snd (ECLAcc.stage_3 acc))%Q
  /\ Py.fits_decimal (ecl_percentage acc) 2 = false.

(** Some rounding of the summary of the totals [acc] does not fit the decimal
    context: the rate of a stage or the percentage. *)
Definition summary_overflows (acc : ECLAcc.t) : Prop :=
  rate_overflows (ECLAcc.stage_1 acc) (ECLAcc.stage_1_provision acc)
  \/ rate_overflows (ECLAcc.stage_2 acc) (ECLAcc.stage_2_provision acc)
  \/ rate_overflows (ECLAcc.stage_3 acc) (ECLAcc.stage_3_provision acc)
  \/ percentage_overflows acc.

(** A category of a stored summary carries the rate [rate] and the
    provision balance x [rate]. *)
Definition category_at_rate (c : CategoryTotals.t) (rate : Q) : Prop :=
  (CategoryTotals.provision_rate c == rate)%Q
  /\ (CategoryTotals.provision_amount c
      == CategoryTotals.outstanding_loan_balance c * rate)%Q.

(** A stored local-impairment summary with the rates 0.01, 0.05, 0.25, 0.5
    and 1.0. *)
Definition has_fixed_rates (doc : summary_doc) : Prop :=
  match doc with
  | LocalSummaryDoc _ _ _ current olem substandard doubtful loss _ =>
      category_at_rate current (1 # 100)
      /\ category_at_rate olem (5 # 100)
      /\ category_at_rate substandard (25 # 100)
      /\ category_at_rate doubtful (5 # 10)
      /\ category_at_rate loss 1
  | _ => False
  end.



(** summary.get("status") of a stored summary. *)
Definition summary_status (doc : summary_doc) : option string :=
  match doc with
  | ECLSummaryDoc status _ _ _ _ _ _ => status
  | LocalSummaryDoc status _ _ _ _ _ _ _ _ => status
  | OtherSummaryDoc _ => None
  end.

(** The status of each stored staging result, in table order. *)
Definition stored_statuses (t : Db.Tables) : list (option (option string)) :=
  (fun r => summary_status <$> StagingResult.result_summary r) <$> Db.staging_results t.

(** ** Example data *)

Module Sample.

(** A loan of portfolio 7 with the given id, days past due and balance. *)
Definition loan (id : Z) (ndia : option Z) (balance : Q) : Loan.t :=
  Loan.mk id 7 (Some "E1"%string) ndia (Some balance) (Some 200%Q) (Some 100%Q)
    (Some 1000%Q) (Some 12) (Some 0) None None None None.

Definition tables (loans : list Loan.t) : Db.Tables :=
  Db.mkTables loans
    [StagingResult.mk 7 "ecl" 1 None None;
     StagingResult.mk 7 "local_impairment" 1 None None]
    [Portfolio.mk 7 1] [Client.mk 1 (Some "E1"%string)] [Security.mk 1 1 5%Q].

(** Ranges with a gap: 30 belongs to no category (upper bounds are
    exclusive). *)
Definition gap_config : LocalImpairmentConfig.t :=
  LocalImpairmentConfig.mk "0-30" "31-90" "91-180" "181-360" "361+".

Definition ecl_config : ECLStagingConfig.t := ECLStagingConfig.mk "0-30" "30-90" "90+".

(** Overlapping ranges: 100 is in the Stage 1 and in the Stage 3 range. *)
Definition overlap_config : ECLStagingConfig.t :=
  ECLStagingConfig.mk "0-120" "30-90" "90+".

Definition staged (id : Z) (stage : string) (balance : Q) : LoanStageInfo.t :=
  LoanStageInfo.mk id "E1" stage balance 0 0 1000%Q 100%Q 12 0%Q.

(** The float 1e-30. *)
Definition tiny_balance : Q := Qmake 1 (10 ^ 30).

Definition five_loans : list Loan.t :=
  [loan 1 (Some 0) 1000; loan 2 (Some 40) 200; loan 3 (Some 100) 100;
   loan 4 (Some 200) 50; loan 5 (Some 400) 20].


Definition spec_rates : ProvisionRateConfig.t :=
  ProvisionRateConfig.mk (1 # 100) (5 # 100) (25 # 100) (5 # 10) 1.

(** Calculators that return the components of the specification's ECL
    example: LGD 0.1, PD 0.01, EAD% 0.9, and
    marginal ECL = balance x EAD% x PD x LGD. *)
Definition calculators : Calculators := {|
  calculate_loss_given_default := fun _ _ => Ok (1 # 10)%Q;
  calculate_probability_of_default := fun _ _ => Ok (1 # 100)%Q;
  calculate_exposure_at_default_percentage := fun _ _ => Ok (9 # 10)%Q;
  calculate_marginal_ecl := fun loan ead pd lgd =>
    Ok (default 0%Q (Loan.outstanding_loan_balance loan) * ead * pd * lgd)%Q |}.

(** [n] current loans of portfolio 7, with the ids 1 to [n]. *)
Definition many_loans (n : nat) : list Loan.t :=
  (fun i => loan (Z.of_nat i) (Some 10) 1) <$> seq 1 n.

Definition ecl_bounds : ECLBounds.t :=
  ECLBounds.mk (0, Some 30) (30, Some 90) (90, None).

Definition gap_bounds : LocalBounds.t :=
  LocalBounds.mk (0, Some 30) (31, Some 90) (91, Some 180) (181, Some 360) (361, None).

(** Calculators whose PD calculation raises. *)
Definition failing_calculators : Calculators := {|
  calculate_loss_given_default := fun _ _ => Ok (1 # 10)%Q;
  calculate_probability_of_default := fun _ _ => Raise (CalculatorError "pd");
  calculate_exposure_at_default_percentage := fun _ _ => Ok (9 # 10)%Q;
  calculate_marginal_ecl := fun _ _ _ _ => Ok 0%Q |}.

(** Three quality issues: two open ones of portfolio 7 and an open one of
    portfolio 8. *)
Definition quality_store : QualityStore.t :=
  QualityStore.mk
    [QualityIssue.mk 1 7 "open"; QualityIssue.mk 2 8 "open"; QualityIssue.mk 3 7 "open"] [].

(** The tables after a complete ECL staging run of portfolio 7, which holds
    a loan at 10 days and a loan at 100 days. *)
Definition staged_once : Db.Tables :=
  Db.committed
    (snd (stage_loans_ecl_orm 7 ecl_config 98
            (Db.open (tables [loan 1 (Some 10) 1; loan 2 (Some 100) 1]) None))).

End Sample.

(** * Properties *)

(** ** Range parsing *)

Section RangeParsing.

Lemma endswith_snoc (p : string) (c : ascii) :
  Py.endswith (p +:+ String c EmptyString) c = true.
Proof.
  induction p as [|a p IH]; simpl.
  - apply Ascii.eqb_refl.
  - destruct (p +:+ String c EmptyString) eqn:E; [destruct p; discriminate|].
    exact IH.
Qed.

Lemma drop_last_snoc (p : string) (c : ascii) :
  Py.drop_last (p +:+ String c EmptyString) = p.
Proof.
  induction p as [|a p IH]; simpl; [reflexivity|].
  destruct (p +:+ String c EmptyString) eqn:E; [destruct p; discriminate|].
  now rewrite IH.
Qed.

Lemma split_length (s : string) (sep : ascii) :
  length (Py.split s sep) = S (count_char sep s).
Proof.
  induction s as [|a s IH]; simpl; [reflexivity|].
  destruct (Ascii.eqb a sep); simpl; [now rewrite IH|].
  destruct (Py.split s sep); simpl in *; [discriminate|exact IH].
Qed.

Lemma split_no_sep (s : string) (sep : ascii) :
  count_char sep s = 0%nat -> Py.split s sep = [s].
Proof.
  induction s as [|a s IH]; simpl; [reflexivity|].
  destruct (Ascii.eqb a sep); [discriminate|].
  intros H. now rewrite (IH H).
Qed.

Lemma split_one_sep (a b : string) (sep : ascii) :
  count_char sep a = 0%nat -> count_char sep b = 0%nat ->
  Py.split (a +:+ String sep b) sep = [a; b].
Proof.
  intros Ha Hb. induction a as [|c a IH]; simpl in *.
  - rewrite Ascii.eqb_refl. now rewrite (split_no_sep _ _ Hb).
  - destruct (Ascii.eqb c sep); [discriminate|].
    now rewrite (IH Ha).
Qed.

Lemma int_error (s : string) (e : exception) :
  Py.int s = Raise e -> e = InvalidIntLiteral s.
Proof.
  unfold Py.int.
  destruct (match Py.strip s with
            | String "+" rest => Py.digits 0 true rest
            | String "-" rest => option_map Z.opp (Py.digits 0 true rest)
            | _ => Py.digits 0 true (Py.strip s)
            end); [discriminate|].
  now intros [= <-].
Qed.

Lemma int_not_out_of_fuel (s : string) : Py.int s <> OutOfFuel.
Proof.
  unfold Py.int.
  now destruct (match Py.strip s with
                | String "+" rest => Py.digits 0 true rest
                | String "-" rest => option_map Z.opp (Py.digits 0 true rest)
                | _ => Py.digits 0 true (Py.strip s)
                end).
Qed.

Lemma parse_days_range_nonempty (s : string) :
  s <> EmptyString ->
  parse_days_range (Some s)
  = if Py.endswith s "+" then n ← Py.int (Py.drop_last s); Ok (n, None)
    else match Py.split s "-" with
         | [p0; p1] => lo ← Py.int p0; hi ← Py.int p1; Ok (lo, Some hi)
         | _ => Raise (InvalidDaysRange s)
         end.
Proof. destruct s; [congruence|reflexivity]. Qed.

Lemma append_nonempty (a b : string) : b <> EmptyString -> a +:+ b <> EmptyString.
Proof. destruct a, b; simpl; intros H; try discriminate; now contradict H. Qed.

Lemma parse_days_range_plus (p : string) :
  parse_days_range (Some (p +:+ "+")) = (n ← Py.int p; Ok (n, None)).
Proof.
  rewrite parse_days_range_nonempty by (now apply append_nonempty).
  now rewrite endswith_snoc, drop_last_snoc.
Qed.

Lemma parse_days_range_dash (a b : string) :
  count_char "-" a = 0%nat -> count_char "-" b = 0%nat ->
  Py.endswith (a +:+ String "-" b) "+" = false ->
  parse_days_range (Some (a +:+ String "-" b))
  = (lo ← Py.int a; hi ← Py.int b; Ok (lo, Some hi)).
Proof.
  intros Ha Hb He.
  rewrite parse_days_range_nonempty by (now apply append_nonempty).
  now rewrite He, (split_one_sep _ _ _ Ha Hb).
Qed.

Lemma parse_days_range_malformed (s : string) :
  s <> EmptyString -> Py.endswith s "+" = false -> count_char "-" s <> 1%nat ->
  parse_days_range (Some s) = Raise (InvalidDaysRange s).
Proof.
  intros Hs He Hc.
  rewrite (parse_days_range_nonempty _ Hs), He.
  pose proof (split_length s "-") as Hl.
  destruct (Py.split s "-") as [|p0 [|p1 [|p2 ps]]]; try reflexivity.
  simpl in Hl. injection Hl as Hl. now contradict Hc.
Qed.

Lemma parse_days_range_raises_ValueError (d : option string) (e : exception) :
  parse_days_range d = Raise e -> is_ValueError e = true.
Proof.
  unfold parse_days_range.
  destruct d as [[|c s]|]; try discriminate.
  destruct (Py.endswith (String c s) "+").
  - destruct (Py.int (Py.drop_last (String c s))) eqn:E; simpl; try discriminate.
    intros [= <-]. now rewrite (int_error _ _ E).
  - destruct (Py.split (String c s) "-") as [|p0 [|p1 [|p2 ps]]];
      try (now intros [= <-]).
    destruct (Py.int p0) eqn:E0; simpl; try discriminate.
    + destruct (Py.int p1) eqn:E1; simpl; try discriminate.
      intros [= <-]. now rewrite (int_error _ _ E1).
    + intros [= <-]. now rewrite (int_error _ _ E0).
Qed.

End RangeParsing.

(** C5 (amended): [parse_days_range] maps the absent and the empty string to
    (0, unbounded); p+"+" to (int(p), unbounded); a+"-"+b, with no other
    dash and no trailing plus, to (int(a), int(b)).  A non-empty string
    without trailing plus whose number of dashes is not one raises the
    "Invalid days range format" error that carries the whole string; a part
    that is not an integer literal raises the error of int(), which carries
    that part only.  Every error is a ValueError. *)
Theorem parse_days_range_shapes :
  parse_days_range None = Ok (0, None)
  /\ parse_days_range (Some EmptyString) = Ok (0, None)
  /\ (forall p : string,
        parse_days_range (Some (p +:+ "+")) = (n ← Py.int p; Ok (n, None)))
  /\ (forall a b : string,
        count_char "-" a = 0%nat -> count_char "-" b = 0%nat ->
        Py.endswith (a +:+ String "-" b) "+" = false ->
        parse_days_range (Some (a +:+ String "-" b))
        = (lo ← Py.int a; hi ← Py.int b; Ok (lo, Some hi)))
  /\ (forall s : string,
        s <> EmptyString -> Py.endswith s "+" = false -> count_char "-" s <> 1%nat ->
        parse_days_range (Some s) = Raise (InvalidDaysRange s))
  /\ (forall (s : string) (e : exception), Py.int s = Raise e -> e = InvalidIntLiteral s)
  /\ (forall (d : option string) (e : exception),
        parse_days_range d = Raise e -> is_ValueError e = true)
  /\ parse_days_range (Some "0-30"%string) = Ok (0, Some 30)
  /\ parse_days_range (Some "90+"%string) = Ok (90, None)
  /\ parse_days_range (Some "abc"%string) = Raise (InvalidDaysRange "abc").
Proof.
  repeat split; try reflexivity.
  - apply parse_days_range_plus.
  - apply parse_days_range_dash.
  - apply parse_days_range_malformed.
  - apply int_error.
  - apply parse_days_range_raises_ValueError.
Qed.

Lemma parse_days_range_shapes_witness :
  parse_days_range (Some ("10" +:+ String "-" "45"))
  = (lo ← Py.int "10"; hi ← Py.int "45"; Ok (lo, Some hi))
  /\ parse_days_range (Some "1-2-3"%string) = Raise (InvalidDaysRange "1-2-3").
Proof.
  destruct parse_days_range_shapes as (_ & _ & _ & Hdash & Hbad & _).
  split.
  - apply (Hdash "10"%string "45"%string); reflexivity.
  - apply (Hbad "1-2-3"%string); [discriminate | reflexivity | simpl; lia].
Defined.

(** C5, as stated, fails on "a-b": the error raised is the one of int() and
    carries "a", not the offending range string. *)
Lemma parse_days_range_a_b :
  parse_days_range (Some "a-b"%string) = Raise (InvalidIntLiteral "a")
  /\ parse_days_range (Some "a-b"%string) <> Raise (InvalidDaysRange "a-b").
Proof. split; [reflexivity | discriminate]. Qed.

(** ** Classification in the routes *)

(** C1: on ranges with a gap the local-impairment route does not label the
    loan.  A first loan at 30 days leaves the local variable [stage] unbound
    and the route raises; after a loan at 95 days, the loan at 30 days is
    reported with that loan's label.  The ECL route, on its gap, falls back
    to Stage 3. *)
Theorem stage_loans_local_impairment_gap :
  stage_loans_local_impairment
    (Sample.tables [Sample.loan 1 (Some 30) 5]) 1 7 Sample.gap_config
  = Raise (UnboundLocalError "stage")
  /\ stage_labels
       (stage_loans_local_impairment
          (Sample.tables [Sample.loan 1 (Some 95) 50; Sample.loan 2 (Some 30) 5])
          1 7 Sample.gap_config)
     = Ok ["Substandard"; "Substandard"]%string
  /\ stage_labels
       (stage_loans_ecl (Sample.tables [Sample.loan 1 (Some (-5)) 5]) 1 7 Sample.ecl_config)
     = Ok ["Stage 3"]%string.
Proof. repeat split; vm_compute; reflexivity. Qed.

(** C2: on overlapping ranges the three ECL implementations disagree about a
    loan at 100 days: [stage_loans_ecl_orm] tests the Stage 3 bound first and
    stores stage 3, [stage_loans_ecl_orm_sync] and the [stage_loans_ecl] route
    test Stage 1 first and give Stage 1. *)
Theorem ecl_order_disagreement :
  Loan.ecl_stage <$>
    Db.loans (Db.committed (snd (stage_loans_ecl_orm 7 Sample.overlap_config 0
      (Db.open (Sample.tables [Sample.loan 1 (Some 100) 5]) None))))
  = [Some 3]
  /\ Loan.stage <$>
    Db.loans (Db.committed (snd (stage_loans_ecl_orm_sync 7 Sample.overlap_config 0
      (Db.open (Sample.tables [Sample.loan 1 (Some 100) 5]) None))))
  = [Some "Stage 1"%string]
  /\ stage_labels
       (stage_loans_ecl (Sample.tables [Sample.loan 1 (Some 100) 5]) 1 7
          Sample.overlap_config)
     = Ok ["Stage 1"]%string.
Proof. repeat split; vm_compute; reflexivity. Qed.

(** ** Provision aggregation *)

Section LocalProvision.

Variable t : Db.Tables.

Lemma bucket_spec_skip (category : string) (l : LoanStageInfo.t)
    (loans : list LoanStageInfo.t) (b0 b : bucket) :
  resolved t l && String.eqb (Py.lower (LoanStageInfo.stage l)) category = false ->
  bucket_spec t category loans b0 b -> bucket_spec t category (l :: loans) b0 b.
Proof.
  intros Hf [H1 H2]. unfold bucket_spec, category_loans in *. simpl.
  now rewrite Hf.
Qed.

Lemma bucket_spec_add (category : string) (l : LoanStageInfo.t) (loan : Loan.t)
    (loans : list LoanStageInfo.t) (b0 b : bucket) :
  resolved t l && String.eqb (Py.lower (LoanStageInfo.stage l)) category = true ->
  bucket_spec t category loans
    (bucket_add loan (LoanStageInfo.outstanding_loan_balance l) b0) b ->
  bucket_spec t category (l :: loans) b0 b.
Proof.
  intros Hf [H1 H2]. unfold bucket_spec, category_loans in *. simpl.
  rewrite Hf. simpl. split; [exact H1|].
  rewrite H2. unfold bucket_add. simpl. rewrite length_app. simpl. lia.
Qed.

Lemma local_provision_fold (loans : list LoanStageInfo.t) (acc0 : LocalAcc.t) :
  let acc := fold_left (fun acc l => local_provision_loan t l acc) loans acc0 in
  bucket_spec t "current" loans (LocalAcc.current acc0) (LocalAcc.current acc)
  /\ bucket_spec t "olem" loans (LocalAcc.olem acc0) (LocalAcc.olem acc)
  /\ bucket_spec t "substandard" loans (LocalAcc.substandard acc0) (LocalAcc.substandard acc)
  /\ bucket_spec t "doubtful" loans (LocalAcc.doubtful acc0) (LocalAcc.doubtful acc)
  /\ bucket_spec t "loss" loans (LocalAcc.loss acc0) (LocalAcc.loss acc).
Proof.
  revert acc0. induction loans as [|l loans IH]; intros acc0; simpl.
  - unfold bucket_spec, category_loans; simpl. repeat split; lia.
  - specialize (IH (local_provision_loan t l acc0)).
    destruct IH as (I1 & I2 & I3 & I4 & I5).
    unfold local_provision_loan in *.
    assert (Hres : resolved t l
                   = match find_loan t (LoanStageInfo.loan_id l) with
                     | Some _ => true | None => false end) by reflexivity.
    destruct (find_loan t (LoanStageInfo.loan_id l)) as [loan|].
    + destruct (String.eqb_spec (Py.lower (LoanStageInfo.stage l)) "current") as [E|N1];
        [|destruct (String.eqb_spec (Py.lower (LoanStageInfo.stage l)) "olem") as [E|N2];
          [|destruct (String.eqb_spec (Py.lower (LoanStageInfo.stage l)) "substandard")
              as [E|N3];
            [|destruct (String.eqb_spec (Py.lower (LoanStageInfo.stage l)) "doubtful")
                as [E|N4];
              [|destruct (String.eqb_spec (Py.lower (LoanStageInfo.stage l)) "loss")
                  as [E|N5]]]]];
        simpl in *;
        repeat split;
        first [ apply (bucket_spec_add _ _ loan);
                [rewrite Hres; try rewrite E; reflexivity | assumption]
              | apply bucket_spec_skip;
                [rewrite Hres; try rewrite E; simpl;
                 try reflexivity; now apply String.eqb_neq
                | assumption] ].
    + repeat split; apply bucket_spec_skip; try assumption; now rewrite Hres.
Qed.

Lemma local_provision_loop_totals (loans : list LoanStageInfo.t) :
  let acc := local_provision_loop t loans in
  snd (LocalAcc.current acc) = category_balance t "current" loans
  /\ snd (LocalAcc.olem acc) = category_balance t "olem" loans
  /\ snd (LocalAcc.substandard acc) = category_balance t "substandard" loans
  /\ snd (LocalAcc.doubtful acc) = category_balance t "doubtful" loans
  /\ snd (LocalAcc.loss acc) = category_balance t "loss" loans.
Proof.
  destruct (local_provision_fold loans LocalAcc.empty)
    as ((H1 & _) & (H2 & _) & (H3 & _) & (H4 & _) & (H5 & _)).
  repeat split; assumption.
Qed.

End LocalProvision.



Lemma Qpositive_zero (x : Q) : (x == 0)%Q -> Qpositive x = false.
Proof.
  intros H. unfold Qpositive.
  assert (Hle : Qle_bool x 0 = true) by (apply Qle_bool_iff; rewrite H; apply Qle_refl).
  now rewrite Hle.
Qed.

Lemma Qpositive_pos (x : Q) : (0 < x)%Q -> Qpositive x = true.
Proof.
  intros H. unfold Qpositive.
  destruct (Qle_bool x 0) eqn:E; [|reflexivity].
  apply Qle_bool_iff in E. exfalso. exact (Qlt_not_le _ _ H E).
Qed.

Lemma round_guarded_cases (total x : Q) (ndigits : nat) :
  round_guarded total x ndigits = Ok (Py.round x ndigits)
  \/ (round_guarded total x ndigits = Raise InvalidOperation
      /\ Qpositive total = true /\ Py.fits_decimal x ndigits = false).
Proof.
  unfold round_guarded, Py.round_decimal.
  destruct (Qpositive total); [|now left].
  destruct (Py.fits_decimal x ndigits); [now left|now right].
Qed.

Lemma Qpositive_true (x : Q) : Qpositive x = true -> (0 < x)%Q.
Proof.
  unfold Qpositive. intros H. apply Qnot_le_lt. intros Hle.
  apply Qle_bool_iff in Hle. rewrite Hle in H. discriminate H.
Qed.

Lemma ecl_category_data_cases (b : bucket) (provision : Q) :
  (exists data : CategoryData.t,
     ecl_category_data b provision = Ok data /\ effective_rate_spec b provision data)
  \/ (ecl_category_data b provision = Raise InvalidOperation /\ rate_overflows b provision).
Proof.
  unfold ecl_category_data.
  destruct (round_guarded_cases (snd b) (effective_rate provision (snd b)) 4)
    as [-> | (-> & Hpos & Hfit)].
  - left. eexists. split; [reflexivity|].
    unfold effective_rate_spec, effective_rate; simpl.
    split; [reflexivity|]. split.
    + intros H. now rewrite (Qpositive_pos _ H).
    + intros H. rewrite (Qpositive_zero _ H). split; reflexivity.
  - right. split; [reflexivity|]. split; [now apply Qpositive_true|].
    unfold effective_rate in Hfit. now rewrite Hpos in Hfit.
Qed.

(** The summary of the totals [acc]: it is returned with the three rates and
    the percentage of the source, or the rounding of a rate or of the
    percentage over a positive balance raises. *)
Lemma ecl_provision_summary_cases (portfolio_id reporting_date : Z) (acc : ECLAcc.t) :
  (exists r : ECLSummary.t,
     ecl_provision_summary portfolio_id reporting_date acc = Ok r
     /\ effective_rate_spec (ECLAcc.stage_1 acc) (ECLAcc.stage_1_provision acc)
          (ECLSummary.stage_1 r)
     /\ effective_rate_spec (ECLAcc.stage_2 acc) (ECLAcc.stage_2_provision acc)
          (ECLSummary.stage_2 r)
     /\ effective_rate_spec (ECLAcc.stage_3 acc) (ECLAcc.stage_3_provision acc)
          (ECLSummary.stage_3 r)
     /\ ((snd (ECLAcc.stage_1 acc) + snd (ECLAcc.stage_2 acc)
          + snd (ECLAcc.stage_3 acc) == 0)%Q ->
         (ECLSummaryMetrics.provision_percentage (ECLSummary.summary_metrics r) == 0)%Q))
  \/ (ecl_provision_summary portfolio_id reporting_date acc = Raise InvalidOperation
      /\ summary_overflows acc).
Proof.
  unfold ecl_provision_summary, summary_overflows.
  destruct (ecl_category_data_cases (ECLAcc.stage_1 acc) (ECLAcc.stage_1_provision acc))
    as [(d1 & -> & H1) | (-> & H1)]; [|right; split; [reflexivity|tauto]].
  destruct (ecl_category_data_cases (ECLAcc.stage_2 acc) (ECLAcc.stage_2_provision acc))
    as [(d2 & -> & H2) | (-> & H2)]; [|right; split; [reflexivity|tauto]].
  destruct (ecl_category_data_cases (ECLAcc.stage_3 acc) (ECLAcc.stage_3_provision acc))
    as [(d3 & -> & H3) | (-> & H3)]; [|right; split; [reflexivity|tauto]].
  cbn [mbind outcome_bind].
  match goal with
  | |- context [round_guarded ?total ?x ?n] =>
      destruct (round_guarded_cases total x n) as [-> | (-> & Hpos & Hfit)]
  end.
  - left. eexists. split; [reflexivity|]. simpl.
    split; [exact H1|]. split; [exact H2|]. split; [exact H3|].
    intros Hz. now rewrite (Qpositive_zero _ Hz).
  - right. split; [reflexivity|]. do 3 right.
    split; [now apply Qpositive_true|].
    rewrite Hpos in Hfit. exact Hfit.
Qed.

(** C7: aggregation raises on no zero denominator, but the ECL route raises
    on a large rate.  [calculate_local_provision] returns the percentage 0
    when the total staged balance is 0.  When [calculate_ecl_provision]
    returns, each stage carries the rate provision / balance (rounded to 4
    decimals) for a positive balance and 0 for a zero balance, and the
    percentage is 0 when the total balance is 0; when its loop has returned,
    the route raises only [InvalidOperation], and only on a rate or
    percentage over a positive balance whose rounding does not fit the
    decimal context.  That happens: for a staged balance of 1e-30 and a loan
    whose expected loss is 0.9, the route raises instead of returning the
    rate. *)
Theorem provision_zero_denominators :
  (forall (t : Db.Tables) (current_user : Z) (staged_loans : StagedLoans.t)
          (provision_config : ProvisionRateConfig.t) (reporting_date : Z),
     find_portfolio t (StagedLoans.portfolio_id staged_loans) current_user <> None ->
     let balance c := category_balance t c (StagedLoans.loans staged_loans) in
     (balance "current" + balance "olem" + balance "substandard" + balance "doubtful"
      + balance "loss" == 0)%Q%string ->
     exists r : LocalImpairmentSummary.t,
       calculate_local_provision t current_user staged_loans provision_config reporting_date
       = Ok r
       /\ (LocalImpairmentSummary.provision_percentage r == 0)%Q)
  /\ (forall (calc : Calculators) (t : Db.Tables) (current_user : Z)
             (staged_loans : StagedLoans.t) (reporting_date : Z) (acc : ECLAcc.t),
        find_portfolio t (StagedLoans.portfolio_id staged_loans) current_user <> None ->
        ecl_provision_loop t reporting_date (StagedLoans.loans staged_loans) = Ok acc ->
        (forall r : ECLSummary.t,
           calculate_ecl_provision t current_user staged_loans reporting_date = Ok r ->
           effective_rate_spec (ECLAcc.stage_1 acc) (ECLAcc.stage_1_provision acc)
             (ECLSummary.stage_1 r)
           /\ effective_rate_spec (ECLAcc.stage_2 acc) (ECLAcc.stage_2_provision acc)
                (ECLSummary.stage_2 r)
           /\ effective_rate_spec (ECLAcc.stage_3 acc) (ECLAcc.stage_3_provision acc)
                (ECLSummary.stage_3 r)
           /\ ((snd (ECLAcc.stage_1 acc) + snd (ECLAcc.stage_2 acc)
                + snd (ECLAcc.stage_3 acc) == 0)%Q ->
               (ECLSummaryMetrics.provision_percentage (ECLSummary.summary_metrics r)
                == 0)%Q))
        /\ (forall e : exception,
              calculate_ecl_provision t current_user staged_loans reporting_date = Raise e ->
              e = InvalidOperation /\ summary_overflows acc)
        /\ calculate_ecl_provision t current_user staged_loans reporting_date <> OutOfFuel)
  /\ @calculate_ecl_provision Sample.calculators (Sample.tables Sample.five_loans) 1
       (StagedLoans.mk 7 [Sample.staged 1 "Stage 1" Sample.tiny_balance]) 0
     = Raise InvalidOperation.
Proof.
  split; [|split].
  - intros t current_user staged_loans provision_config reporting_date Hp balance Hz.
    unfold calculate_local_provision.
    destruct (find_portfolio t (StagedLoans.portfolio_id staged_loans) current_user);
      [|congruence].
    eexists. split; [reflexivity|].
    destruct (local_provision_loop_totals t (StagedLoans.loans staged_loans))
      as (H1 & H2 & H3 & H4 & H5).
    unfold local_provision_summary; simpl.
    rewrite H1, H2, H3, H4, H5.
    unfold balance in Hz. now rewrite (Qpositive_zero _ Hz).
  - intros calc t current_user staged_loans reporting_date acc Hp Hloop.
    unfold calculate_ecl_provision.
    destruct (find_portfolio t (StagedLoans.portfolio_id staged_loans) current_user);
      [|congruence].
    rewrite Hloop. cbn [mbind outcome_bind].
    destruct (ecl_provision_summary_cases (StagedLoans.portfolio_id staged_loans)
                reporting_date acc) as [(r0 & -> & Hr0) | (-> & Hover)].
    + split; [|split; discriminate]. intros r [= <-]. exact Hr0.
    + split; [discriminate|]. split; [|discriminate].
      intros e [= <-]. split; [reflexivity|exact Hover].
  - vm_compute. reflexivity.
Qed.

Lemma provision_zero_denominators_witness :
  (exists r : LocalImpairmentSummary.t,
     calculate_local_provision (Sample.tables Sample.five_loans) 1
       (StagedLoans.mk 7 [Sample.staged 1 "Current" 0]) Sample.spec_rates 0 = Ok r
     /\ (LocalImpairmentSummary.provision_percentage r == 0)%Q)
  /\ (exists r : ECLSummary.t,
        @calculate_ecl_provision Sample.calculators (Sample.tables Sample.five_loans) 1
          (StagedLoans.mk 7 [Sample.staged 1 "Stage 1" 1000; Sample.staged 2 "Stage 2" 0])
          0 = Ok r
        /\ (CategoryData.provision_rate (ECLSummary.stage_2 r) == 0)%Q).
Proof.
  destruct provision_zero_denominators as (Hlocal & Hecl & _). split.
  - apply Hlocal; [vm_compute; discriminate | vm_compute; reflexivity].
  - destruct (Hecl Sample.calculators (Sample.tables Sample.five_loans) 1
                (StagedLoans.mk 7 [Sample.staged 1 "Stage 1" 1000;
                                   Sample.staged 2 "Stage 2" 0]) 0
                (ECLAcc.mk ([Sample.loan 1 (Some 0) 1000], (0 + 1000)%Q)
                           ([Sample.loan 2 (Some 40) 200], (0 + 0)%Q) ([], 0%Q)
                           (0 + 1000 * (9 # 10) * (1 # 100) * (1 # 10))%Q
                           (0 + 200 * (9 # 10) * (1 # 100) * (1 # 10))%Q 0%Q
                           (0 + (1 # 10) + (1 # 10))%Q (0 + (1 # 100) + (1 # 100))%Q
                           (0 + (9 # 10) + (9 # 10))%Q 2))
      as (Hok & _ & _).
    + vm_compute. discriminate.
    + vm_compute. reflexivity.
    + eexists. split; [vm_compute; reflexivity|].
      match goal with
      | |- (CategoryData.provision_rate (ECLSummary.stage_2 ?r) == 0)%Q =>
          destruct (Hok r) as (_ & (_ & _ & H2) & _); [vm_compute; reflexivity|]
      end.
      apply H2. reflexivity.
Defined.

(** *** Unresolved references *)

Section Unresolved.

Variable t : Db.Tables.

Lemma local_provision_loan_unresolved (l : LoanStageInfo.t) (acc : LocalAcc.t) :
  resolved t l = false -> local_provision_loan t l acc = acc.
Proof.
  unfold resolved, local_provision_loan.
  now destruct (find_loan t (LoanStageInfo.loan_id l)).
Qed.

Lemma local_provision_fold_filter (loans : list LoanStageInfo.t) (acc : LocalAcc.t) :
  fold_left (fun acc l => local_provision_loan t l acc) loans acc
  = fold_left (fun acc l => local_provision_loan t l acc)
      (List.filter (resolved t) loans) acc.
Proof.
  revert acc. induction loans as [|l loans IH]; intros acc; simpl; [reflexivity|].
  destruct (resolved t l) eqn:E; simpl.
  - apply IH.
  - rewrite (local_provision_loan_unresolved _ _ E). apply IH.
Qed.

(** The securities grouped under an employee id. *)
Lemma group_fold_lookup (secs : list Security.t) (m : gmap string (list Security.t))
    (e : string) :
  default []
    (fold_left
       (fun cs s =>
          match security_owner t s with
          | Some e' => <[e' := default [] (cs !! e') ++ [s]]> cs
          | None => cs
          end) secs m !! e)
  = default [] (m !! e) ++ filter (fun s => security_owner t s = Some e) secs.
Proof.
  revert m. induction secs as [|s secs IH]; intros m; simpl.
  - now rewrite app_nil_r.
  - rewrite IH. rewrite filter_cons.
    destruct (security_owner t s) as [e'|] eqn:Ho.
    + destruct (decide (e' = e)) as [->|Hne].
      * rewrite lookup_insert_eq. simpl.
        rewrite decide_True by reflexivity. now rewrite <- app_assoc.
      * rewrite lookup_insert_ne by exact Hne.
        rewrite decide_False by congruence. reflexivity.
    + rewrite decide_False by congruence. reflexivity.
Qed.

Lemma owner_joins (ids : gset string) (s : Security.t) (e : string) :
  e ∈ ids -> security_owner t s = Some e ->
  existsb (fun c => Z.eqb (Client.id c) (Security.client_id s)
                    && match Client.employee_id c with
                       | Some e => bool_decide (e ∈ ids)
                       | None => false
                       end)
          (Db.clients t) = true.
Proof.
  intros He Ho. unfold security_owner, find_client in Ho.
  destruct (find (fun c => Z.eqb (Client.id c) (Security.client_id s)) (Db.clients t))
    as [c|] eqn:Hf; [|discriminate].
  apply find_some in Hf. destruct Hf as [Hin Hid].
  apply existsb_exists. exists c. split; [exact Hin|].
  rewrite Hid. simpl.
  destruct (Client.employee_id c) as [e'|]; [|discriminate].
  destruct (String.eqb e' EmptyString); [discriminate|].
  injection Ho as ->. now apply bool_decide_eq_true.
Qed.

Lemma group_securities_lookup (ids : gset string) (e : string) :
  e ∈ ids ->
  default [] (group_securities t ids !! e)
  = filter (fun s => security_owner t s = Some e) (Db.securities t).
Proof.
  intros He. unfold group_securities.
  rewrite bool_decide_eq_false_2 by set_solver.
  rewrite group_fold_lookup, lookup_empty. simpl.
  unfold query_securities.
  induction (Db.securities t) as [|s secs IH]; [reflexivity|].
  rewrite !filter_cons.
  destruct (decide (security_owner t s = Some e)) as [Ho|Ho].
  - rewrite decide_True by (now apply owner_joins with e).
    rewrite filter_cons, decide_True by exact Ho. now rewrite IH.
  - destruct (decide (existsb _ (Db.clients t) = true)).
    + rewrite filter_cons, decide_False by exact Ho. exact IH.
    + exact IH.
Qed.

Context {calc : Calculators}.

Lemma ecl_provision_loan_unresolved (cs : gmap string (list Security.t)) (d : Z)
    (l : LoanStageInfo.t) (acc : ECLAcc.t) :
  resolved t l = false -> ecl_provision_loan t cs d l acc = Ok acc.
Proof.
  unfold resolved, ecl_provision_loan.
  now destruct (find_loan t (LoanStageInfo.loan_id l)).
Qed.

Lemma ecl_provision_loan_ext (cs1 cs2 : gmap string (list Security.t)) (d : Z)
    (l : LoanStageInfo.t) (acc : ECLAcc.t) :
  default [] (cs1 !! LoanStageInfo.employee_id l)
  = default [] (cs2 !! LoanStageInfo.employee_id l) ->
  ecl_provision_loan t cs1 d l acc = ecl_provision_loan t cs2 d l acc.
Proof. intros H. unfold ecl_provision_loan. now rewrite H. Qed.

Lemma ecl_provision_for_each_filter (cs1 cs2 : gmap string (list Security.t)) (d : Z)
    (loans : list LoanStageInfo.t) (acc : ECLAcc.t) :
  (forall l, l ∈ loans -> resolved t l = true ->
             default [] (cs1 !! LoanStageInfo.employee_id l)
             = default [] (cs2 !! LoanStageInfo.employee_id l)) ->
  for_each_outcome loans (ecl_provision_loan t cs1 d) acc
  = for_each_outcome (List.filter (resolved t) loans) (ecl_provision_loan t cs2 d) acc.
Proof.
  revert acc. induction loans as [|l loans IH]; intros acc Hcs; simpl; [reflexivity|].
  assert (Hrest : forall l', l' ∈ loans -> resolved t l' = true ->
            default [] (cs1 !! LoanStageInfo.employee_id l')
            = default [] (cs2 !! LoanStageInfo.employee_id l')).
  { intros l' Hin. apply Hcs. now right. }
  destruct (resolved t l) eqn:E; simpl.
  - rewrite (ecl_provision_loan_ext cs1 cs2) by (apply Hcs; [left|exact E]).
    destruct (ecl_provision_loan t cs2 d l acc); simpl; try reflexivity.
    now apply IH.
  - rewrite (ecl_provision_loan_unresolved _ _ _ _ E). simpl. now apply IH.
Qed.

Lemma ecl_provision_loop_filter (d : Z) (loans : list LoanStageInfo.t) :
  ecl_provision_loop t d loans = ecl_provision_loop t d (List.filter (resolved t) loans).
Proof.
  unfold ecl_provision_loop. apply ecl_provision_for_each_filter.
  intros l Hin Hres.
  rewrite !group_securities_lookup; [reflexivity| |].
  - unfold client_ids_of. apply elem_of_list_to_set, list_elem_of_fmap_2.
    apply list_elem_of_In, filter_In. split; [now apply list_elem_of_In | exact Hres].
  - unfold client_ids_of. now apply elem_of_list_to_set, list_elem_of_fmap_2.
Qed.

Lemma filter_unresolved (loans : list LoanStageInfo.t) :
  Forall (fun l => find_loan t (LoanStageInfo.loan_id l) = None) loans ->
  List.filter (resolved t) loans = [].
Proof.
  induction 1 as [|l loans Hl _ IH]; simpl; [reflexivity|].
  unfold resolved at 1. now rewrite Hl.
Qed.

End Unresolved.

(** C8: a staged loan reference whose loan id does not resolve is skipped by
    both aggregations.  Each returns what it returns on the resolved
    references alone, so the reference adds to no total, provision, count or
    averaging denominator; and when no reference resolves the result is the
    summary of the empty totals, not a failure. *)
Theorem unresolved_references_skipped :
  (forall (t : Db.Tables) (current_user portfolio_id : Z) (loans : list LoanStageInfo.t)
          (provision_config : ProvisionRateConfig.t) (reporting_date : Z),
     calculate_local_provision t current_user (StagedLoans.mk portfolio_id loans)
       provision_config reporting_date
     = calculate_local_provision t current_user
         (StagedLoans.mk portfolio_id (List.filter (resolved t) loans))
         provision_config reporting_date)
  /\ (forall (calc : Calculators) (t : Db.Tables) (current_user portfolio_id : Z)
             (loans : list LoanStageInfo.t) (reporting_date : Z),
        calculate_ecl_provision t current_user (StagedLoans.mk portfolio_id loans)
          reporting_date
        = calculate_ecl_provision t current_user
            (StagedLoans.mk portfolio_id (List.filter (resolved t) loans)) reporting_date)
  /\ (forall (calc : Calculators) (t : Db.Tables) (current_user portfolio_id : Z)
             (loans : list LoanStageInfo.t) (provision_config : ProvisionRateConfig.t)
             (reporting_date : Z),
        find_portfolio t portfolio_id current_user <> None ->
        Forall (fun l => find_loan t (LoanStageInfo.loan_id l) = None) loans ->
        calculate_local_provision t current_user (StagedLoans.mk portfolio_id loans)
          provision_config reporting_date
        = Ok (local_provision_summary portfolio_id reporting_date LocalAcc.empty
                provision_config)
        /\ exists r : ECLSummary.t,
             ecl_provision_summary portfolio_id reporting_date ECLAcc.empty = Ok r
             /\ calculate_ecl_provision t current_user (StagedLoans.mk portfolio_id loans)
                  reporting_date
                = Ok r).
Proof.
  assert (Hlocal : forall t current_user portfolio_id loans provision_config reporting_date,
            calculate_local_provision t current_user (StagedLoans.mk portfolio_id loans)
              provision_config reporting_date
            = calculate_local_provision t current_user
                (StagedLoans.mk portfolio_id (List.filter (resolved t) loans))
                provision_config reporting_date).
  { intros. unfold calculate_local_provision, local_provision_loop; simpl.
    now rewrite local_provision_fold_filter. }
  assert (Hecl : forall (calc : Calculators) t current_user portfolio_id loans reporting_date,
            calculate_ecl_provision t current_user (StagedLoans.mk portfolio_id loans)
              reporting_date
            = calculate_ecl_provision t current_user
                (StagedLoans.mk portfolio_id (List.filter (resolved t) loans))
                reporting_date).
  { intros. unfold calculate_ecl_provision; simpl.
    now rewrite ecl_provision_loop_filter. }
  split; [exact Hlocal|]. split; [exact Hecl|].
  intros calc t current_user portfolio_id loans provision_config reporting_date Hp Hall.
  rewrite Hlocal, Hecl, (filter_unresolved _ _ Hall).
  unfold calculate_local_provision, calculate_ecl_provision; simpl.
  destruct (find_portfolio t portfolio_id current_user); [|congruence].
  split; [reflexivity|]. eexists. split; reflexivity.
Qed.

Lemma unresolved_references_skipped_witness :
  calculate_local_provision (Sample.tables Sample.five_loans) 1
    (StagedLoans.mk 7 [Sample.staged 8 "Loss" 70; Sample.staged 9 "Current" 10])
    Sample.spec_rates 0
  = Ok (local_provision_summary 7 0 LocalAcc.empty Sample.spec_rates)
  /\ exists r : ECLSummary.t,
       ecl_provision_summary 7 0 ECLAcc.empty = Ok r
       /\ @calculate_ecl_provision Sample.calculators (Sample.tables Sample.five_loans) 1
            (StagedLoans.mk 7 [Sample.staged 8 "Loss" 70; Sample.staged 9 "Current" 10]) 0
          = Ok r.
Proof.
  destruct unresolved_references_skipped as (_ & _ & H).
  apply (H Sample.calculators).
  - vm_compute. discriminate.
  - repeat constructor.
Defined.

(** ** The page loop *)

Lemma tables_eta (t : Db.Tables) : Db.set_loans (Db.loans t) t = t.
Proof. now destruct t. Qed.

Lemma positions_from_bounds (i : nat) (bs : list bool) (p : nat) :
  p ∈ positions_from i bs -> (i <= p < i + length bs)%nat.
Proof.
  revert i. induction bs as [|b bs IH]; intros i; simpl.
  - intros H. now apply elem_of_nil in H.
  - destruct b.
    + intros [->|H]%elem_of_cons; [lia|]. apply IH in H. lia.
    + intros H. apply IH in H. lia.
Qed.

Lemma positions_from_NoDup (i : nat) (bs : list bool) : NoDup (positions_from i bs).
Proof.
  revert i. induction bs as [|b bs IH]; intros i; simpl; [constructor|].
  destruct b; [|apply IH].
  constructor; [|apply IH].
  intros H. apply positions_from_bounds in H. lia.
Qed.

Lemma portfolio_rows_lt (pid : Z) (ls : list Loan.t) (p : nat) :
  p ∈ portfolio_rows pid ls -> (p < length ls)%nat.
Proof.
  unfold portfolio_rows. intros H. apply positions_from_bounds in H.
  rewrite length_map in H. lia.
Qed.

Lemma portfolio_rows_NoDup (pid : Z) (ls : list Loan.t) : NoDup (portfolio_rows pid ls).
Proof. apply positions_from_NoDup. Qed.

Lemma stage_rows_lookup (f : Loan.t -> Loan.t) (ps : list nat) (ls : list Loan.t) (i : nat) :
  stage_rows f ps ls !! i = (if bool_decide (i ∈ ps) then f else id) <$> ls !! i.
Proof.
  unfold stage_rows. rewrite list_lookup_imap.
  destruct (ls !! i); simpl; [|reflexivity]. now destruct (bool_decide (i ∈ ps)).
Qed.

Lemma stage_rows_length (f : Loan.t -> Loan.t) (ps : list nat) (ls : list Loan.t) :
  length (stage_rows f ps ls) = length ls.
Proof. unfold stage_rows. apply length_imap. Qed.

Lemma stage_rows_nil (f : Loan.t -> Loan.t) (ls : list Loan.t) : stage_rows f [] ls = ls.
Proof.
  apply list_eq. intros i. rewrite stage_rows_lookup.
  rewrite bool_decide_eq_false_2 by apply not_elem_of_nil.
  now destruct (ls !! i).
Qed.

Lemma stage_rows_app (f : Loan.t -> Loan.t) (ps1 ps2 : list nat) (ls : list Loan.t) :
  (forall i, i ∈ ps1 -> i ∉ ps2) ->
  stage_rows f ps2 (stage_rows f ps1 ls) = stage_rows f (ps1 ++ ps2) ls.
Proof.
  intros Hdisj. apply list_eq. intros i. rewrite !stage_rows_lookup.
  destruct (ls !! i) as [l|]; simpl; [|reflexivity].
  destruct (decide (i ∈ ps1)) as [H1|H1]; destruct (decide (i ∈ ps2)) as [H2|H2].
  - now apply Hdisj in H1.
  - rewrite (bool_decide_eq_true_2 _ H1), (bool_decide_eq_false_2 _ H2).
    rewrite bool_decide_eq_true_2 by (apply elem_of_app; now left). reflexivity.
  - rewrite (bool_decide_eq_false_2 _ H1), (bool_decide_eq_true_2 _ H2).
    rewrite bool_decide_eq_true_2 by (apply elem_of_app; now right). reflexivity.
  - rewrite (bool_decide_eq_false_2 _ H1), (bool_decide_eq_false_2 _ H2).
    rewrite bool_decide_eq_false_2; [reflexivity|].
    intros [H|H]%elem_of_app; contradiction.
Qed.

Lemma count_rows_app {S : Type} (g : Loan.t -> S -> S) (ps1 ps2 : list nat)
    (ls : list Loan.t) (acc : S) :
  count_rows g (ps1 ++ ps2) ls acc = count_rows g ps2 ls (count_rows g ps1 ls acc).
Proof. unfold count_rows. now rewrite omap_app, fold_left_app. Qed.

(** Counters that read only what staging preserves do not see earlier
    staging. *)
Lemma count_rows_stage_rows {S : Type} (f : Loan.t -> Loan.t) (g : Loan.t -> S -> S)
    (ps ps' : list nat) (ls : list Loan.t) (acc : S) :
  (forall l a, g (f l) a = g l a) ->
  count_rows g ps (stage_rows f ps' ls) acc = count_rows g ps ls acc.
Proof.
  intros Hg. unfold count_rows. revert acc.
  induction ps as [|p ps IH]; intros acc; simpl; [reflexivity|].
  rewrite stage_rows_lookup.
  destruct (ls !! p) as [l|]; simpl; [|apply IH].
  destruct (bool_decide (p ∈ ps')); simpl; [rewrite Hg|]; apply IH.
Qed.

Lemma portfolio_rows_stage_rows (f : Loan.t -> Loan.t) (pid : Z) (ps : list nat)
    (ls : list Loan.t) :
  (forall l, Loan.portfolio_id (f l) = Loan.portfolio_id l) ->
  portfolio_rows pid (stage_rows f ps ls) = portfolio_rows pid ls.
Proof.
  intros Hf. unfold portfolio_rows. f_equal.
  apply list_eq. intros i. rewrite !list_lookup_fmap, stage_rows_lookup.
  destruct (ls !! i) as [l|]; simpl; [|reflexivity].
  destruct (bool_decide (i ∈ ps)); simpl; [now rewrite Hf | reflexivity].
Qed.

Lemma set_loans_set_loans (ls ls' : list Loan.t) (t : Db.Tables) :
  Db.set_loans ls (Db.set_loans ls' t) = Db.set_loans ls t.
Proof. reflexivity. Qed.

Lemma load_rows_nil_inv (pid : Z) (ls : list Loan.t) (ps : list nat) :
  (forall p, p ∈ ps -> (p < length ls)%nat) -> load_rows ls ps = [] -> ps = [].
Proof.
  intros Hlt. destruct ps as [|p ps]; [reflexivity|].
  unfold load_rows; simpl.
  destruct (lookup_lt_is_Some_2 ls p (Hlt p ltac:(left))) as [l Hl].
  rewrite Hl. discriminate.
Qed.

Lemma bind_eq {A B : Type} (m : M A) (k : A -> M B) (s : Db.Session) :
  (m ≫= k) s
  = match m s with
    | (Ok a, s') => k a s'
    | (Raise e, s') => (Raise e, s')
    | (OutOfFuel, s') => (OutOfFuel, s')
    end.
Proof. reflexivity. Qed.

Lemma query_loan_page_eq (pid : Z) (offset limit : nat) (C W : Db.Tables)
    (budget : option nat) :
  query_loan_page pid offset limit (Db.mkSession C W budget)
  = match spend budget with
    | None => (Raise StorageFailure, Db.mkSession C W budget)
    | Some budget1 =>
        (Ok (load_rows (Db.loans W)
               (take limit (drop offset (portfolio_rows pid (Db.loans W))))),
         Db.mkSession C W budget1)
    end.
Proof. destruct budget as [[|m]|]; reflexivity. Qed.

Lemma query_loan_count_eq (pid : Z) (C W : Db.Tables) (budget : option nat) :
  query_loan_count pid (Db.mkSession C W budget)
  = match spend budget with
    | None => (Raise StorageFailure, Db.mkSession C W budget)
    | Some budget1 =>
        (Ok (Z.of_nat (length (portfolio_rows pid (Db.loans W)))), Db.mkSession C W budget1)
    end.
Proof. destruct budget as [[|m]|]; reflexivity. Qed.

Lemma query_latest_staging_result_eq (pid : Z) (ty : string) (C W : Db.Tables)
    (budget : option nat) :
  query_latest_staging_result pid ty (Db.mkSession C W budget)
  = match spend budget with
    | None => (Raise StorageFailure, Db.mkSession C W budget)
    | Some budget1 =>
        (Ok (newest_from 0 pid ty (Db.staging_results W) None), Db.mkSession C W budget1)
    end.
Proof. destruct budget as [[|m]|]; reflexivity. Qed.

Lemma commit_eq (C W : Db.Tables) (budget : option nat) :
  commit (Db.mkSession C W budget)
  = match spend budget with
    | None => (Raise StorageFailure, Db.mkSession C W budget)
    | Some budget1 => (Ok tt, Db.mkSession W W budget1)
    end.
Proof. destruct budget as [[|m]|]; reflexivity. Qed.

Section PageLoop.

Context {S : Type}.
Variable stage_loan : Loan.t -> S -> Loan.t * S.
Variable f : Loan.t -> Loan.t.
Variable g : Loan.t -> S -> S.
Hypothesis Hstep : forall l a, stage_loan l a = (f l, g l a).
Hypothesis Hpid : forall l, Loan.portfolio_id (f l) = Loan.portfolio_id l.
Hypothesis Hg : forall l a, g (f l) a = g l a.
Variable pid : Z.
Variable bs : nat.
Hypothesis Hbs : (0 < bs)%nat.

Lemma stage_and_write_eq (i : nat) (l : Loan.t) (acc : S) (s : Db.Session) :
  stage_and_write stage_loan (i, l) acc s
  = (Ok (g l acc), with_loans (<[i := f l]> (Db.loans (Db.working s))) s).
Proof. unfold stage_and_write. rewrite Hstep. reflexivity. Qed.

Lemma for_each_page (batch : list (nat * Loan.t)) (acc : S) (s : Db.Session) :
  for_each batch (stage_and_write stage_loan) acc s
  = (Ok (snd (page_writes stage_loan batch (Db.loans (Db.working s), acc))),
     with_loans (fst (page_writes stage_loan batch (Db.loans (Db.working s), acc))) s).
Proof.
  revert acc s. induction batch as [|[i l] batch IH]; intros acc s.
  - simpl. unfold with_loans. rewrite tables_eta. now destruct s.
  - cbn [for_each]. unfold mbind, session_bind.
    rewrite stage_and_write_eq, IH.
    unfold page_writes. cbn [fold_left fst snd]. rewrite Hstep. reflexivity.
Qed.

Lemma page_writes_gen (ps : list nat) (ls T : list Loan.t) (acc : S) :
  length T = length ls ->
  snd (page_writes stage_loan (load_rows ls ps) (T, acc)) = count_rows g ps ls acc
  /\ forall j, fst (page_writes stage_loan (load_rows ls ps) (T, acc)) !! j
               = if bool_decide (j ∈ ps) then f <$> ls !! j else T !! j.
Proof.
  revert T acc. induction ps as [|p ps IH]; intros T acc Hlen.
  - split; [reflexivity|]. intros j.
    now rewrite bool_decide_eq_false_2 by apply not_elem_of_nil.
  - unfold load_rows, count_rows, page_writes. simpl.
    destruct (ls !! p) as [l|] eqn:Hl; simpl.
    + rewrite Hstep. simpl.
      destruct (IH (<[p := f l]> T) (g l acc)) as [IH1 IH2];
        [now rewrite length_insert|].
      split; [exact IH1|].
      intros j. unfold load_rows, page_writes in IH2. rewrite IH2.
      destruct (decide (j ∈ ps)) as [Hin|Hin].
      * rewrite (bool_decide_eq_true_2 _ Hin).
        rewrite bool_decide_eq_true_2 by (now right). reflexivity.
      * rewrite (bool_decide_eq_false_2 _ Hin).
        destruct (decide (j = p)) as [->|Hne].
        -- rewrite bool_decide_eq_true_2 by (now left).
           rewrite list_lookup_insert_eq, Hl; [reflexivity|].
           rewrite Hlen. now apply lookup_lt_Some with l.
        -- rewrite bool_decide_eq_false_2
             by (intros [?|?]%elem_of_cons; contradiction).
           now rewrite list_lookup_insert_ne.
    + destruct (IH T acc Hlen) as [IH1 IH2].
      split; [exact IH1|].
      intros j. unfold load_rows, page_writes in IH2. rewrite IH2.
      destruct (decide (j ∈ ps)) as [Hin|Hin].
      * rewrite (bool_decide_eq_true_2 _ Hin).
        rewrite bool_decide_eq_true_2 by (now right). reflexivity.
      * rewrite (bool_decide_eq_false_2 _ Hin).
        destruct (decide (j = p)) as [->|Hne].
        -- rewrite bool_decide_eq_true_2 by (now left).
           rewrite Hl. simpl. apply lookup_ge_None. rewrite Hlen.
           now apply lookup_ge_None.
        -- now rewrite bool_decide_eq_false_2
             by (intros [?|?]%elem_of_cons; contradiction).
Qed.

Lemma page_writes_load (ps : list nat) (ls : list Loan.t) (acc : S) :
  page_writes stage_loan (load_rows ls ps) (ls, acc)
  = (stage_rows f ps ls, count_rows g ps ls acc).
Proof.
  destruct (page_writes_gen ps ls ls acc eq_refl) as [H1 H2].
  destruct (page_writes stage_loan (load_rows ls ps) (ls, acc)) as [T' acc'].
  simpl in *. f_equal; [|exact H1].
  apply list_eq. intros j. rewrite H2, stage_rows_lookup.
  destruct (bool_decide (j ∈ ps)); [reflexivity|].
  now destruct (ls !! j).
Qed.

(** One turn of the loop. *)
Lemma staging_pages_unfold (n offset : nat) (acc : S) (C W : Db.Tables)
    (budget : option nat) :
  staging_pages stage_loan (Datatypes.S n) pid bs offset acc (Db.mkSession C W budget)
  = match spend budget with
    | None => (Raise StorageFailure, Db.mkSession C W budget)
    | Some budget1 =>
        let page := take bs (drop offset (portfolio_rows pid (Db.loans W))) in
        match page with
        | [] => (Ok acc, Db.mkSession C W budget1)
        | _ =>
            let W1 := Db.set_loans (stage_rows f page (Db.loans W)) W in
            let acc1 := count_rows g page (Db.loans W) acc in
            match spend budget1 with
            | None => (Raise StorageFailure, Db.mkSession C W1 budget1)
            | Some budget2 =>
                staging_pages stage_loan n pid bs (offset + bs) acc1
                  (Db.mkSession W1 W1 budget2)
            end
        end
    end.
Proof.
  assert (Hvalid : forall p,
            p ∈ take bs (drop offset (portfolio_rows pid (Db.loans W))) ->
            (p < length (Db.loans W))%nat).
  { intros p Hp. apply (portfolio_rows_lt pid).
    apply (subseteq_drop offset), (subseteq_take bs). exact Hp. }
  cbn [staging_pages]. rewrite bind_eq, query_loan_page_eq.
  destruct (spend budget) as [budget1|]; [|reflexivity].
  destruct (load_rows (Db.loans W)
              (take bs (drop offset (portfolio_rows pid (Db.loans W))))) eqn:Hb.
  - now rewrite (load_rows_nil_inv pid _ _ Hvalid Hb).
  - rewrite <- Hb.
    destruct (take bs (drop offset (portfolio_rows pid (Db.loans W)))) eqn:Hpage;
      [discriminate|]. rewrite <- Hpage.
    rewrite bind_eq, for_each_page. cbn [Db.working].
    rewrite page_writes_load. cbn [fst snd]. unfold with_loans.
    cbn [Db.committed Db.working Db.budget].
    rewrite bind_eq, commit_eq.
    cbv zeta. now destruct (spend budget1).
Qed.

Lemma take_drop_disjoint (a b : nat) (L : list nat) :
  NoDup L -> forall i, i ∈ take a L -> i ∉ take b (drop a L).
Proof.
  intros Hnd i Hi Hi'. rewrite <- (take_drop a L) in Hnd.
  apply NoDup_app in Hnd. destruct Hnd as (_ & Hdisj & _).
  apply (Hdisj i Hi). now apply (subseteq_take b).
Qed.

Lemma take_nil_inv (L : list nat) : take bs L = [] -> L = [].
Proof. destruct L, bs; simpl; try reflexivity; [lia | discriminate]. Qed.

(** The state reached from the start of page [j] after one more page. *)
Lemma next_page_rows (j : nat) (T : Db.Tables) (c : nat) :
  let R := portfolio_rows pid (Db.loans T) in
  let page := take bs (drop (j * bs) R) in
  stage_rows f (take c (drop (Datatypes.S j * bs) R)) (stage_rows f page (Db.loans T))
  = stage_rows f (take (bs + c) (drop (j * bs) R)) (Db.loans T).
Proof.
  intros R page.
  rewrite stage_rows_app.
  - unfold page.
    replace (Datatypes.S j * bs)%nat with (j * bs + bs)%nat by lia.
    now rewrite <- drop_drop, take_take_drop.
  - intros i Hi. unfold page in Hi.
    replace (Datatypes.S j * bs)%nat with (j * bs + bs)%nat by lia.
    rewrite <- drop_drop. apply take_drop_disjoint; [|exact Hi].
    apply (sublist_NoDup _ R); [apply portfolio_rows_NoDup | apply sublist_drop].
Qed.

(** Without storage failure the loop stages every remaining row. *)
Lemma staging_pages_complete (n j : nat) (acc : S) (T : Db.Tables) :
  (length (portfolio_rows pid (Db.loans T)) <= (j + n) * bs)%nat ->
  staging_pages stage_loan (Datatypes.S n) pid bs (j * bs) acc (clean T None)
  = (Ok (count_rows g (drop (j * bs) (portfolio_rows pid (Db.loans T))) (Db.loans T) acc),
     clean (Db.set_loans
              (stage_rows f (drop (j * bs) (portfolio_rows pid (Db.loans T))) (Db.loans T))
              T) None).
Proof.
  revert j acc T. induction n as [|n IH]; intros j acc T Hlen;
    unfold clean; rewrite staging_pages_unfold; cbn [spend]; cbv zeta.
  - rewrite drop_ge by lia. rewrite take_nil.
    unfold count_rows; simpl. now rewrite stage_rows_nil, tables_eta.
  - destruct (take bs (drop (j * bs) (portfolio_rows pid (Db.loans T)))) eqn:Hpage.
    + apply take_nil_inv in Hpage. rewrite Hpage.
      unfold count_rows; simpl. now rewrite stage_rows_nil, tables_eta.
    + rewrite <- Hpage.
      replace (j * bs + bs)%nat with (Datatypes.S j * bs)%nat by lia.
      fold (clean (Db.set_loans
                     (stage_rows f (take bs (drop (j * bs)
                        (portfolio_rows pid (Db.loans T)))) (Db.loans T)) T) None).
      rewrite IH; cbn [Db.loans Db.set_loans];
        rewrite ?portfolio_rows_stage_rows by exact Hpid; [|lia].
      set (R := portfolio_rows pid (Db.loans T)).
      assert (Hsplit : drop (j * bs) R
                       = take bs (drop (j * bs) R) ++ drop (Datatypes.S j * bs) R).
      { replace (Datatypes.S j * bs)%nat with (j * bs + bs)%nat by lia.
        now rewrite <- drop_drop, take_drop. }
      f_equal.
      * f_equal. rewrite count_rows_stage_rows by exact Hg.
        rewrite Hsplit at 2. now rewrite count_rows_app.
      * f_equal. unfold Db.set_loans; cbn [Db.loans Db.staging_results Db.portfolios
          Db.clients Db.securities]. f_equal.
        pose proof (next_page_rows j T (length R)) as Hn. cbv zeta in Hn. fold R in Hn.
        rewrite (take_ge (drop (Datatypes.S j * bs) R)) in Hn
          by (rewrite length_drop; lia).
        rewrite Hn. rewrite take_ge by (rewrite length_drop; lia). reflexivity.
Qed.

(** A storage failure at the fetch ([d = 0]) or at the commit ([d = 1]) of
    the page that is [k] pages ahead: the pages before it are committed,
    and the failing page is pending when it was the commit that failed.
    The pages that are written must exist; the page whose fetch fails need
    not. *)
Lemma staging_pages_fail (k d n j : nat) (acc : S) (T : Db.Tables) :
  (d <= 1)%nat -> (k <= n)%nat ->
  ((k + d = 0)%nat
   \/ ((j + k + d - 1) * bs < length (portfolio_rows pid (Db.loans T)))%nat) ->
  staging_pages stage_loan (Datatypes.S n) pid bs (j * bs) acc
    (clean T (Some (2 * k + d)%nat))
  = (Raise StorageFailure,
     Db.mkSession
       (Db.set_loans
          (stage_rows f (take (k * bs) (drop (j * bs) (portfolio_rows pid (Db.loans T))))
             (Db.loans T)) T)
       (Db.set_loans
          (stage_rows f
             (take ((k + d) * bs) (drop (j * bs) (portfolio_rows pid (Db.loans T))))
             (Db.loans T)) T)
       (Some 0%nat)).
Proof.
  revert n j acc T. induction k as [|k IH]; intros n j acc T Hd Hk Hlen;
    unfold clean; rewrite staging_pages_unfold.
  - destruct d as [|[|d]]; [| |lia]; cbn [Nat.mul Nat.add spend]; cbv zeta.
    + now rewrite take_0, stage_rows_nil, tables_eta.
    + destruct (take bs (drop (j * bs) (portfolio_rows pid (Db.loans T)))) eqn:Hpage.
      * apply take_nil_inv in Hpage.
        apply (f_equal length) in Hpage. rewrite length_drop in Hpage. simpl in Hpage.
        destruct Hlen as [Hlen|Hlen]; [lia|].
        replace (j + 0 + 1 - 1)%nat with j in Hlen by lia. lia.
      * rewrite <- Hpage. rewrite stage_rows_nil, tables_eta.
        now rewrite Nat.add_0_r.
  - replace (2 * Datatypes.S k + d)%nat with (Datatypes.S (Datatypes.S (2 * k + d))) by lia.
    cbn [spend]; cbv zeta.
    assert (Hj : (j * bs < length (portfolio_rows pid (Db.loans T)))%nat).
    { destruct Hlen as [Hlen|Hlen]; [lia|].
      eapply Nat.le_lt_trans; [|exact Hlen]. apply Nat.mul_le_mono_r. lia. }
    destruct (take bs (drop (j * bs) (portfolio_rows pid (Db.loans T)))) eqn:Hpage.
    + apply take_nil_inv in Hpage.
      apply (f_equal length) in Hpage. rewrite length_drop in Hpage. simpl in Hpage. lia.
    + rewrite <- Hpage. destruct n as [|n]; [lia|].
      replace (j * bs + bs)%nat with (Datatypes.S j * bs)%nat by lia.
      fold (clean (Db.set_loans
                     (stage_rows f (take bs (drop (j * bs)
                        (portfolio_rows pid (Db.loans T)))) (Db.loans T)) T)
              (Some (2 * k + d)%nat)).
      rewrite IH; cbn [Db.loans Db.set_loans];
        rewrite ?portfolio_rows_stage_rows by exact Hpid; [|lia|lia|].
      * unfold Db.set_loans; cbn [Db.loans Db.staging_results Db.portfolios
          Db.clients Db.securities].
        rewrite !next_page_rows.
        replace (bs + k * bs)%nat with (Datatypes.S k * bs)%nat by lia.
        replace (bs + (k + d) * bs)%nat with ((Datatypes.S k + d) * bs)%nat by lia.
        reflexivity.
      * destruct Hlen as [Hlen|Hlen]; [lia|].
        destruct (Nat.eq_dec (k + d)%nat 0%nat) as [Hz|Hz]; [now left|right].
        replace (Datatypes.S j + k + d - 1)%nat with (j + Datatypes.S k + d - 1)%nat
          by lia.
        exact Hlen.
Qed.

End PageLoop.

(** ** The batch functions without storage failure *)

Lemma ecl_orm_stage_loan_split (b : ECLBounds.t) (timestamp : Z) (loan : Loan.t)
    (acc : gmap Z Z * gmap Z Q) :
  ecl_orm_stage_loan (fst (ECLBounds.stage_2 b)) (snd (ECLBounds.stage_2 b))
    (fst (ECLBounds.stage_3 b)) timestamp loan acc
  = (ecl_orm_staged b timestamp loan, ecl_orm_counted b loan acc).
Proof.
  unfold ecl_orm_staged, ecl_orm_counted, ecl_orm_stage_loan. destruct acc as [c q].
  destruct (_ >=? fst (ECLBounds.stage_3 b)); [reflexivity|].
  now destruct (_ && _).
Qed.

Lemma ecl_orm_staged_portfolio (b : ECLBounds.t) (timestamp : Z) (loan : Loan.t) :
  Loan.portfolio_id (ecl_orm_staged b timestamp loan) = Loan.portfolio_id loan.
Proof.
  unfold ecl_orm_staged, ecl_orm_stage_loan.
  destruct (_ >=? fst (ECLBounds.stage_3 b)); [reflexivity|].
  now destruct (_ && _).
Qed.

Lemma ecl_orm_staged_inputs (b : ECLBounds.t) (timestamp : Z) (loan : Loan.t) :
  Loan.ndia (ecl_orm_staged b timestamp loan) = Loan.ndia loan
  /\ Loan.outstanding_loan_balance (ecl_orm_staged b timestamp loan)
     = Loan.outstanding_loan_balance loan.
Proof.
  unfold ecl_orm_staged, ecl_orm_stage_loan.
  destruct (_ >=? fst (ECLBounds.stage_3 b)); [now split|].
  now destruct (_ && _).
Qed.

Lemma ecl_orm_counted_inputs (b : ECLBounds.t) (l l' : Loan.t) (acc : gmap Z Z * gmap Z Q) :
  Loan.ndia l' = Loan.ndia l ->
  Loan.outstanding_loan_balance l' = Loan.outstanding_loan_balance l ->
  ecl_orm_counted b l' acc = ecl_orm_counted b l acc.
Proof.
  intros Hn Hb. unfold ecl_orm_counted, ecl_orm_stage_loan. destruct acc as [c q].
  rewrite Hn, Hb.
  destruct (_ >=? fst (ECLBounds.stage_3 b)); [reflexivity|].
  now destruct (_ && _).
Qed.

Lemma ecl_orm_counted_staged (b : ECLBounds.t) (timestamp : Z) (l : Loan.t)
    (acc : gmap Z Z * gmap Z Q) :
  ecl_orm_counted b (ecl_orm_staged b timestamp l) acc = ecl_orm_counted b l acc.
Proof.
  destruct (ecl_orm_staged_inputs b timestamp l) as [Hn Hb].
  now apply ecl_orm_counted_inputs.
Qed.

Lemma lift_eq {A : Type} (o : outcome A) (s : Db.Session) : lift o s = (o, s).
Proof. reflexivity. Qed.

Lemma fuel_enough (n bs : nat) : (0 < bs)%nat -> (n <= (0 + n) * bs)%nat.
Proof. intros H. simpl. nia. Qed.

Lemma store_doc_then {A : Type} (pid : Z) (ty : string) (doc : summary_doc) (k : M A)
    (C W : Db.Tables) (budget : option nat) :
  (staging_result ← query_latest_staging_result pid ty;
   match staging_result with
   | Some i => write_result_summary i doc;; commit
   | None => mret tt
   end;; k) (Db.mkSession C W budget)
  = match spend budget with
    | None => (Raise StorageFailure, Db.mkSession C W budget)
    | Some budget1 =>
        match newest_from 0 pid ty (Db.staging_results W) None with
        | Some _ =>
            match spend budget1 with
            | None => (Raise StorageFailure, Db.mkSession C (store_doc pid ty doc W) budget1)
            | Some budget2 =>
                k (Db.mkSession (store_doc pid ty doc W) (store_doc pid ty doc W) budget2)
            end
        | None => k (Db.mkSession C W budget1)
        end
    end.
Proof.
  rewrite bind_eq, query_latest_staging_result_eq.
  destruct (spend budget) as [budget1|]; [|reflexivity].
  unfold store_doc.
  destruct (newest_from 0 pid ty (Db.staging_results W) None) as [i|]; [|reflexivity].
  rewrite !bind_eq. unfold write_result_summary. rewrite bind_eq.
  unfold get_working, put_working. cbn [Db.working Db.committed Db.budget].
  rewrite commit_eq. now destruct (spend budget1).
Qed.

Lemma stage_loans_ecl_orm_with_complete (bs : nat) (pid : Z) (config : ECLStagingConfig.t)
    (timestamp : Z) (t : Db.Tables) (b : ECLBounds.t) :
  (0 < bs)%nat -> parse_ecl_bounds config = Ok b ->
  stage_loans_ecl_orm_with bs pid config timestamp (clean t None)
  = (Ok (StagingSuccess (ecl_orm_return b pid t)),
     clean (ecl_orm_tables b pid config timestamp t) None).
Proof.
  intros Hbs Hparse.
  unfold stage_loans_ecl_orm_with, try_except, stage_loans_ecl_orm_try.
  rewrite bind_eq, Hparse, lift_eq.
  unfold clean. rewrite bind_eq, query_loan_count_eq. cbn [spend].
  rewrite bind_eq, Nat2Z.id.
  change 0%nat with (0 * bs)%nat at 1.
  fold (clean t None).
  rewrite (staging_pages_complete _ (ecl_orm_staged b timestamp) (ecl_orm_counted b)
             (ecl_orm_stage_loan_split b timestamp)
             (ecl_orm_staged_portfolio b timestamp)
             (ecl_orm_counted_staged b timestamp) pid bs Hbs)
    by (now apply fuel_enough).
  cbn [Nat.mul]. rewrite drop_0.
  fold (ecl_orm_counters b pid t).
  unfold clean. rewrite store_doc_then. cbn [spend Db.staging_results Db.set_loans].
  unfold ecl_orm_tables, store_doc. cbn [Db.staging_results Db.set_loans].
  now destruct (newest_from 0 pid "ecl" (Db.staging_results t) None).
Qed.


(** A storage failure at the fetch ([d = 0]) or the commit ([d = 1]) of page
    [k] of [stage_loans_ecl_orm]: the first [k] pages stay staged, nothing is
    pending, and the run returns the error summary. *)
Lemma stage_loans_ecl_orm_with_failure (bs : nat) (pid : Z) (config : ECLStagingConfig.t)
    (timestamp : Z) (t : Db.Tables) (b : ECLBounds.t) (k d : nat) :
  (0 < bs)%nat -> parse_ecl_bounds config = Ok b -> (d <= 1)%nat ->
  ((k + d = 0)%nat \/ ((k + d - 1) * bs < length (portfolio_rows pid (Db.loans t)))%nat) ->
  stage_loans_ecl_orm_with bs pid config timestamp
    (clean t (Some (1 + 2 * k + d)%nat))
  = (Ok (StagingError "storage failure"),
     clean (Db.set_loans
              (stage_rows (ecl_orm_staged b timestamp)
                 (take (k * bs) (portfolio_rows pid (Db.loans t))) (Db.loans t)) t)
       (Some 0%nat)).
Proof.
  intros Hbs Hparse Hd Hk.
  unfold stage_loans_ecl_orm_with, try_except, stage_loans_ecl_orm_try.
  rewrite bind_eq, Hparse, lift_eq.
  unfold clean. rewrite bind_eq, query_loan_count_eq.
  replace (1 + 2 * k + d)%nat with (Datatypes.S (2 * k + d)) by lia. cbn [spend].
  rewrite bind_eq, Nat2Z.id.
  change 0%nat with (0 * bs)%nat at 1.
  fold (clean t (Some (2 * k + d)%nat)).
  rewrite (staging_pages_fail _ (ecl_orm_staged b timestamp) (ecl_orm_counted b)
             (ecl_orm_stage_loan_split b timestamp)
             (ecl_orm_staged_portfolio b timestamp) pid bs Hbs k d).
  - cbn [Nat.mul]. rewrite drop_0. reflexivity.
  - exact Hd.
  - destruct Hk as [Hk|Hk]; [lia|].
    destruct k as [|k]; [lia|].
    assert (k * bs < length (portfolio_rows pid (Db.loans t)))%nat.
    { eapply Nat.le_lt_trans; [|exact Hk]. apply Nat.mul_le_mono_r. lia. }
    nia.
  - exact Hk.
Qed.

(** The failure of the very first storage operation, the count query. *)
Lemma stage_loans_ecl_orm_with_failure_0 (bs : nat) (pid : Z) (config : ECLStagingConfig.t)
    (timestamp : Z) (t : Db.Tables) (b : ECLBounds.t) :
  parse_ecl_bounds config = Ok b ->
  stage_loans_ecl_orm_with bs pid config timestamp (clean t (Some 0%nat))
  = (Ok (StagingError "storage failure"), clean t (Some 0%nat)).
Proof.
  intros Hparse.
  unfold stage_loans_ecl_orm_with, try_except, stage_loans_ecl_orm_try.
  rewrite bind_eq, Hparse, lift_eq.
  unfold clean. rewrite bind_eq, query_loan_count_eq. reflexivity.
Qed.

(** C9: a storage failure in the middle of [stage_loans_ecl_orm].  The
    session is opened with a budget [n]: the first [n] storage operations
    succeed and the next one raises.  The operations of the run are, in order,
    the count query and then, for each page, its fetch and its commit; the loop
    ends with the fetch of an empty page.  For every [n] up to that last fetch
    the run returns the error summary; nothing is left pending in the
    session; the rows of the [(n - 1) / 2] pages that were committed keep
    their new stage; every other row, including the rows of the page being
    written, is as before the run; the stored summaries are not touched. *)
Theorem stage_loans_ecl_orm_storage_failure (pid : Z) (config : ECLStagingConfig.t)
    (timestamp : Z) (t : Db.Tables) (b : ECLBounds.t) (n : nat) :
  parse_ecl_bounds config = Ok b ->
  (n <= 2 * ((length (portfolio_rows pid (Db.loans t)) + batch_size - 1) / batch_size) + 1)%nat ->
  exists (r : staging_return ECLStagingReturn.t) (t' : Db.Tables),
    stage_loans_ecl_orm pid config timestamp (Db.open t (Some n))
    = (Ok r, Db.mkSession t' t' (Some 0%nat))
    /\ status r = "error"%string
    /\ Db.staging_results t' = Db.staging_results t
    /\ forall (i : nat) (l : Loan.t),
         Db.loans t !! i = Some l ->
         Db.loans t' !! i
         = Some (if bool_decide
                      (i ∈ take ((n - 1) / 2 * batch_size)
                             (portfolio_rows pid (Db.loans t)))
                 then ecl_orm_staged b timestamp l else l).
Proof.
  intros Hparse Hn.
  destruct n as [|m].
  - eexists. eexists. split.
    + apply (stage_loans_ecl_orm_with_failure_0 batch_size pid config timestamp t b Hparse).
    + split; [reflexivity|]. split; [reflexivity|].
      intros i l Hl. cbn [Nat.sub Nat.div Nat.mul take].
      now rewrite bool_decide_eq_false_2 by apply not_elem_of_nil.
  - pose proof (Nat.div_mod_eq m 2) as Hm.
    pose proof (Nat.mod_upper_bound m 2 ltac:(lia)) as Hd.
    replace (Datatypes.S m - 1)%nat with m by lia.
    set (k := (m / 2)%nat) in *. set (d := (m mod 2)%nat) in *.
    replace (Datatypes.S m) with (1 + 2 * k + d)%nat in * by lia.
    eexists. eexists. split.
    + apply (stage_loans_ecl_orm_with_failure batch_size pid config timestamp t b k d);
        try assumption; [unfold batch_size; lia | lia |].
      unfold batch_size in *.
      set (len := length (portfolio_rows pid (Db.loans t))) in *.
      destruct (Nat.eq_dec (k + d)%nat 0%nat) as [Hz|Hz]; [now left|right].
      pose proof (Nat.div_mod_eq (len + 5000 - 1) 5000) as Hq.
      pose proof (Nat.mod_upper_bound (len + 5000 - 1) 5000 ltac:(lia)) as Hr.
      nia.
    + split; [reflexivity|]. split; [reflexivity|].
      intros i l Hl. cbn [Db.loans Db.set_loans]. rewrite stage_rows_lookup, Hl. simpl.
      now destruct (bool_decide _).
Qed.

Lemma stage_loans_ecl_orm_storage_failure_witness :
  exists (r : staging_return ECLStagingReturn.t) (t' : Db.Tables),
    stage_loans_ecl_orm 7 Sample.ecl_config 99
      (Db.open (Sample.tables (Sample.many_loans 5001)) (Some 4%nat))
    = (Ok r, Db.mkSession t' t' (Some 0%nat))
    /\ status r = "error"%string
    /\ Db.staging_results t' = Db.staging_results (Sample.tables (Sample.many_loans 5001))
    /\ forall (i : nat) (l : Loan.t),
         Db.loans (Sample.tables (Sample.many_loans 5001)) !! i = Some l ->
         Db.loans t' !! i
         = Some (if bool_decide
                      (i ∈ take ((4 - 1) / 2 * batch_size)
                             (portfolio_rows 7
                                (Db.loans (Sample.tables (Sample.many_loans 5001)))))
                 then ecl_orm_staged Sample.ecl_bounds 99 l else l).
Proof.
  apply (stage_loans_ecl_orm_storage_failure 7 Sample.ecl_config 99
           (Sample.tables (Sample.many_loans 5001)) Sample.ecl_bounds 4).
  - reflexivity.
  - apply Nat.leb_le. vm_compute. reflexivity.
Defined.

(** C9, as stated, fails: a failed run records no summary.  Portfolio 7 has
    been staged once, which stored a summary with the status "completed".  A
    second run, with other ranges, fails at the commit of its page: it
    returns the error summary, and the stored staging results are those of
    the first run.  The stored status is still "completed", no stored
    summary has the status "error", and the loans keep the stages of the
    first run. *)
Lemma failed_run_records_nothing :
  stored_statuses Sample.staged_once = [Some (Some "completed"%string); None]
  /\ fst (stage_loans_ecl_orm 7 Sample.overlap_config 99
            (Db.open Sample.staged_once (Some 2%nat)))
     = Ok (StagingError "storage failure")
  /\ Db.staging_results
       (Db.committed (snd (stage_loans_ecl_orm 7 Sample.overlap_config 99
                             (Db.open Sample.staged_once (Some 2%nat)))))
     = Db.staging_results Sample.staged_once
  /\ stored_statuses
       (Db.committed (snd (stage_loans_ecl_orm 7 Sample.overlap_config 99
                             (Db.open Sample.staged_once (Some 2%nat)))))
     = [Some (Some "completed"%string); None]
  /\ Loan.ecl_stage <$>
       Db.loans
         (Db.committed (snd (stage_loans_ecl_orm 7 Sample.overlap_config 99
                               (Db.open Sample.staged_once (Some 2%nat)))))
     = [Some 1; Some 3].
Proof. repeat split; vm_compute; reflexivity. Qed.

(** *** The local-impairment batch functions *)

Lemma local_orm_stage_loan_split (b : LocalBounds.t) (timestamp : Z) (loan : Loan.t)
    (acc : gmap string Z * gmap string Q) :
  local_orm_stage_loan b timestamp loan acc
  = (local_orm_staged b timestamp loan, local_orm_counted b loan acc).
Proof.
  unfold local_orm_staged, local_orm_counted, local_orm_stage_loan, local_orm_assign.
  now destruct (local_orm_category b _).
Qed.

Lemma local_orm_staged_portfolio (b : LocalBounds.t) (timestamp : Z) (loan : Loan.t) :
  Loan.portfolio_id (local_orm_staged b timestamp loan) = Loan.portfolio_id loan.
Proof.
  unfold local_orm_staged, local_orm_stage_loan, local_orm_assign.
  now destruct (local_orm_category b _).
Qed.

Lemma local_orm_staged_inputs (b : LocalBounds.t) (timestamp : Z) (loan : Loan.t) :
  Loan.ndia (local_orm_staged b timestamp loan) = Loan.ndia loan
  /\ Loan.outstanding_loan_balance (local_orm_staged b timestamp loan)
     = Loan.outstanding_loan_balance loan.
Proof.
  unfold local_orm_staged, local_orm_stage_loan, local_orm_assign.
  now destruct (local_orm_category b _).
Qed.

Lemma local_orm_counted_inputs (b : LocalBounds.t) (l l' : Loan.t)
    (acc : gmap string Z * gmap string Q) :
  Loan.ndia l' = Loan.ndia l ->
  Loan.outstanding_loan_balance l' = Loan.outstanding_loan_balance l ->
  local_orm_counted b l' acc = local_orm_counted b l acc.
Proof.
  intros Hn Hb. unfold local_orm_counted, local_orm_stage_loan, local_orm_assign.
  rewrite Hn, Hb. now destruct (local_orm_category b _).
Qed.

Lemma local_orm_counted_staged (b : LocalBounds.t) (timestamp : Z) (l : Loan.t)
    (acc : gmap string Z * gmap string Q) :
  local_orm_counted b (local_orm_staged b timestamp l) acc = local_orm_counted b l acc.
Proof.
  destruct (local_orm_staged_inputs b timestamp l) as [Hn Hb].
  now apply local_orm_counted_inputs.
Qed.

Lemma stage_loans_local_impairment_orm_with_complete (bs : nat) (pid : Z)
    (config : LocalImpairmentConfig.t) (timestamp : Z) (t : Db.Tables) (b : LocalBounds.t) :
  (0 < bs)%nat -> parse_local_bounds config = Ok b ->
  stage_loans_local_impairment_orm_with bs pid config timestamp (clean t None)
  = (Ok (StagingSuccess (local_orm_return b pid t)),
     clean (local_orm_tables b pid config timestamp t) None).
Proof.
  intros Hbs Hparse.
  unfold stage_loans_local_impairment_orm_with, try_except,
    stage_loans_local_impairment_orm_try.
  rewrite bind_eq, Hparse, lift_eq.
  unfold clean. rewrite bind_eq, query_loan_count_eq. cbn [spend].
  rewrite bind_eq, Nat2Z.id.
  change 0%nat with (0 * bs)%nat at 1.
  fold (clean t None).
  rewrite (staging_pages_complete _ (local_orm_staged b timestamp) (local_orm_counted b)
             (local_orm_stage_loan_split b timestamp)
             (local_orm_staged_portfolio b timestamp)
             (local_orm_counted_staged b timestamp) pid bs Hbs)
    by (now apply fuel_enough).
  cbn [Nat.mul]. rewrite drop_0.
  fold (local_orm_counters b pid t).
  unfold clean. rewrite store_doc_then. cbn [spend Db.staging_results Db.set_loans].
  unfold local_orm_tables, store_doc. cbn [Db.staging_results Db.set_loans].
  now destruct (newest_from 0 pid "local_impairment" (Db.staging_results t) None).
Qed.


Lemma local_sync_stage_loan_split (b : LocalBounds.t) (loan : Loan.t)
    (acc : gmap string Z * gmap string Q) :
  local_sync_stage_loan b loan acc
  = (local_sync_staged b loan, local_sync_counted b loan acc).
Proof.
  unfold local_sync_staged, local_sync_counted, local_sync_stage_loan, local_orm_assign.
  destruct (Loan.ndia loan); [|reflexivity].
  now destruct (local_orm_category b _).
Qed.

Lemma local_sync_staged_portfolio (b : LocalBounds.t) (loan : Loan.t) :
  Loan.portfolio_id (local_sync_staged b loan) = Loan.portfolio_id loan.
Proof.
  unfold local_sync_staged, local_sync_stage_loan, local_orm_assign.
  destruct (Loan.ndia loan); [|reflexivity].
  now destruct (local_orm_category b _).
Qed.

Lemma local_sync_staged_inputs (b : LocalBounds.t) (loan : Loan.t) :
  Loan.ndia (local_sync_staged b loan) = Loan.ndia loan
  /\ Loan.outstanding_loan_balance (local_sync_staged b loan)
     = Loan.outstanding_loan_balance loan.
Proof.
  unfold local_sync_staged, local_sync_stage_loan, local_orm_assign.
  destruct (Loan.ndia loan) as [n|] eqn:Hn; [destruct (local_orm_category b n)|];
    simpl; rewrite ?Hn; now split.
Qed.

Lemma local_sync_counted_inputs (b : LocalBounds.t) (l l' : Loan.t)
    (acc : gmap string Z * gmap string Q) :
  Loan.ndia l' = Loan.ndia l ->
  Loan.outstanding_loan_balance l' = Loan.outstanding_loan_balance l ->
  local_sync_counted b l' acc = local_sync_counted b l acc.
Proof.
  intros Hn Hb. unfold local_sync_counted, local_sync_stage_loan, local_orm_assign.
  rewrite Hn, Hb. destruct (Loan.ndia l) as [n|]; [|reflexivity].
  now destruct (local_orm_category b n).
Qed.

Lemma local_sync_counted_staged (b : LocalBounds.t) (l : Loan.t)
    (acc : gmap string Z * gmap string Q) :
  local_sync_counted b (local_sync_staged b l) acc = local_sync_counted b l acc.
Proof.
  destruct (local_sync_staged_inputs b l) as [Hn Hb].
  now apply local_sync_counted_inputs.
Qed.

Lemma stage_loans_local_impairment_orm_sync_with_complete (bs : nat) (pid : Z)
    (config : LocalImpairmentConfig.t) (timestamp : Z) (t : Db.Tables) (b : LocalBounds.t) :
  (0 < bs)%nat -> parse_local_bounds config = Ok b ->
  stage_loans_local_impairment_orm_sync_with bs pid config timestamp (clean t None)
  = (Ok (local_sync_return b pid t),
     clean (local_sync_tables b pid config timestamp t) None).
Proof.
  intros Hbs Hparse.
  unfold stage_loans_local_impairment_orm_sync_with, try_except,
    stage_loans_local_impairment_orm_sync_try.
  rewrite bind_eq, Hparse, lift_eq.
  unfold clean. rewrite bind_eq, query_loan_count_eq. cbn [spend].
  rewrite bind_eq, Nat2Z.id.
  change 0%nat with (0 * bs)%nat at 1.
  fold (clean t None).
  rewrite (staging_pages_complete _ (local_sync_staged b) (local_sync_counted b)
             (local_sync_stage_loan_split b)
             (local_sync_staged_portfolio b)
             (local_sync_counted_staged b) pid bs Hbs)
    by (now apply fuel_enough).
  cbn [Nat.mul]. rewrite drop_0.
  fold (local_sync_counters b pid t).
  unfold clean. rewrite bind_eq. unfold add_staging_result. rewrite bind_eq.
  unfold get_working, put_working. cbn [Db.working Db.committed Db.budget].
  rewrite bind_eq, commit_eq. cbn [spend]. reflexivity.
Qed.

(** ** The rates of the stored local-impairment summary *)

Lemma newest_from_bounds (i : nat) (pid : Z) (ty : string) (rs : list StagingResult.t)
    (best : option (nat * Z)) (k : nat) :
  newest_from i pid ty rs best = Some k ->
  (exists c, best = Some (k, c)) \/ (i <= k < i + length rs)%nat.
Proof.
  revert i best. induction rs as [|r rs IH]; intros i best; simpl.
  - destruct best as [[k' c]|]; simpl; [|discriminate].
    intros [= ->]. left. now exists c.
  - intros H. apply IH in H. destruct H as [[c Hc]|H]; [|right; lia].
    destruct (_ && _); [|left; now exists c].
    destruct best as [[k' c']|].
    + destruct (c' <? StagingResult.created_at r).
      * injection Hc as <- _. right. lia.
      * left. now exists c.
    + injection Hc as <- _. right. lia.
Qed.

Lemma local_summary_doc_fixed (status : option string) (timestamp total_loans : option Z)
    (counts : gmap string Z) (balances : gmap string Q)
    (config : option LocalImpairmentConfig.t) :
  has_fixed_rates (local_summary_doc status timestamp total_loans counts balances config).
Proof.
  unfold has_fixed_rates, local_summary_doc, category_at_rate, local_category_totals.
  cbn [CategoryTotals.provision_rate CategoryTotals.provision_amount
       CategoryTotals.outstanding_loan_balance].
  repeat split;
    first [ apply Qeq_refl
          | apply Qmult_comp; [apply Qeq_refl | reflexivity]
          | reflexivity ].
Qed.

(** C10: whatever ranges the caller configures, the local-impairment summary
    stored by [stage_loans_local_impairment_orm] (in the newest summary row of
    the portfolio) and by [stage_loans_local_impairment_orm_sync] (in the row
    it adds) carries the provision rates 0.01, 0.05, 0.25, 0.5 and 1.0 and the
    provisions balance x rate at these rates. *)
Theorem local_summary_rates_fixed (pid : Z) (config : LocalImpairmentConfig.t)
    (timestamp : Z) (t : Db.Tables) (b : LocalBounds.t) :
  parse_local_bounds config = Ok b ->
  (forall i : nat,
     newest_from 0 pid "local_impairment" (Db.staging_results t) None = Some i ->
     exists (row : StagingResult.t) (doc : summary_doc),
       Db.staging_results
         (Db.committed
            (snd (stage_loans_local_impairment_orm pid config timestamp (Db.open t None))))
       !! i = Some row
       /\ StagingResult.result_summary row = Some doc
       /\ has_fixed_rates doc)
  /\ (exists (row : StagingResult.t) (doc : summary_doc),
        Db.staging_results
          (Db.committed
             (snd (stage_loans_local_impairment_orm_sync pid config timestamp
                     (Db.open t None))))
        = Db.staging_results t ++ [row]
        /\ StagingResult.result_summary row = Some doc
        /\ has_fixed_rates doc).
Proof.
  intros Hparse. split.
  - intros i Hi.
    unfold stage_loans_local_impairment_orm.
    change (Db.open t None) with (clean t None).
    rewrite (stage_loans_local_impairment_orm_with_complete batch_size pid config timestamp
               t b) by (unfold batch_size; lia || assumption).
    cbn [snd clean Db.committed]. unfold local_orm_tables, store_doc.
    cbn [Db.staging_results Db.set_loans]. rewrite Hi.
    cbn [Db.staging_results Db.set_staging_results].
    destruct (newest_from_bounds _ _ _ _ _ _ Hi) as [[c Hc]|Hlt]; [discriminate|].
    destruct (lookup_lt_is_Some_2 (Db.staging_results t) i ltac:(lia)) as [r Hr].
    eexists. eexists. split.
    + rewrite list_lookup_alter_eq, Hr. reflexivity.
    + split; [reflexivity|]. apply local_summary_doc_fixed.
  - unfold stage_loans_local_impairment_orm_sync.
    change (Db.open t None) with (clean t None).
    rewrite (stage_loans_local_impairment_orm_sync_with_complete batch_size pid config
               timestamp t b) by (unfold batch_size; lia || assumption).
    cbn [snd clean Db.committed]. unfold local_sync_tables.
    cbn [Db.staging_results Db.set_staging_results].
    eexists. eexists. split; [reflexivity|].
    split; [reflexivity|]. apply local_summary_doc_fixed.
Qed.

Lemma local_summary_rates_fixed_witness :
  exists (row : StagingResult.t) (doc : summary_doc),
    Db.staging_results
      (Db.committed
         (snd (stage_loans_local_impairment_orm 7 Sample.gap_config 99
                 (Db.open (Sample.tables Sample.five_loans) None))))
    !! 1%nat = Some row
    /\ StagingResult.result_summary row = Some doc
    /\ has_fixed_rates doc.
Proof.
  destruct (local_summary_rates_fixed 7 Sample.gap_config 99
              (Sample.tables Sample.five_loans) Sample.gap_bounds) as [H _].
  - reflexivity.
  - apply (H 1%nat). reflexivity.
Defined.

(** ** Running the batch staging twice *)

Lemma loans_store_doc (pid : Z) (ty : string) (doc : summary_doc) (t : Db.Tables) :
  Db.loans (store_doc pid ty doc t) = Db.loans t.
Proof.
  unfold store_doc. now destruct (newest_from 0 pid ty (Db.staging_results t) None).
Qed.



Section ECLTwice.

Variables (b : ECLBounds.t) (pid : Z) (config : ECLStagingConfig.t) (ts1 ts2 : Z).
Variable t : Db.Tables.

Lemma ecl_orm_tables_loans :
  Db.loans (ecl_orm_tables b pid config ts1 t)
  = stage_rows (ecl_orm_staged b ts1) (portfolio_rows pid (Db.loans t)) (Db.loans t).
Proof. unfold ecl_orm_tables. now rewrite loans_store_doc. Qed.







End ECLTwice.

Section LocalTwice.

Variables (b : LocalBounds.t) (pid : Z) (config : LocalImpairmentConfig.t) (ts1 ts2 : Z).
Variable t : Db.Tables.

Lemma local_orm_tables_loans :
  Db.loans (local_orm_tables b pid config ts1 t)
  = stage_rows (local_orm_staged b ts1) (portfolio_rows pid (Db.loans t)) (Db.loans t).
Proof. unfold local_orm_tables. now rewrite loans_store_doc. Qed.







End LocalTwice.


(** ** Loans without days past due *)

Lemma int_of_float_nonneg (q : Q) :
  (0 <= q)%Q -> Py.int_of_float q = Qfloor q /\ 0 <= Py.int_of_float q.
Proof.
  intros Hq. destruct q as [n d]. unfold Py.int_of_float, Qfloor. cbn [Qnum Qden].
  assert (Hn : 0 <= n) by (unfold Qle in Hq; simpl in Hq; lia).
  rewrite Z.quot_div_nonneg by lia.
  split; [reflexivity|]. apply Z.div_pos; lia.
Qed.

Lemma derived_ratio_nonneg (arrears installment : Q) :
  (0 <= arrears)%Q -> (0 < installment)%Q -> (0 <= arrears / installment * 30)%Q.
Proof.
  intros Ha Hi. apply Qmult_le_0_compat; [|discriminate].
  unfold Qdiv. apply Qmult_le_0_compat; [exact Ha|].
  apply Qlt_le_weak, Qinv_lt_0_compat, Hi.
Qed.

Lemma ecl_orm_counted_one (b : ECLBounds.t) (loan : Loan.t) (acc : gmap Z Z * gmap Z Q) :
  getZ (fst (ecl_orm_counted b loan acc)) 1 + getZ (fst (ecl_orm_counted b loan acc)) 2
  + getZ (fst (ecl_orm_counted b loan acc)) 3
  = getZ (fst acc) 1 + getZ (fst acc) 2 + getZ (fst acc) 3 + 1.
Proof.
  unfold ecl_orm_counted, ecl_orm_stage_loan. destruct acc as [c q].
  destruct (_ >=? fst (ECLBounds.stage_3 b)); [|destruct (_ && _)];
    cbn [fst snd]; unfold getZ;
    rewrite ?lookup_insert_eq, ?lookup_insert_ne by discriminate; simpl; lia.
Qed.

(** C4 (amended): a loan whose days past due are absent.  The
    local-impairment route computes int(arrears / installment x 30) for it
    when both are present and not zero and the installment is positive (the
    floor, and not negative, when the arrears are not negative) and 0
    otherwise.  [stage_loans_ecl_orm] and [stage_loans_local_impairment_orm]
    do not derive it: they stage and count the loan as a loan at 0 days.
    [stage_loans_ecl_orm_sync] and [stage_loans_local_impairment_orm_sync]
    skip the loan: it keeps its label and is not counted. *)
Theorem absent_ndia (loan : Loan.t) :
  Loan.ndia loan = None ->
  (forall arrears installment : Q,
     Loan.accumulated_arrears loan = Some arrears ->
     Loan.monthly_installment loan = Some installment ->
     ~ (arrears == 0)%Q -> (0 < installment)%Q ->
     local_route_ndia loan = Py.int_of_float (arrears / installment * 30)%Q
     /\ ((0 <= arrears)%Q ->
         local_route_ndia loan = Qfloor (arrears / installment * 30)%Q
         /\ 0 <= local_route_ndia loan))
  /\ ((Loan.accumulated_arrears loan = None
       \/ Loan.monthly_installment loan = None
       \/ (exists arrears, Loan.accumulated_arrears loan = Some arrears /\ (arrears == 0)%Q)
       \/ (exists installment,
             Loan.monthly_installment loan = Some installment /\ (installment <= 0)%Q)) ->
      local_route_ndia loan = 0)
  /\ (forall (loan0 : Loan.t),
        Loan.ndia loan0 = Some 0 ->
        Loan.outstanding_loan_balance loan0 = Loan.outstanding_loan_balance loan ->
        (forall (b : ECLBounds.t) (timestamp : Z) (acc : gmap Z Z * gmap Z Q),
           Loan.ecl_stage (ecl_orm_staged b timestamp loan)
           = Loan.ecl_stage (ecl_orm_staged b timestamp loan0)
           /\ ecl_orm_counted b loan acc = ecl_orm_counted b loan0 acc
           /\ getZ (fst (ecl_orm_counted b loan acc)) 1
              + getZ (fst (ecl_orm_counted b loan acc)) 2
              + getZ (fst (ecl_orm_counted b loan acc)) 3
              = getZ (fst acc) 1 + getZ (fst acc) 2 + getZ (fst acc) 3 + 1)
        /\ (forall (b : LocalBounds.t) (timestamp : Z) (acc : gmap string Z * gmap string Q),
              Loan.impairment_category (local_orm_staged b timestamp loan)
              = match local_orm_category b 0 with
                | Some c => Some c
                | None => Loan.impairment_category loan
                end
              /\ local_orm_counted b loan acc = local_orm_counted b loan0 acc))
  /\ (forall (stage_1_max : option Z) (stage_2_min : Z) (stage_2_max : option Z)
             (stage_3_min : Z) (stage_3_max : option Z) (acc : gmap Z Z * gmap Z Q),
        ecl_sync_stage_loan stage_1_max stage_2_min stage_2_max stage_3_min stage_3_max
          loan acc = (loan, acc))
  /\ (forall (b : LocalBounds.t) (acc : gmap string Z * gmap string Q),
        local_sync_stage_loan b loan acc = (loan, acc)).
Proof.
  intros Hnone. split; [|split; [|split; [|split]]].
  - intros arrears installment Ha Hi Hnz Hpos.
    assert (Hd : local_route_ndia loan = Py.int_of_float (arrears / installment * 30)%Q).
    { unfold local_route_ndia, truthy. rewrite Hnone, Ha, Hi.
      assert (H1 : Qeq_bool arrears 0 = false).
      { apply not_true_is_false. intros H%Qeq_bool_iff. contradiction. }
      assert (H2 : Qeq_bool installment 0 = false).
      { apply not_true_is_false. intros H%Qeq_bool_iff. rewrite H in Hpos.
        exact (Qlt_irrefl _ Hpos). }
      assert (H3 : Qle_bool installment 0 = false).
      { apply not_true_is_false. intros H%Qle_bool_iff.
        exact (Qlt_not_le _ _ Hpos H). }
      now rewrite H1, H2, H3. }
    split; [exact Hd|]. intros Hge. rewrite Hd.
    apply int_of_float_nonneg, derived_ratio_nonneg; assumption.
  - intros H. unfold local_route_ndia, truthy. rewrite Hnone.
    destruct H as [H|[H|[(a & Ha & Hz)|(m & Hm & Hle)]]].
    + now rewrite H.
    + rewrite H. now destruct (Loan.accumulated_arrears loan).
    + rewrite Ha. destruct (Loan.monthly_installment loan); [|reflexivity].
      apply Qeq_bool_iff in Hz. now rewrite Hz.
    + rewrite Hm. destruct (Loan.accumulated_arrears loan); [|reflexivity].
      apply Qle_bool_iff in Hle. rewrite Hle.
      now rewrite andb_false_r.
  - intros loan0 Hzero Hbal. split.
    + intros b timestamp acc. split; [|split].
      * unfold ecl_orm_staged, ecl_orm_stage_loan. rewrite Hnone, Hzero.
        destruct (_ >=? fst (ECLBounds.stage_3 b)); [reflexivity|].
        now destruct (_ && _).
      * unfold ecl_orm_counted, ecl_orm_stage_loan. destruct acc as [c q].
        rewrite Hnone, Hzero, Hbal.
        destruct (_ >=? fst (ECLBounds.stage_3 b)); [reflexivity|].
        now destruct (_ && _).
      * apply ecl_orm_counted_one.
    + intros b timestamp acc. split.
      * unfold local_orm_staged, local_orm_stage_loan, local_orm_assign. rewrite Hnone.
        now destruct (local_orm_category b 0).
      * unfold local_orm_counted, local_orm_stage_loan, local_orm_assign.
        rewrite Hnone, Hzero, Hbal. now destruct (local_orm_category b 0).
  - intros. unfold ecl_sync_stage_loan. now rewrite Hnone.
  - intros. unfold local_sync_stage_loan. now rewrite Hnone.
Qed.

Lemma absent_ndia_witness :
  local_route_ndia (Sample.loan 1 None 25) = Py.int_of_float (200 / 100 * 30)%Q
  /\ local_sync_stage_loan Sample.gap_bounds (Sample.loan 1 None 25) (∅, ∅)
     = (Sample.loan 1 None 25, (∅, ∅)).
Proof.
  destruct (absent_ndia (Sample.loan 1 None 25) eq_refl) as (Hd & _ & _ & _ & Hs).
  split.
  - destruct (Hd 200%Q 100%Q) as [H _];
      [reflexivity | reflexivity | discriminate | reflexivity | exact H].
  - apply Hs.
Defined.

(** C4, as stated, fails on a loan without days past due whose arrears are two
    installments (60 days derived): [stage_loans_ecl_orm] stages it as a loan
    at 0 days (Stage 1, where a loan at 60 days is Stage 2),
    [stage_loans_ecl_orm_sync] leaves it unlabelled and uncounted, and the
    local-impairment route raises on it. *)
Lemma absent_ndia_not_derived :
  local_route_ndia (Sample.loan 1 None 25) = 60
  /\ Loan.ecl_stage <$>
       Db.loans (Db.committed (snd (stage_loans_ecl_orm 7 Sample.ecl_config 99
         (Db.open (Sample.tables [Sample.loan 1 None 25]) None))))
     = [Some 1]
  /\ Loan.ecl_stage <$>
       Db.loans (Db.committed (snd (stage_loans_ecl_orm 7 Sample.ecl_config 99
         (Db.open (Sample.tables [Sample.loan 1 (Some 60) 25]) None))))
     = [Some 2]
  /\ fst (stage_loans_ecl_orm_sync 7 Sample.ecl_config 99
            (Db.open (Sample.tables [Sample.loan 1 None 25]) None))
     = Ok (ECLSyncReturn.mk 0 0 0 0 0 0 0)
  /\ Loan.stage <$>
       Db.loans (Db.committed (snd (stage_loans_ecl_orm_sync 7 Sample.ecl_config 99
         (Db.open (Sample.tables [Sample.loan 1 None 25]) None))))
     = [None]
  /\ stage_loans_local_impairment (Sample.tables [Sample.loan 1 None 25]) 1 7
       Sample.gap_config
     = Raise (TypeError
         "int() argument must be a string, a bytes-like object or a real number, not 'NoneType'").
Proof. repeat split; vm_compute; reflexivity. Qed.

(** * Further properties of the staging and provision code *)

(** ** The rows of a portfolio and the closed form of a full run *)

Lemma elem_of_positions_from (i : nat) (bs : list bool) (p : nat) :
  p ∈ positions_from i bs <-> (i <= p)%nat /\ bs !! (p - i)%nat = Some true.
Proof.
  revert i. induction bs as [|b bs IH]; intros i; simpl.
  - split; [intros H; inversion H | intros [_ H]; discriminate].
  - assert (p ∈ positions_from (Datatypes.S i) bs
            <-> (i < p)%nat /\ (b :: bs) !! (p - i)%nat = Some true) as Htail.
    { rewrite IH. split; intros [H1 H2]; (split; [lia|]).
      - replace (p - i)%nat with (Datatypes.S (p - Datatypes.S i)) by lia. exact H2.
      - replace (p - i)%nat with (Datatypes.S (p - Datatypes.S i)) in H2 by lia. exact H2. }
    destruct (decide (p = i)) as [->|Hne].
    + rewrite Nat.sub_diag. simpl. destruct b.
      * split; [intros _; split; [lia|reflexivity] | intros _; apply elem_of_cons; now left].
      * rewrite Htail. split; [intros [H _]; lia | intros [_ H]; discriminate].
    + destruct b; [rewrite elem_of_cons|]; rewrite Htail;
        split; intros H; try (destruct H as [H|H]; [contradiction|]);
        try right; (split; [lia|apply H]).
Qed.

Lemma elem_of_portfolio_rows (pid : Z) (ls : list Loan.t) (p : nat) :
  p ∈ portfolio_rows pid ls
  <-> exists l, ls !! p = Some l /\ Loan.portfolio_id l = pid.
Proof.
  unfold portfolio_rows. rewrite elem_of_positions_from, Nat.sub_0_r, list_lookup_fmap.
  split.
  - intros [_ H]. destruct (ls !! p) as [l|]; [|discriminate].
    exists l. split; [reflexivity|]. simpl in H. injection H as H. now apply Z.eqb_eq.
  - intros (l & -> & Hl). split; [lia|]. simpl. f_equal. now apply Z.eqb_eq.
Qed.

(** Staging the rows of a portfolio is a map over the table. *)
Lemma stage_rows_portfolio (f : Loan.t -> Loan.t) (pid : Z) (ls : list Loan.t) :
  stage_rows f (portfolio_rows pid ls) ls
  = (fun l => if bool_decide (Loan.portfolio_id l = pid) then f l else l) <$> ls.
Proof.
  apply list_eq. intros i. rewrite stage_rows_lookup, list_lookup_fmap.
  destruct (ls !! i) as [l|] eqn:Hl; [|reflexivity]. simpl. f_equal.
  destruct (decide (Loan.portfolio_id l = pid)) as [Hp|Hp].
  - rewrite (bool_decide_eq_true_2 (Loan.portfolio_id l = pid)) by exact Hp.
    rewrite bool_decide_eq_true_2; [reflexivity|].
    apply elem_of_portfolio_rows. now exists l.
  - rewrite (bool_decide_eq_false_2 (Loan.portfolio_id l = pid)) by exact Hp.
    rewrite bool_decide_eq_false_2; [reflexivity|].
    rewrite elem_of_portfolio_rows. intros (l' & Hl' & Hp'). congruence.
Qed.

Lemma positions_from_loans (pid : Z) (pre ls : list Loan.t) :
  omap (fun i => (pre ++ ls) !! i)
    (positions_from (length pre) (map (fun l => Z.eqb (Loan.portfolio_id l) pid) ls))
  = filter (fun l => Loan.portfolio_id l = pid) ls.
Proof.
  revert pre. induction ls as [|x ls IH]; intros pre; [reflexivity|].
  specialize (IH (pre ++ [x])).
  rewrite <- app_assoc, length_app in IH. simpl in IH.
  replace (length pre + 1)%nat with (Datatypes.S (length pre)) in IH by lia.
  simpl. rewrite filter_cons.
  destruct (Z.eqb_spec (Loan.portfolio_id x) pid) as [Hp|Hp].
  - rewrite decide_True by exact Hp. simpl.
    rewrite list_lookup_middle by reflexivity. f_equal. exact IH.
  - rewrite decide_False by exact Hp. exact IH.
Qed.

(** The rows a page query walks through are the loans of the portfolio. *)
Lemma portfolio_rows_loans (pid : Z) (t : Db.Tables) :
  omap (fun i => Db.loans t !! i) (portfolio_rows pid (Db.loans t))
  = loans_of_portfolio t pid.
Proof. exact (positions_from_loans pid [] (Db.loans t)). Qed.

Lemma omap_lookup_length (ls : list Loan.t) (ps : list nat) :
  (forall p, p ∈ ps -> (p < length ls)%nat) ->
  length (omap (fun i => ls !! i) ps) = length ps.
Proof.
  induction ps as [|p ps IH]; intros Hps; [reflexivity|]. simpl.
  destruct (lookup_lt_is_Some_2 ls p) as [l Hl].
  { apply Hps, elem_of_cons. now left. }
  rewrite Hl. simpl. f_equal. apply IH. intros q Hq. apply Hps, elem_of_cons. now right.
Qed.

Lemma portfolio_rows_length (pid : Z) (t : Db.Tables) :
  length (portfolio_rows pid (Db.loans t)) = length (loans_of_portfolio t pid).
Proof.
  rewrite <- portfolio_rows_loans, omap_lookup_length; [reflexivity|].
  intros p. apply portfolio_rows_lt.
Qed.

Lemma count_rows_loans {S : Type} (g : Loan.t -> S -> S) (pid : Z) (t : Db.Tables) (acc : S) :
  count_rows g (portfolio_rows pid (Db.loans t)) (Db.loans t) acc
  = fold_left (fun a l => g l a) (loans_of_portfolio t pid) acc.
Proof. unfold count_rows. now rewrite portfolio_rows_loans. Qed.

Lemma filter_staged_length (f : Loan.t -> Loan.t) (Q : Loan.t -> Prop)
    `{!forall l, Decision (Q l)} (pid : Z) (ls : list Loan.t) :
  (forall l, Loan.portfolio_id (f l) = Loan.portfolio_id l) ->
  length (filter (fun l => Loan.portfolio_id l = pid /\ Q l)
            ((fun l => if bool_decide (Loan.portfolio_id l = pid) then f l else l) <$> ls))
  = length (filter (fun l => Q (f l)) (filter (fun l => Loan.portfolio_id l = pid) ls)).
Proof.
  intros Hf. induction ls as [|a ls IH]; [reflexivity|].
  rewrite fmap_cons, !filter_cons.
  destruct (decide (Loan.portfolio_id a = pid)) as [Hp|Hp].
  - rewrite bool_decide_eq_true_2 by exact Hp. rewrite filter_cons.
    destruct (decide (Q (f a))) as [Hq|Hq].
    + rewrite decide_True by (split; [now rewrite Hf|exact Hq]). simpl. now rewrite IH.
    + rewrite decide_False by (intros [_ ?]; contradiction). exact IH.
  - rewrite bool_decide_eq_false_2 by exact Hp.
    rewrite decide_False by (intros [? _]; contradiction). exact IH.
Qed.

(** ** [stage_loans_ecl_orm]: a run without storage failure *)

Lemma ecl_orm_staged_fields (b : ECLBounds.t) (timestamp : Z) (l : Loan.t) :
  Loan.last_staged_at (ecl_orm_staged b timestamp l) = Some timestamp
  /\ (Loan.ecl_stage (ecl_orm_staged b timestamp l) = Some 1
      \/ Loan.ecl_stage (ecl_orm_staged b timestamp l) = Some 2
      \/ Loan.ecl_stage (ecl_orm_staged b timestamp l) = Some 3)
  /\ ecl_orm_staged b timestamp l
     = Loan.set_last_staged_at (Some timestamp)
         (Loan.set_ecl_stage (Loan.ecl_stage (ecl_orm_staged b timestamp l)) l).
Proof.
  unfold ecl_orm_staged, ecl_orm_stage_loan.
  destruct (_ >=? fst (ECLBounds.stage_3 b)); [|destruct (_ && _)]; simpl; auto.
Qed.

Lemma ecl_orm_counted_stage (b : ECLBounds.t) (timestamp : Z) (l : Loan.t)
    (acc : gmap Z Z * gmap Z Q) (k : Z) :
  getZ (fst (ecl_orm_counted b l acc)) k
  = getZ (fst acc) k
    + (if bool_decide (Loan.ecl_stage (ecl_orm_staged b timestamp l) = Some k) then 1 else 0).
Proof.
  destruct acc as [counts balances].
  unfold ecl_orm_counted, ecl_orm_staged, ecl_orm_stage_loan, getZ.
  destruct (_ >=? fst (ECLBounds.stage_3 b)); [|destruct (_ && _)]; simpl;
    match goal with
    | |- context [<[?j := _]> _] =>
        destruct (decide (k = j)) as [->|Hne];
        [ rewrite lookup_insert_eq, bool_decide_eq_true_2 by reflexivity; reflexivity
        | rewrite lookup_insert_ne by congruence;
          rewrite bool_decide_eq_false_2 by congruence; lia ]
    end.
Qed.

Lemma ecl_orm_fold_count (b : ECLBounds.t) (timestamp : Z) (k : Z) (L : list Loan.t)
    (acc : gmap Z Z * gmap Z Q) :
  getZ (fst (fold_left (fun a l => ecl_orm_counted b l a) L acc)) k
  = getZ (fst acc) k
    + Z.of_nat (length (filter (fun l => Loan.ecl_stage (ecl_orm_staged b timestamp l)
                                         = Some k) L)).
Proof.
  revert acc. induction L as [|l L IH]; intros acc; simpl; [lia|].
  rewrite IH, (ecl_orm_counted_stage b timestamp), filter_cons.
  destruct (decide (Loan.ecl_stage (ecl_orm_staged b timestamp l) = Some k)) as [H|H].
  - rewrite bool_decide_eq_true_2 by exact H. simpl length. lia.
  - rewrite bool_decide_eq_false_2 by exact H. lia.
Qed.

Lemma ecl_orm_fold_total (b : ECLBounds.t) (L : list Loan.t) (acc : gmap Z Z * gmap Z Q) :
  let counts := fst (fold_left (fun a l => ecl_orm_counted b l a) L acc) in
  getZ counts 1 + getZ counts 2 + getZ counts 3
  = getZ (fst acc) 1 + getZ (fst acc) 2 + getZ (fst acc) 3 + Z.of_nat (length L).
Proof.
  revert acc. induction L as [|l L IH]; intros acc; simpl; [lia|].
  simpl in IH. rewrite IH, ecl_orm_counted_one. lia.
Qed.

Lemma stage_loans_ecl_orm_run (pid : Z) (config : ECLStagingConfig.t) (timestamp : Z)
    (t : Db.Tables) (b : ECLBounds.t) :
  parse_ecl_bounds config = Ok b ->
  stage_loans_ecl_orm pid config timestamp (Db.open t None)
  = (Ok (StagingSuccess (ecl_orm_return b pid t)),
     clean (ecl_orm_tables b pid config timestamp t) None).
Proof.
  intros Hparse. apply stage_loans_ecl_orm_with_complete; [unfold batch_size; lia|exact Hparse].
Qed.

(** X1: a run of [stage_loans_ecl_orm] that meets no storage failure leaves
    nothing pending, keeps the number of rows, leaves the loans of every other
    portfolio as they were, and gives every loan of the portfolio the time of
    the run and one of the stages 1, 2 and 3; no other column of the loan is
    written. *)
Theorem stage_loans_ecl_orm_covers_portfolio (pid : Z) (config : ECLStagingConfig.t)
    (timestamp : Z) (t : Db.Tables) (b : ECLBounds.t) :
  parse_ecl_bounds config = Ok b ->
  let s' := snd (stage_loans_ecl_orm pid config timestamp (Db.open t None)) in
  Db.working s' = Db.committed s'
  /\ length (Db.loans (Db.committed s')) = length (Db.loans t)
  /\ forall (i : nat) (l : Loan.t),
       Db.loans t !! i = Some l ->
       exists l' : Loan.t,
         Db.loans (Db.committed s') !! i = Some l'
         /\ (Loan.portfolio_id l <> pid -> l' = l)
         /\ (Loan.portfolio_id l = pid ->
             Loan.last_staged_at l' = Some timestamp
             /\ (Loan.ecl_stage l' = Some 1 \/ Loan.ecl_stage l' = Some 2
                 \/ Loan.ecl_stage l' = Some 3)
             /\ l' = Loan.set_last_staged_at (Some timestamp)
                       (Loan.set_ecl_stage (Loan.ecl_stage l') l)).
Proof.
  intros Hparse. rewrite (stage_loans_ecl_orm_run pid config timestamp t b Hparse).
  cbn [snd clean Db.working Db.committed]. split; [reflexivity|].
  rewrite ecl_orm_tables_loans, stage_rows_portfolio. split; [apply length_fmap|].
  intros i l Hl. rewrite list_lookup_fmap, Hl. simpl.
  eexists. split; [reflexivity|]. split.
  - intros Hp. now rewrite bool_decide_eq_false_2 by exact Hp.
  - intros Hp. rewrite bool_decide_eq_true_2 by exact Hp.
    apply ecl_orm_staged_fields.
Qed.

Lemma stage_loans_ecl_orm_covers_portfolio_witness :
  length (Db.loans (Db.committed (snd (stage_loans_ecl_orm 7 Sample.ecl_config 99
            (Db.open (Sample.tables Sample.five_loans) None)))))
  = length (Db.loans (Sample.tables Sample.five_loans)).
Proof.
  apply (stage_loans_ecl_orm_covers_portfolio 7 Sample.ecl_config 99
           (Sample.tables Sample.five_loans) Sample.ecl_bounds).
  reflexivity.
Defined.

(** X2: the summary a fault-free run of [stage_loans_ecl_orm] returns agrees
    with the labels it has stored: the count of each stage is the number of
    loans of the portfolio that carry that stage after the run, the total is
    the number of loans of the portfolio, and the three counts add up to the
    total. *)
Theorem stage_loans_ecl_orm_summary_counts (pid : Z) (config : ECLStagingConfig.t)
    (timestamp : Z) (t : Db.Tables) (b : ECLBounds.t) :
  parse_ecl_bounds config = Ok b ->
  let run := stage_loans_ecl_orm pid config timestamp (Db.open t None) in
  let staged (k : Z) :=
    filter (fun l => Loan.portfolio_id l = pid /\ Loan.ecl_stage l = Some k)
      (Db.loans (Db.committed (snd run))) in
  exists r : ECLStagingReturn.t,
    fst run = Ok (StagingSuccess r)
    /\ StageTotals.num_loans (ECLStagingReturn.stage_1 r) = Z.of_nat (length (staged 1))
    /\ StageTotals.num_loans (ECLStagingReturn.stage_2 r) = Z.of_nat (length (staged 2))
    /\ StageTotals.num_loans (ECLStagingReturn.stage_3 r) = Z.of_nat (length (staged 3))
    /\ ECLStagingReturn.total_loans r = Z.of_nat (length (loans_of_portfolio t pid))
    /\ StageTotals.num_loans (ECLStagingReturn.stage_1 r)
       + StageTotals.num_loans (ECLStagingReturn.stage_2 r)
       + StageTotals.num_loans (ECLStagingReturn.stage_3 r)
       = ECLStagingReturn.total_loans r.
Proof.
  intros Hparse. rewrite (stage_loans_ecl_orm_run pid config timestamp t b Hparse).
  cbn [fst snd clean Db.committed]. eexists. split; [reflexivity|].
  rewrite ecl_orm_tables_loans, stage_rows_portfolio.
  cbn [ecl_orm_return ECLStagingReturn.stage_1 ECLStagingReturn.stage_2
       ECLStagingReturn.stage_3 ECLStagingReturn.total_loans].
  unfold ecl_orm_totals, ecl_stage_totals. cbn [StageTotals.num_loans].
  unfold ecl_orm_counters. rewrite count_rows_loans, portfolio_rows_length.
  split; [|split; [|split; [|split]]].
  1-3: rewrite (filter_staged_length (ecl_orm_staged b timestamp)
                  (fun l => Loan.ecl_stage l = Some _) pid (Db.loans t)
                  (ecl_orm_staged_portfolio b timestamp));
       fold (loans_of_portfolio t pid);
       rewrite (ecl_orm_fold_count b timestamp); reflexivity.
  - reflexivity.
  - rewrite (ecl_orm_fold_total b). reflexivity.
Qed.

Lemma stage_loans_ecl_orm_summary_counts_witness :
  exists r : ECLStagingReturn.t,
    fst (stage_loans_ecl_orm 7 Sample.ecl_config 99
           (Db.open (Sample.tables Sample.five_loans) None)) = Ok (StagingSuccess r)
    /\ ECLStagingReturn.total_loans r
       = Z.of_nat (length (loans_of_portfolio (Sample.tables Sample.five_loans) 7)).
Proof.
  destruct (stage_loans_ecl_orm_summary_counts 7 Sample.ecl_config 99
              (Sample.tables Sample.five_loans) Sample.ecl_bounds eq_refl)
    as (r & Hr & _ & _ & _ & Ht & _).
  exists r. split; [exact Hr|exact Ht].
Defined.

(** ** [stage_loans_local_impairment_orm]: a run without storage failure *)

Lemma local_orm_staged_fields (b : LocalBounds.t) (timestamp : Z) (l : Loan.t) :
  Loan.last_staged_at (local_orm_staged b timestamp l) = Some timestamp
  /\ Loan.impairment_category (local_orm_staged b timestamp l)
     = match local_orm_category b (default 0 (Loan.ndia l)) with
       | Some c => Some c
       | None => Loan.impairment_category l
       end
  /\ local_orm_staged b timestamp l
     = Loan.set_last_staged_at (Some timestamp)
         (Loan.set_impairment_category
            (Loan.impairment_category (local_orm_staged b timestamp l)) l).
Proof.
  unfold local_orm_staged, local_orm_stage_loan, local_orm_assign.
  destruct (Loan.ndia l) as [n|]; simpl;
    destruct (local_orm_category b _); simpl; repeat split; now destruct l.
Qed.

Lemma local_orm_category_names (b : LocalBounds.t) (ndia : Z) (c : string) :
  local_orm_category b ndia = Some c ->
  c ∈ ["Current"; "OLEM"; "Substandard"; "Doubtful"; "Loss"]%string.
Proof.
  unfold local_orm_category.
  repeat (match goal with |- context [if ?x then _ else _] => destruct x end);
    intros H; inversion H; set_solver.
Qed.

Lemma local_orm_counted_count (b : LocalBounds.t) (l : Loan.t)
    (acc : gmap string Z * gmap string Q) (c : string) :
  getZ (fst (local_orm_counted b l acc)) c
  = getZ (fst acc) c
    + (if bool_decide (local_orm_category b (default 0 (Loan.ndia l)) = Some c)
       then 1 else 0).
Proof.
  unfold local_orm_counted, local_orm_stage_loan, local_orm_assign, getZ.
  destruct (Loan.ndia l) as [n|]; simpl;
    (destruct (local_orm_category b _) as [c'|]; simpl;
     [ destruct (decide (c = c')) as [->|Hne];
       [ rewrite lookup_insert_eq, bool_decide_eq_true_2 by reflexivity; reflexivity
       | rewrite lookup_insert_ne by congruence;
         rewrite bool_decide_eq_false_2 by congruence; lia ]
     | lia ]).
Qed.

Lemma local_orm_fold_count (b : LocalBounds.t) (c : string) (L : list Loan.t)
    (acc : gmap string Z * gmap string Q) :
  getZ (fst (fold_left (fun a l => local_orm_counted b l a) L acc)) c
  = getZ (fst acc) c
    + Z.of_nat (length (filter (fun l => local_orm_category b (default 0 (Loan.ndia l))
                                         = Some c) L)).
Proof.
  revert acc. induction L as [|l L IH]; intros acc; simpl; [lia|].
  rewrite IH, local_orm_counted_count, filter_cons.
  destruct (decide (local_orm_category b (default 0 (Loan.ndia l)) = Some c)) as [H|H].
  - rewrite bool_decide_eq_true_2 by exact H. simpl length. lia.
  - rewrite bool_decide_eq_false_2 by exact H. lia.
Qed.

(** Every loan is matched by exactly one of the five categories or by none. *)
Lemma local_orm_category_partition (b : LocalBounds.t) (L : list Loan.t) :
  let category (l : Loan.t) := local_orm_category b (default 0 (Loan.ndia l)) in
  let matched (c : string) := filter (fun l => category l = Some c) L in
  (length (matched "Current") + length (matched "OLEM") + length (matched "Substandard")
   + length (matched "Doubtful") + length (matched "Loss")
   + length (filter (fun l => category l = None) L))%nat
  = length L.
Proof.
  induction L as [|l L IH]; [reflexivity|]. simpl in IH |- *.
  rewrite !filter_cons.
  destruct (local_orm_category b (default 0 (Loan.ndia l))) as [c|] eqn:E.
  - apply local_orm_category_names in E.
    repeat (apply elem_of_cons in E as [->|E]); [..|inversion E];
      repeat case_decide; try congruence; simpl length; lia.
  - repeat case_decide; try congruence; simpl length; lia.
Qed.

Lemma stage_loans_local_impairment_orm_run (pid : Z) (config : LocalImpairmentConfig.t)
    (timestamp : Z) (t : Db.Tables) (b : LocalBounds.t) :
  parse_local_bounds config = Ok b ->
  stage_loans_local_impairment_orm pid config timestamp (Db.open t None)
  = (Ok (StagingSuccess (local_orm_return b pid t)),
     clean (local_orm_tables b pid config timestamp t) None).
Proof.
  intros Hparse.
  apply stage_loans_local_impairment_orm_with_complete; [unfold batch_size; lia|exact Hparse].
Qed.

(** X3: a run of [stage_loans_local_impairment_orm] that meets no storage
    failure leaves the loans of every other portfolio as they were and gives
    every loan of the portfolio the time of the run.  The loan takes the
    category of the first branch of the chain that its days past due (0 when
    absent) satisfy; when no branch does, it keeps the category it had, and
    is stamped all the same.  No other column is written. *)
Theorem stage_loans_local_impairment_orm_covers_portfolio (pid : Z)
    (config : LocalImpairmentConfig.t) (timestamp : Z) (t : Db.Tables) (b : LocalBounds.t) :
  parse_local_bounds config = Ok b ->
  let s' := snd (stage_loans_local_impairment_orm pid config timestamp (Db.open t None)) in
  Db.working s' = Db.committed s'
  /\ length (Db.loans (Db.committed s')) = length (Db.loans t)
  /\ forall (i : nat) (l : Loan.t),
       Db.loans t !! i = Some l ->
       exists l' : Loan.t,
         Db.loans (Db.committed s') !! i = Some l'
         /\ (Loan.portfolio_id l <> pid -> l' = l)
         /\ (Loan.portfolio_id l = pid ->
             Loan.last_staged_at l' = Some timestamp
             /\ Loan.impairment_category l'
                = match local_orm_category b (default 0 (Loan.ndia l)) with
                  | Some c => Some c
                  | None => Loan.impairment_category l
                  end
             /\ l' = Loan.set_last_staged_at (Some timestamp)
                       (Loan.set_impairment_category (Loan.impairment_category l') l)).
Proof.
  intros Hparse.
  rewrite (stage_loans_local_impairment_orm_run pid config timestamp t b Hparse).
  cbn [snd clean Db.working Db.committed]. split; [reflexivity|].
  rewrite local_orm_tables_loans, stage_rows_portfolio. split; [apply length_fmap|].
  intros i l Hl. rewrite list_lookup_fmap, Hl. simpl.
  eexists. split; [reflexivity|]. split.
  - intros Hp. now rewrite bool_decide_eq_false_2 by exact Hp.
  - intros Hp. rewrite bool_decide_eq_true_2 by exact Hp.
    apply local_orm_staged_fields.
Qed.

Lemma stage_loans_local_impairment_orm_covers_portfolio_witness :
  exists l' : Loan.t,
    Db.loans (Db.committed (snd (stage_loans_local_impairment_orm 7 Sample.gap_config 99
                (Db.open (Sample.tables [Sample.loan 1 (Some 30) 5]) None)))) !! 0%nat
    = Some l'
    /\ Loan.last_staged_at l' = Some 99
    /\ Loan.impairment_category l' = None.
Proof.
  destruct (stage_loans_local_impairment_orm_covers_portfolio 7 Sample.gap_config 99
              (Sample.tables [Sample.loan 1 (Some 30) 5]) Sample.gap_bounds eq_refl)
    as (_ & _ & H).
  destruct (H 0%nat (Sample.loan 1 (Some 30) 5) eq_refl) as (l' & Hl' & _ & Hp).
  destruct (Hp eq_refl) as (Hts & Hcat & _).
  exists l'. split; [exact Hl'|]. split; [exact Hts|exact Hcat].
Defined.

(** X4: the summary a fault-free run of [stage_loans_local_impairment_orm]
    returns counts, in each category, the loans of the portfolio whose days
    past due (0 when absent) take the branch of that category, and reports
    the number of loans of the portfolio as the total.  A loan that takes no
    branch is in the total and in no category: the five counts and the
    number of such loans add up to the total. *)
Theorem stage_loans_local_impairment_orm_summary_counts (pid : Z)
    (config : LocalImpairmentConfig.t) (timestamp : Z) (t : Db.Tables) (b : LocalBounds.t) :
  parse_local_bounds config = Ok b ->
  let category (l : Loan.t) := local_orm_category b (default 0 (Loan.ndia l)) in
  let matched (c : string) :=
    filter (fun l => category l = Some c) (loans_of_portfolio t pid) in
  let unmatched := filter (fun l => category l = None) (loans_of_portfolio t pid) in
  exists r : LocalStagingReturn.t,
    fst (stage_loans_local_impairment_orm pid config timestamp (Db.open t None))
    = Ok (StagingSuccess r)
    /\ CategoryReturn.num_loans (LocalStagingReturn.current r)
       = Z.of_nat (length (matched "Current"))
    /\ CategoryReturn.num_loans (LocalStagingReturn.olem r)
       = Z.of_nat (length (matched "OLEM"))
    /\ CategoryReturn.num_loans (LocalStagingReturn.substandard r)
       = Z.of_nat (length (matched "Substandard"))
    /\ CategoryReturn.num_loans (LocalStagingReturn.doubtful r)
       = Z.of_nat (length (matched "Doubtful"))
    /\ CategoryReturn.num_loans (LocalStagingReturn.loss r)
       = Z.of_nat (length (matched "Loss"))
    /\ LocalStagingReturn.total_loans r = Z.of_nat (length (loans_of_portfolio t pid))
    /\ CategoryReturn.num_loans (LocalStagingReturn.current r)
       + CategoryReturn.num_loans (LocalStagingReturn.olem r)
       + CategoryReturn.num_loans (LocalStagingReturn.substandard r)
       + CategoryReturn.num_loans (LocalStagingReturn.doubtful r)
       + CategoryReturn.num_loans (LocalStagingReturn.loss r)
       + Z.of_nat (length unmatched)
       = LocalStagingReturn.total_loans r.
Proof.
  intros Hparse. cbv zeta.
  rewrite (stage_loans_local_impairment_orm_run pid config timestamp t b Hparse).
  cbn [fst]. eexists. split; [reflexivity|].
  cbn [local_orm_return LocalStagingReturn.current LocalStagingReturn.olem
       LocalStagingReturn.substandard LocalStagingReturn.doubtful LocalStagingReturn.loss
       LocalStagingReturn.total_loans].
  unfold local_category_return. cbn [CategoryReturn.num_loans].
  unfold local_orm_counters. rewrite count_rows_loans, portfolio_rows_length.
  rewrite !local_orm_fold_count.
  change (getZ (fst (local_initial_counts, local_initial_balances)) "Current") with 0.
  change (getZ (fst (local_initial_counts, local_initial_balances)) "OLEM") with 0.
  change (getZ (fst (local_initial_counts, local_initial_balances)) "Substandard") with 0.
  change (getZ (fst (local_initial_counts, local_initial_balances)) "Doubtful") with 0.
  change (getZ (fst (local_initial_counts, local_initial_balances)) "Loss") with 0.
  do 6 (split; [reflexivity|]).
  pose proof (local_orm_category_partition b (loans_of_portfolio t pid)) as Hpart.
  cbv zeta beta in Hpart. lia.
Qed.

Lemma stage_loans_local_impairment_orm_summary_counts_witness :
  exists r : LocalStagingReturn.t,
    fst (stage_loans_local_impairment_orm 7 Sample.gap_config 99
           (Db.open (Sample.tables [Sample.loan 1 (Some 30) 5; Sample.loan 2 (Some 95) 7])
              None))
    = Ok (StagingSuccess r)
    /\ CategoryReturn.num_loans (LocalStagingReturn.substandard r) = 1
    /\ LocalStagingReturn.total_loans r = 2.
Proof.
  destruct (stage_loans_local_impairment_orm_summary_counts 7 Sample.gap_config 99
              (Sample.tables [Sample.loan 1 (Some 30) 5; Sample.loan 2 (Some 95) 7])
              Sample.gap_bounds eq_refl)
    as (r & Hr & _ & _ & Hs & _ & _ & Ht & _).
  exists r. split; [exact Hr|]. split; [exact Hs|exact Ht].
Defined.

(** ** [stage_loans_ecl_orm_sync]: a run without storage failure *)

Lemma ecl_sync_stage_loan_split (b : ECLBounds.t) (loan : Loan.t)
    (acc : gmap Z Z * gmap Z Q) :
  ecl_sync_stage_loan (snd (ECLBounds.stage_1 b)) (fst (ECLBounds.stage_2 b))
    (snd (ECLBounds.stage_2 b)) (fst (ECLBounds.stage_3 b)) (snd (ECLBounds.stage_3 b))
    loan acc
  = (ecl_sync_staged b loan, ecl_sync_counted b loan acc).
Proof.
  unfold ecl_sync_staged, ecl_sync_counted, ecl_sync_stage_loan.
  destruct (Loan.ndia loan); [|reflexivity].
  now destruct (ecl_sync_stage _ _ _ _ _ _).
Qed.

Lemma ecl_sync_staged_portfolio (b : ECLBounds.t) (loan : Loan.t) :
  Loan.portfolio_id (ecl_sync_staged b loan) = Loan.portfolio_id loan.
Proof.
  unfold ecl_sync_staged, ecl_sync_stage_loan.
  destruct (Loan.ndia loan); [|reflexivity].
  now destruct (ecl_sync_stage _ _ _ _ _ _).
Qed.

Lemma ecl_sync_counted_staged (b : ECLBounds.t) (l : Loan.t) (acc : gmap Z Z * gmap Z Q) :
  ecl_sync_counted b (ecl_sync_staged b l) acc = ecl_sync_counted b l acc.
Proof.
  unfold ecl_sync_counted, ecl_sync_staged, ecl_sync_stage_loan.
  destruct (Loan.ndia l) as [n|] eqn:Hn; simpl; [|now rewrite Hn].
  destruct (ecl_sync_stage _ _ _ _ _ n) eqn:Hs; simpl; now rewrite Hn, Hs.
Qed.

Lemma stage_loans_ecl_orm_sync_with_complete (bs : nat) (pid : Z)
    (config : ECLStagingConfig.t) (timestamp : Z) (t : Db.Tables) (b : ECLBounds.t) :
  (0 < bs)%nat -> parse_ecl_bounds config = Ok b ->
  stage_loans_ecl_orm_sync_with bs pid config timestamp (clean t None)
  = (Ok (ecl_sync_return b pid t), clean (ecl_sync_tables b pid config timestamp t) None).
Proof.
  intros Hbs Hparse.
  unfold stage_loans_ecl_orm_sync_with, try_except, stage_loans_ecl_orm_sync_try.
  rewrite bind_eq, Hparse, lift_eq.
  unfold clean. rewrite bind_eq, query_loan_count_eq. cbn [spend].
  rewrite bind_eq, Nat2Z.id.
  change 0%nat with (0 * bs)%nat at 1.
  fold (clean t None).
  rewrite (staging_pages_complete _ (ecl_sync_staged b) (ecl_sync_counted b)
             (ecl_sync_stage_loan_split b)
             (ecl_sync_staged_portfolio b)
             (ecl_sync_counted_staged b) pid bs Hbs)
    by (now apply fuel_enough).
  cbn [Nat.mul]. rewrite drop_0.
  fold (ecl_sync_counters b pid t).
  unfold clean. rewrite bind_eq. unfold add_staging_result. rewrite bind_eq.
  unfold get_working, put_working. cbn [Db.working Db.committed Db.budget].
  rewrite bind_eq, commit_eq. cbn [spend]. reflexivity.
Qed.

(** *** Counters kept in a dict *)

Lemma foldr_add_perm (l1 l2 : list Z) :
  l1 ≡ₚ l2 -> foldr Z.add 0 l1 = foldr Z.add 0 l2.
Proof. induction 1; simpl; lia. Qed.

Lemma sum_values_empty {K : Type} `{Countable K} : sum_values (∅ : gmap K Z) = 0.
Proof. unfold sum_values. now rewrite map_to_list_empty. Qed.

Lemma sum_values_insert {K : Type} `{Countable K} (m : gmap K Z) (k : K) (v : Z) :
  m !! k = None -> sum_values (<[k := v]> m) = v + sum_values m.
Proof.
  intros Hk. unfold sum_values.
  pose proof (map_to_list_insert m k v Hk) as Hp.
  apply (fmap_Permutation snd) in Hp.
  now rewrite (foldr_add_perm _ _ Hp).
Qed.

(** d[k] += 1 adds one to the sum of the values, whether [k] was a key or not. *)
Lemma sum_values_incr {K : Type} `{Countable K} (m : gmap K Z) (k : K) :
  sum_values (<[k := getZ m k + 1]> m) = sum_values m + 1.
Proof.
  unfold getZ. destruct (m !! k) as [v|] eqn:Hk; simpl.
  - rewrite <- (insert_delete_eq m).
    rewrite <- (insert_delete_id m k v Hk) at 2.
    rewrite !sum_values_insert by apply lookup_delete_eq. lia.
  - rewrite sum_values_insert by exact Hk. lia.
Qed.

Section DictCounters.
Context {K : Type} `{Countable K} {B : Type}.
Variable g : Loan.t -> gmap K Z * B -> gmap K Z * B.
Variable cat : Loan.t -> option K.
Hypothesis Hstep : forall l acc,
  fst (g l acc)
  = match cat l with
    | Some k => <[k := getZ (fst acc) k + 1]> (fst acc)
    | None => fst acc
    end.

Lemma fold_counts_key (k : K) (L : list Loan.t) (acc : gmap K Z * B) :
  getZ (fst (fold_left (fun a l => g l a) L acc)) k
  = getZ (fst acc) k + Z.of_nat (length (filter (fun l => cat l = Some k) L)).
Proof.
  revert acc. induction L as [|l L IH]; intros acc; simpl; [lia|].
  rewrite IH, Hstep, filter_cons. unfold getZ at 1.
  destruct (cat l) as [k'|].
  - destruct (decide (k' = k)) as [->|Hne].
    + rewrite lookup_insert_eq, decide_True by reflexivity. simpl. lia.
    + rewrite lookup_insert_ne by exact Hne.
      rewrite decide_False by congruence. reflexivity.
  - rewrite decide_False by discriminate. reflexivity.
Qed.

Lemma fold_counts_sum (L : list Loan.t) (acc : gmap K Z * B) :
  sum_values (fst (fold_left (fun a l => g l a) L acc))
  = sum_values (fst acc) + Z.of_nat (length (filter (fun l => is_Some (cat l)) L)).
Proof.
  revert acc. induction L as [|l L IH]; intros acc; simpl; [lia|].
  rewrite IH, Hstep, filter_cons.
  destruct (cat l) as [k'|].
  - rewrite sum_values_incr, decide_True by (now eexists). simpl length. lia.
  - rewrite decide_False by (intros [? ?]; discriminate). reflexivity.
Qed.

End DictCounters.

(** *** [stage_loans_ecl_orm_sync] *)

Lemma ecl_sync_counted_step (b : ECLBounds.t) (l : Loan.t) (acc : gmap Z Z * gmap Z Q) :
  fst (ecl_sync_counted b l acc)
  = match ecl_sync_stage_of b l with
    | Some k => <[k := getZ (fst acc) k + 1]> (fst acc)
    | None => fst acc
    end.
Proof.
  unfold ecl_sync_counted, ecl_sync_stage_of, ecl_sync_stage_loan.
  destruct (Loan.ndia l); [|reflexivity].
  now destruct (ecl_sync_stage _ _ _ _ _ _).
Qed.

Lemma ecl_sync_staged_eq (b : ECLBounds.t) (l : Loan.t) :
  ecl_sync_staged b l
  = match ecl_sync_stage_of b l with
    | Some k => Loan.set_stage (Some (stage_name k)) l
    | None => l
    end.
Proof.
  unfold ecl_sync_staged, ecl_sync_stage_of, ecl_sync_stage_loan.
  destruct (Loan.ndia l); [|reflexivity].
  now destruct (ecl_sync_stage _ _ _ _ _ _).
Qed.

Lemma ecl_sync_stage_of_range (b : ECLBounds.t) (l : Loan.t) (k : Z) :
  ecl_sync_stage_of b l = Some k -> k = 1 \/ k = 2 \/ k = 3.
Proof.
  unfold ecl_sync_stage_of, ecl_sync_stage.
  destruct (Loan.ndia l); [|discriminate].
  repeat (match goal with |- context [if ?x then _ else _] => destruct x end);
    intros H; inversion H; auto.
Qed.

Lemma ecl_sync_partition (b : ECLBounds.t) (L : list Loan.t) :
  let staged (k : Z) := filter (fun l => ecl_sync_stage_of b l = Some k) L in
  (length (staged 1%Z) + length (staged 2%Z) + length (staged 3%Z)
   + length (filter (fun l => ecl_sync_stage_of b l = None) L))%nat = length L
  /\ length (filter (fun l => is_Some (ecl_sync_stage_of b l)) L)
     = (length (staged 1%Z) + length (staged 2%Z) + length (staged 3%Z))%nat.
Proof.
  induction L as [|l L [IH1 IH2]]; [split; reflexivity|]. simpl in IH1, IH2 |- *.
  rewrite !filter_cons.
  destruct (ecl_sync_stage_of b l) as [k|] eqn:E.
  - rewrite (decide_True (P := is_Some (Some k))) by (now eexists).
    destruct (ecl_sync_stage_of_range b l k E) as [-> | [-> | ->]];
      repeat case_decide; try congruence; simpl length; lia.
  - rewrite (decide_False (P := is_Some None)) by (intros [? ?]; discriminate).
    repeat case_decide; try congruence; simpl length; lia.
Qed.

Lemma stage_loans_ecl_orm_sync_run (pid : Z) (config : ECLStagingConfig.t) (timestamp : Z)
    (t : Db.Tables) (b : ECLBounds.t) :
  parse_ecl_bounds config = Ok b ->
  stage_loans_ecl_orm_sync pid config timestamp (Db.open t None)
  = (Ok (ecl_sync_return b pid t), clean (ecl_sync_tables b pid config timestamp t) None).
Proof.
  intros Hparse.
  apply stage_loans_ecl_orm_sync_with_complete; [unfold batch_size; lia|exact Hparse].
Qed.

(** X5: the counts [stage_loans_ecl_orm_sync] returns after a fault-free run.
    A loan without days past due is skipped, and so is a loan whose days take
    no branch of the chain; each other loan of the portfolio is counted in
    the stage of the first branch it takes.  The total returned is the sum of
    the three counts: it is the number of loans staged, not the number of
    loans of the portfolio. *)
Theorem stage_loans_ecl_orm_sync_summary_counts (pid : Z) (config : ECLStagingConfig.t)
    (timestamp : Z) (t : Db.Tables) (b : ECLBounds.t) :
  parse_ecl_bounds config = Ok b ->
  let staged (k : Z) :=
    filter (fun l => ecl_sync_stage_of b l = Some k) (loans_of_portfolio t pid) in
  let skipped := filter (fun l => ecl_sync_stage_of b l = None) (loans_of_portfolio t pid) in
  exists r : ECLSyncReturn.t,
    fst (stage_loans_ecl_orm_sync pid config timestamp (Db.open t None)) = Ok r
    /\ ECLSyncReturn.stage_1_count r = Z.of_nat (length (staged 1))
    /\ ECLSyncReturn.stage_2_count r = Z.of_nat (length (staged 2))
    /\ ECLSyncReturn.stage_3_count r = Z.of_nat (length (staged 3))
    /\ ECLSyncReturn.total_loans r
       = ECLSyncReturn.stage_1_count r + ECLSyncReturn.stage_2_count r
         + ECLSyncReturn.stage_3_count r
    /\ ECLSyncReturn.total_loans r + Z.of_nat (length skipped)
       = Z.of_nat (length (loans_of_portfolio t pid)).
Proof.
  intros Hparse. cbv zeta.
  rewrite (stage_loans_ecl_orm_sync_run pid config timestamp t b Hparse).
  cbn [fst]. eexists. split; [reflexivity|].
  cbn [ecl_sync_return ECLSyncReturn.stage_1_count ECLSyncReturn.stage_2_count
       ECLSyncReturn.stage_3_count ECLSyncReturn.total_loans].
  unfold ecl_sync_counters. rewrite count_rows_loans.
  rewrite !(fold_counts_key (ecl_sync_counted b) (ecl_sync_stage_of b)
              (ecl_sync_counted_step b)).
  rewrite (fold_counts_sum (ecl_sync_counted b) (ecl_sync_stage_of b)
             (ecl_sync_counted_step b)).
  cbn [fst]. rewrite !sum_values_insert by (now vm_compute).
  replace (sum_values (∅ : gmap Z Z)) with 0 by (symmetry; apply sum_values_empty).
  change (getZ (<[1:=0]> (<[2:=0]> (<[3:=0]> ∅))) 1) with 0.
  change (getZ (<[1:=0]> (<[2:=0]> (<[3:=0]> ∅))) 2) with 0.
  change (getZ (<[1:=0]> (<[2:=0]> (<[3:=0]> ∅))) 3) with 0.
  destruct (ecl_sync_partition b (loans_of_portfolio t pid)) as [H1 H2].
  cbv zeta beta in H1, H2.
  do 3 (split; [reflexivity|]). split; lia.
Qed.

Lemma stage_loans_ecl_orm_sync_summary_counts_witness :
  exists r : ECLSyncReturn.t,
    fst (stage_loans_ecl_orm_sync 7 Sample.ecl_config 99
           (Db.open (Sample.tables [Sample.loan 1 None 5; Sample.loan 2 (Some 95) 7]) None))
    = Ok r
    /\ ECLSyncReturn.total_loans r
       = ECLSyncReturn.stage_1_count r + ECLSyncReturn.stage_2_count r
         + ECLSyncReturn.stage_3_count r.
Proof.
  destruct (stage_loans_ecl_orm_sync_summary_counts 7 Sample.ecl_config 99
              (Sample.tables [Sample.loan 1 None 5; Sample.loan 2 (Some 95) 7])
              Sample.ecl_bounds eq_refl)
    as (r & Hr & _ & _ & _ & Ht & _).
  exists r. split; [exact Hr|exact Ht].
Defined.

(** X6: what a fault-free run of [stage_loans_ecl_orm_sync] writes.  It adds
    one summary row of type "ecl" for the portfolio, carrying the
    configuration; on a loan of the portfolio that is staged it writes the
    column [stage] ("Stage 1", "Stage 2" or "Stage 3") and nothing else, and it
    leaves a skipped loan and the loans of other portfolios as they were. *)
Theorem stage_loans_ecl_orm_sync_writes (pid : Z) (config : ECLStagingConfig.t)
    (timestamp : Z) (t : Db.Tables) (b : ECLBounds.t) :
  parse_ecl_bounds config = Ok b ->
  let s' := snd (stage_loans_ecl_orm_sync pid config timestamp (Db.open t None)) in
  Db.working s' = Db.committed s'
  /\ (exists row : StagingResult.t,
        Db.staging_results (Db.committed s') = Db.staging_results t ++ [row]
        /\ StagingResult.portfolio_id row = pid
        /\ StagingResult.staging_type row = "ecl"%string
        /\ StagingResult.config row = Some (ECLConfigDoc config))
  /\ Db.loans (Db.committed s')
     = (fun l =>
          if bool_decide (Loan.portfolio_id l = pid) then
            match ecl_sync_stage_of b l with
            | Some k => Loan.set_stage (Some (stage_name k)) l
            | None => l
            end
          else l) <$> Db.loans t.
Proof.
  intros Hparse. rewrite (stage_loans_ecl_orm_sync_run pid config timestamp t b Hparse).
  cbn [snd clean Db.working Db.committed]. split; [reflexivity|]. split.
  - eexists. split; [reflexivity|]. now repeat split.
  - cbn [ecl_sync_tables Db.loans Db.set_staging_results Db.set_loans].
    rewrite stage_rows_portfolio. apply list_fmap_ext. intros i l _.
    now rewrite ecl_sync_staged_eq.
Qed.

Lemma stage_loans_ecl_orm_sync_writes_witness :
  Loan.stage <$>
    Db.loans (Db.committed (snd (stage_loans_ecl_orm_sync 7 Sample.ecl_config 99
      (Db.open (Sample.tables [Sample.loan 1 None 5; Sample.loan 2 (Some 95) 7]) None))))
  = [None; Some "Stage 3"%string].
Proof.
  destruct (stage_loans_ecl_orm_sync_writes 7 Sample.ecl_config 99
              (Sample.tables [Sample.loan 1 None 5; Sample.loan 2 (Some 95) 7])
              Sample.ecl_bounds eq_refl)
    as (_ & _ & Hl).
  rewrite Hl. reflexivity.
Defined.

(** *** [stage_loans_local_impairment_orm_sync] *)

Lemma local_sync_counted_step (b : LocalBounds.t) (l : Loan.t)
    (acc : gmap string Z * gmap string Q) :
  fst (local_sync_counted b l acc)
  = match local_sync_category_of b l with
    | Some c => <[c := getZ (fst acc) c + 1]> (fst acc)
    | None => fst acc
    end.
Proof.
  unfold local_sync_counted, local_sync_category_of, local_sync_stage_loan, local_orm_assign.
  destruct (Loan.ndia l); [|reflexivity].
  now destruct (local_orm_category b _).
Qed.

Lemma local_sync_staged_eq (b : LocalBounds.t) (l : Loan.t) :
  local_sync_staged b l
  = match local_sync_category_of b l with
    | Some c => Loan.set_impairment_category (Some c) l
    | None => l
    end.
Proof.
  unfold local_sync_staged, local_sync_category_of, local_sync_stage_loan, local_orm_assign.
  destruct (Loan.ndia l); [|reflexivity].
  now destruct (local_orm_category b _).
Qed.

Lemma local_sync_partition (b : LocalBounds.t) (L : list Loan.t) :
  let matched (c : string) := filter (fun l => local_sync_category_of b l = Some c) L in
  (length (matched "Current") + length (matched "OLEM") + length (matched "Substandard")
   + length (matched "Doubtful") + length (matched "Loss")
   + length (filter (fun l => local_sync_category_of b l = None) L))%nat = length L
  /\ length (filter (fun l => is_Some (local_sync_category_of b l)) L)
     = (length (matched "Current") + length (matched "OLEM")
        + length (matched "Substandard") + length (matched "Doubtful")
        + length (matched "Loss"))%nat.
Proof.
  induction L as [|l L [IH1 IH2]]; [split; reflexivity|]. simpl in IH1, IH2 |- *.
  rewrite !filter_cons.
  destruct (local_sync_category_of b l) as [c|] eqn:E.
  - rewrite (decide_True (P := is_Some (Some c))) by (now eexists).
    assert (c ∈ ["Current"; "OLEM"; "Substandard"; "Doubtful"; "Loss"]%string) as Hc.
    { unfold local_sync_category_of in E. destruct (Loan.ndia l); [|discriminate].
      now apply local_orm_category_names in E. }
    repeat (apply elem_of_cons in Hc as [-> | Hc]); [..|inversion Hc];
      repeat case_decide; try congruence; simpl length; lia.
  - rewrite (decide_False (P := is_Some None)) by (intros [? ?]; discriminate).
    repeat case_decide; try congruence; simpl length; lia.
Qed.

Lemma stage_loans_local_impairment_orm_sync_run (pid : Z) (config : LocalImpairmentConfig.t)
    (timestamp : Z) (t : Db.Tables) (b : LocalBounds.t) :
  parse_local_bounds config = Ok b ->
  stage_loans_local_impairment_orm_sync pid config timestamp (Db.open t None)
  = (Ok (local_sync_return b pid t),
     clean (local_sync_tables b pid config timestamp t) None).
Proof.
  intros Hparse.
  apply stage_loans_local_impairment_orm_sync_with_complete;
    [unfold batch_size; lia|exact Hparse].
Qed.

Lemma sum_values_local_initial_counts : sum_values local_initial_counts = 0.
Proof.
  unfold local_initial_counts.
  rewrite !sum_values_insert by (now vm_compute).
  replace (sum_values (∅ : gmap string Z)) with 0 by (symmetry; apply sum_values_empty).
  reflexivity.
Qed.

(** X7: the counts [stage_loans_local_impairment_orm_sync] returns after a
    fault-free run.  A loan without days past due is skipped, and so is a loan
    whose days take no branch of the chain; each other loan of the portfolio
    is counted in the category of the first branch it takes.  The total
    returned is the sum of the five counts, not the number of loans of the
    portfolio. *)
Theorem stage_loans_local_impairment_orm_sync_summary_counts (pid : Z)
    (config : LocalImpairmentConfig.t) (timestamp : Z) (t : Db.Tables) (b : LocalBounds.t) :
  parse_local_bounds config = Ok b ->
  let matched (c : string) :=
    filter (fun l => local_sync_category_of b l = Some c) (loans_of_portfolio t pid) in
  let skipped :=
    filter (fun l => local_sync_category_of b l = None) (loans_of_portfolio t pid) in
  exists r : LocalSyncReturn.t,
    fst (stage_loans_local_impairment_orm_sync pid config timestamp (Db.open t None)) = Ok r
    /\ LocalSyncReturn.current_count r = Z.of_nat (length (matched "Current"))
    /\ LocalSyncReturn.olem_count r = Z.of_nat (length (matched "OLEM"))
    /\ LocalSyncReturn.substandard_count r = Z.of_nat (length (matched "Substandard"))
    /\ LocalSyncReturn.doubtful_count r = Z.of_nat (length (matched "Doubtful"))
    /\ LocalSyncReturn.loss_count r = Z.of_nat (length (matched "Loss"))
    /\ LocalSyncReturn.total_loans r
       = LocalSyncReturn.current_count r + LocalSyncReturn.olem_count r
         + LocalSyncReturn.substandard_count r + LocalSyncReturn.doubtful_count r
         + LocalSyncReturn.loss_count r
    /\ LocalSyncReturn.total_loans r + Z.of_nat (length skipped)
       = Z.of_nat (length (loans_of_portfolio t pid)).
Proof.
  intros Hparse. cbv zeta.
  rewrite (stage_loans_local_impairment_orm_sync_run pid config timestamp t b Hparse).
  cbn [fst]. eexists. split; [reflexivity|].
  cbn [local_sync_return LocalSyncReturn.current_count LocalSyncReturn.olem_count
       LocalSyncReturn.substandard_count LocalSyncReturn.doubtful_count
       LocalSyncReturn.loss_count LocalSyncReturn.total_loans].
  unfold local_sync_counters. rewrite count_rows_loans.
  rewrite !(fold_counts_key (local_sync_counted b) (local_sync_category_of b)
              (local_sync_counted_step b)).
  rewrite (fold_counts_sum (local_sync_counted b) (local_sync_category_of b)
             (local_sync_counted_step b)).
  cbn [fst]. rewrite sum_values_local_initial_counts.
  change (getZ local_initial_counts "Current") with 0.
  change (getZ local_initial_counts "OLEM") with 0.
  change (getZ local_initial_counts "Substandard") with 0.
  change (getZ local_initial_counts "Doubtful") with 0.
  change (getZ local_initial_counts "Loss") with 0.
  destruct (local_sync_partition b (loans_of_portfolio t pid)) as [H1 H2].
  cbv zeta beta in H1, H2.
  do 5 (split; [reflexivity|]). split; lia.
Qed.

Lemma stage_loans_local_impairment_orm_sync_summary_counts_witness :
  exists r : LocalSyncReturn.t,
    fst (stage_loans_local_impairment_orm_sync 7 Sample.gap_config 99
           (Db.open (Sample.tables [Sample.loan 1 (Some 30) 5; Sample.loan 2 (Some 95) 7])
              None))
    = Ok r
    /\ LocalSyncReturn.total_loans r
       = LocalSyncReturn.current_count r + LocalSyncReturn.olem_count r
         + LocalSyncReturn.substandard_count r + LocalSyncReturn.doubtful_count r
         + LocalSyncReturn.loss_count r.
Proof.
  destruct (stage_loans_local_impairment_orm_sync_summary_counts 7 Sample.gap_config 99
              (Sample.tables [Sample.loan 1 (Some 30) 5; Sample.loan 2 (Some 95) 7])
              Sample.gap_bounds eq_refl)
    as (r & Hr & _ & _ & _ & _ & _ & Ht & _).
  exists r. split; [exact Hr|exact Ht].
Defined.

(** X8: what a fault-free run of [stage_loans_local_impairment_orm_sync]
    writes.  It adds one summary row of type "local_impairment" for the
    portfolio, carrying the configuration; on a loan of the portfolio that
    takes a branch it writes the column [impairment_category] and nothing
    else, and it leaves a skipped loan and the loans of other portfolios as
    they were. *)
Theorem stage_loans_local_impairment_orm_sync_writes (pid : Z)
    (config : LocalImpairmentConfig.t) (timestamp : Z) (t : Db.Tables) (b : LocalBounds.t) :
  parse_local_bounds config = Ok b ->
  let s' :=
    snd (stage_loans_local_impairment_orm_sync pid config timestamp (Db.open t None)) in
  Db.working s' = Db.committed s'
  /\ (exists row : StagingResult.t,
        Db.staging_results (Db.committed s') = Db.staging_results t ++ [row]
        /\ StagingResult.portfolio_id row = pid
        /\ StagingResult.staging_type row = "local_impairment"%string
        /\ StagingResult.config row = Some (LocalConfigDoc config))
  /\ Db.loans (Db.committed s')
     = (fun l =>
          if bool_decide (Loan.portfolio_id l = pid) then
            match local_sync_category_of b l with
            | Some c => Loan.set_impairment_category (Some c) l
            | None => l
            end
          else l) <$> Db.loans t.
Proof.
  intros Hparse.
  rewrite (stage_loans_local_impairment_orm_sync_run pid config timestamp t b Hparse).
  cbn [snd clean Db.working Db.committed]. split; [reflexivity|]. split.
  - eexists. split; [reflexivity|]. now repeat split.
  - cbn [local_sync_tables Db.loans Db.set_staging_results Db.set_loans].
    rewrite stage_rows_portfolio. apply list_fmap_ext. intros i l _.
    now rewrite local_sync_staged_eq.
Qed.

Lemma stage_loans_local_impairment_orm_sync_writes_witness :
  Loan.impairment_category <$>
    Db.loans (Db.committed (snd (stage_loans_local_impairment_orm_sync 7 Sample.gap_config 99
      (Db.open (Sample.tables [Sample.loan 1 (Some 30) 5; Sample.loan 2 (Some 95) 7]) None))))
  = [None; Some "Substandard"%string].
Proof.
  destruct (stage_loans_local_impairment_orm_sync_writes 7 Sample.gap_config 99
              (Sample.tables [Sample.loan 1 (Some 30) 5; Sample.loan 2 (Some 95) 7])
              Sample.gap_bounds eq_refl)
    as (_ & _ & Hl).
  rewrite Hl. reflexivity.
Defined.

(** ** A configuration that does not parse *)

Lemma outcome_bind_raise {A B : Type} (m : outcome A) (k : A -> outcome B) (e : exception) :
  m ≫= k = Raise e -> m = Raise e \/ exists a, m = Ok a /\ k a = Raise e.
Proof.
  destruct m as [a| |]; simpl; intros H; [right; now exists a|left; congruence|discriminate].
Qed.

Lemma parse_ecl_bounds_raises_ValueError (config : ECLStagingConfig.t) (e : exception) :
  parse_ecl_bounds config = Raise e -> is_ValueError e = true.
Proof.
  unfold parse_ecl_bounds. intros H.
  do 3 (apply outcome_bind_raise in H as [H|(? & _ & H)];
        [now apply parse_days_range_raises_ValueError in H|]).
  discriminate.
Qed.

Lemma parse_local_bounds_raises_ValueError (config : LocalImpairmentConfig.t)
    (e : exception) :
  parse_local_bounds config = Raise e -> is_ValueError e = true.
Proof.
  unfold parse_local_bounds. intros H.
  do 5 (apply outcome_bind_raise in H as [H|(? & _ & H)];
        [now apply parse_days_range_raises_ValueError in H|]).
  discriminate.
Qed.

(** X9: an ECL configuration with a range that does not parse.  The ranges
    are parsed before the first storage operation, so no budget is spent;
    the error is a [ValueError]; [stage_loans_ecl_orm] returns the error
    summary with the text of the error, [stage_loans_ecl_orm_sync] raises the
    error again; the handler of either rolls the session back, which drops
    whatever the caller had pending. *)
Theorem ecl_staging_unparsed_config (pid : Z) (config : ECLStagingConfig.t) (timestamp : Z)
    (s : Db.Session) (e : exception) :
  parse_ecl_bounds config = Raise e ->
  is_ValueError e = true
  /\ stage_loans_ecl_orm pid config timestamp s
     = (Ok (StagingError (str_exception e)),
        Db.mkSession (Db.committed s) (Db.committed s) (Db.budget s))
  /\ stage_loans_ecl_orm_sync pid config timestamp s
     = (Raise e, Db.mkSession (Db.committed s) (Db.committed s) (Db.budget s)).
Proof.
  intros Hparse. split; [now apply parse_ecl_bounds_raises_ValueError in Hparse|].
  split.
  - unfold stage_loans_ecl_orm, stage_loans_ecl_orm_with, try_except,
      stage_loans_ecl_orm_try.
    now rewrite bind_eq, Hparse, lift_eq.
  - unfold stage_loans_ecl_orm_sync, stage_loans_ecl_orm_sync_with, try_except,
      stage_loans_ecl_orm_sync_try.
    now rewrite bind_eq, Hparse, lift_eq.
Qed.

Lemma ecl_staging_unparsed_config_witness :
  stage_loans_ecl_orm 7 (ECLStagingConfig.mk "0-30" "30 to 90" "90+") 99
    (Db.open (Sample.tables Sample.five_loans) (Some 0%nat))
  = (Ok (StagingError "Invalid days range format: 30 to 90"),
     Db.open (Sample.tables Sample.five_loans) (Some 0%nat)).
Proof.
  apply (ecl_staging_unparsed_config 7 (ECLStagingConfig.mk "0-30" "30 to 90" "90+") 99
           (Db.open (Sample.tables Sample.five_loans) (Some 0%nat))
           (InvalidDaysRange "30 to 90")).
  reflexivity.
Defined.

(** X10: the same for a local-impairment configuration:
    [stage_loans_local_impairment_orm] returns the error summary,
    [stage_loans_local_impairment_orm_sync] raises the [ValueError] again,
    and neither reaches the storage. *)
Theorem local_staging_unparsed_config (pid : Z) (config : LocalImpairmentConfig.t)
    (timestamp : Z) (s : Db.Session) (e : exception) :
  parse_local_bounds config = Raise e ->
  is_ValueError e = true
  /\ stage_loans_local_impairment_orm pid config timestamp s
     = (Ok (StagingError (str_exception e)),
        Db.mkSession (Db.committed s) (Db.committed s) (Db.budget s))
  /\ stage_loans_local_impairment_orm_sync pid config timestamp s
     = (Raise e, Db.mkSession (Db.committed s) (Db.committed s) (Db.budget s)).
Proof.
  intros Hparse. split; [now apply parse_local_bounds_raises_ValueError in Hparse|].
  split.
  - unfold stage_loans_local_impairment_orm, stage_loans_local_impairment_orm_with,
      try_except, stage_loans_local_impairment_orm_try.
    now rewrite bind_eq, Hparse, lift_eq.
  - unfold stage_loans_local_impairment_orm_sync,
      stage_loans_local_impairment_orm_sync_with, try_except,
      stage_loans_local_impairment_orm_sync_try.
    now rewrite bind_eq, Hparse, lift_eq.
Qed.

Lemma local_staging_unparsed_config_witness :
  stage_loans_local_impairment_orm_sync 7
    (LocalImpairmentConfig.mk "0-30" "31-90" "91-180" "181-360" "x+") 99
    (Db.open (Sample.tables Sample.five_loans) None)
  = (Raise (InvalidIntLiteral "x"), Db.open (Sample.tables Sample.five_loans) None).
Proof.
  apply (local_staging_unparsed_config 7
           (LocalImpairmentConfig.mk "0-30" "31-90" "91-180" "181-360" "x+") 99
           (Db.open (Sample.tables Sample.five_loans) None) (InvalidIntLiteral "x")).
  reflexivity.
Defined.

(** ** Storage failures in the other batch functions *)

(** A budget [n] that runs out no later than at the last fetch of the page
    loop is spent in the count query ([n = 0]), or runs out at the fetch
    ([d = 0]) or at the commit ([d = 1]) of page [k]. *)
Lemma failure_point (len n : nat) :
  (n <= 2 * ((len + batch_size - 1) / batch_size) + 1)%nat ->
  n = 0%nat
  \/ exists k d : nat,
       n = (1 + 2 * k + d)%nat /\ (d <= 1)%nat /\ k = ((n - 1) / 2)%nat
       /\ ((k + d = 0)%nat \/ ((k + d - 1) * batch_size < len)%nat).
Proof.
  intros Hn. destruct n as [|m]; [now left|right].
  pose proof (Nat.div_mod_eq m 2) as Hm.
  pose proof (Nat.mod_upper_bound m 2 ltac:(lia)) as Hd.
  exists (m / 2)%nat, (m mod 2)%nat.
  replace (Datatypes.S m - 1)%nat with m by lia.
  split; [lia|]. split; [lia|]. split; [reflexivity|].
  set (k := (m / 2)%nat) in *. set (d := (m mod 2)%nat) in *.
  unfold batch_size in *.
  destruct (Nat.eq_dec (k + d)%nat 0%nat) as [Hz|Hz]; [now left|right].
  pose proof (Nat.div_mod_eq (len + 5000 - 1) 5000) as Hq.
  pose proof (Nat.mod_upper_bound (len + 5000 - 1) 5000 ltac:(lia)) as Hr.
  nia.
Qed.

Lemma stage_loans_local_impairment_orm_with_failure (bs : nat) (pid : Z)
    (config : LocalImpairmentConfig.t) (timestamp : Z) (t : Db.Tables) (b : LocalBounds.t)
    (k d : nat) :
  (0 < bs)%nat -> parse_local_bounds config = Ok b -> (d <= 1)%nat ->
  ((k + d = 0)%nat \/ ((k + d - 1) * bs < length (portfolio_rows pid (Db.loans t)))%nat) ->
  stage_loans_local_impairment_orm_with bs pid config timestamp
    (clean t (Some (1 + 2 * k + d)%nat))
  = (Ok (StagingError "storage failure"),
     clean (Db.set_loans
              (stage_rows (local_orm_staged b timestamp)
                 (take (k * bs) (portfolio_rows pid (Db.loans t))) (Db.loans t)) t)
       (Some 0%nat)).
Proof.
  intros Hbs Hparse Hd Hk.
  unfold stage_loans_local_impairment_orm_with, try_except,
    stage_loans_local_impairment_orm_try.
  rewrite bind_eq, Hparse, lift_eq.
  unfold clean. rewrite bind_eq, query_loan_count_eq.
  replace (1 + 2 * k + d)%nat with (Datatypes.S (2 * k + d)) by lia. cbn [spend].
  rewrite bind_eq, Nat2Z.id.
  change 0%nat with (0 * bs)%nat at 1.
  fold (clean t (Some (2 * k + d)%nat)).
  rewrite (staging_pages_fail _ (local_orm_staged b timestamp) (local_orm_counted b)
             (local_orm_stage_loan_split b timestamp)
             (local_orm_staged_portfolio b timestamp) pid bs Hbs k d).
  - cbn [Nat.mul]. rewrite drop_0. reflexivity.
  - exact Hd.
  - destruct Hk as [Hk|Hk]; [lia|].
    destruct k as [|k]; [lia|].
    assert (k * bs < length (portfolio_rows pid (Db.loans t)))%nat.
    { eapply Nat.le_lt_trans; [|exact Hk]. apply Nat.mul_le_mono_r. lia. }
    nia.
  - exact Hk.
Qed.

Lemma stage_loans_local_impairment_orm_with_failure_0 (bs : nat) (pid : Z)
    (config : LocalImpairmentConfig.t) (timestamp : Z) (t : Db.Tables) (b : LocalBounds.t) :
  parse_local_bounds config = Ok b ->
  stage_loans_local_impairment_orm_with bs pid config timestamp (clean t (Some 0%nat))
  = (Ok (StagingError "storage failure"), clean t (Some 0%nat)).
Proof.
  intros Hparse.
  unfold stage_loans_local_impairment_orm_with, try_except,
    stage_loans_local_impairment_orm_try.
  rewrite bind_eq, Hparse, lift_eq.
  unfold clean. rewrite bind_eq, query_loan_count_eq. reflexivity.
Qed.

(** X11: a storage failure in the middle of
    [stage_loans_local_impairment_orm].  With a budget [n] that runs out no
    later than at the last fetch of the page loop, the run returns the
    summary with status error; nothing is left pending; the loans of the
    [(n - 1) / 2] pages that were committed are staged; every other loan,
    the page being written included, is as before; the stored summaries
    are not touched. *)
Theorem stage_loans_local_impairment_orm_storage_failure (pid : Z)
    (config : LocalImpairmentConfig.t) (timestamp : Z) (t : Db.Tables) (b : LocalBounds.t)
    (n : nat) :
  parse_local_bounds config = Ok b ->
  (n <= 2 * ((length (portfolio_rows pid (Db.loans t)) + batch_size - 1) / batch_size) + 1)%nat ->
  exists (r : staging_return LocalStagingReturn.t) (t' : Db.Tables),
    stage_loans_local_impairment_orm pid config timestamp (Db.open t (Some n))
    = (Ok r, Db.mkSession t' t' (Some 0%nat))
    /\ status r = "error"%string
    /\ Db.staging_results t' = Db.staging_results t
    /\ forall (i : nat) (l : Loan.t),
         Db.loans t !! i = Some l ->
         Db.loans t' !! i
         = Some (if bool_decide
                      (i ∈ take ((n - 1) / 2 * batch_size)
                             (portfolio_rows pid (Db.loans t)))
                 then local_orm_staged b timestamp l else l).
Proof.
  intros Hparse Hn.
  destruct (failure_point _ _ Hn) as [-> | (k & d & Hkd & Hd & Hk & Hlt)].
  - eexists. eexists. split.
    + apply (stage_loans_local_impairment_orm_with_failure_0 batch_size pid config
               timestamp t b Hparse).
    + split; [reflexivity|]. split; [reflexivity|].
      intros i l Hl. cbn [Nat.sub Nat.div Nat.mul take].
      now rewrite bool_decide_eq_false_2 by apply not_elem_of_nil.
  - rewrite <- Hk. rewrite Hkd. eexists. eexists. split.
    + apply (stage_loans_local_impairment_orm_with_failure batch_size pid config
               timestamp t b k d); try assumption. unfold batch_size; lia.
    + split; [reflexivity|]. split; [reflexivity|].
      intros i l Hl. cbn [Db.loans Db.set_loans]. rewrite stage_rows_lookup, Hl. simpl.
      now destruct (bool_decide _).
Qed.

Lemma stage_loans_local_impairment_orm_storage_failure_witness :
  exists (r : staging_return LocalStagingReturn.t) (t' : Db.Tables),
    stage_loans_local_impairment_orm 7 Sample.gap_config 99
      (Db.open (Sample.tables Sample.five_loans) (Some 2%nat))
    = (Ok r, Db.mkSession t' t' (Some 0%nat))
    /\ status r = "error"%string.
Proof.
  destruct (stage_loans_local_impairment_orm_storage_failure 7 Sample.gap_config 99
              (Sample.tables Sample.five_loans) Sample.gap_bounds 2 eq_refl)
    as (r & t' & Hrun & Hst & _).
  - apply Nat.leb_le. vm_compute. reflexivity.
  - exists r, t'. split; [exact Hrun|exact Hst].
Defined.

Lemma stage_loans_ecl_orm_sync_with_failure (bs : nat) (pid : Z)
    (config : ECLStagingConfig.t) (timestamp : Z) (t : Db.Tables) (b : ECLBounds.t)
    (k d : nat) :
  (0 < bs)%nat -> parse_ecl_bounds config = Ok b -> (d <= 1)%nat ->
  ((k + d = 0)%nat \/ ((k + d - 1) * bs < length (portfolio_rows pid (Db.loans t)))%nat) ->
  stage_loans_ecl_orm_sync_with bs pid config timestamp (clean t (Some (1 + 2 * k + d)%nat))
  = (Raise StorageFailure,
     clean (Db.set_loans
              (stage_rows (ecl_sync_staged b)
                 (take (k * bs) (portfolio_rows pid (Db.loans t))) (Db.loans t)) t)
       (Some 0%nat)).
Proof.
  intros Hbs Hparse Hd Hk.
  unfold stage_loans_ecl_orm_sync_with, try_except, stage_loans_ecl_orm_sync_try.
  rewrite bind_eq, Hparse, lift_eq.
  unfold clean. rewrite bind_eq, query_loan_count_eq.
  replace (1 + 2 * k + d)%nat with (Datatypes.S (2 * k + d)) by lia. cbn [spend].
  rewrite bind_eq, Nat2Z.id.
  change 0%nat with (0 * bs)%nat at 1.
  fold (clean t (Some (2 * k + d)%nat)).
  rewrite (staging_pages_fail _ (ecl_sync_staged b) (ecl_sync_counted b)
             (ecl_sync_stage_loan_split b) (ecl_sync_staged_portfolio b) pid bs Hbs k d).
  - cbn [Nat.mul]. rewrite drop_0. reflexivity.
  - exact Hd.
  - destruct Hk as [Hk|Hk]; [lia|].
    destruct k as [|k]; [lia|].
    assert (k * bs < length (portfolio_rows pid (Db.loans t)))%nat.
    { eapply Nat.le_lt_trans; [|exact Hk]. apply Nat.mul_le_mono_r. lia. }
    nia.
  - exact Hk.
Qed.

Lemma stage_loans_ecl_orm_sync_with_failure_0 (bs : nat) (pid : Z)
    (config : ECLStagingConfig.t) (timestamp : Z) (t : Db.Tables) (b : ECLBounds.t) :
  parse_ecl_bounds config = Ok b ->
  stage_loans_ecl_orm_sync_with bs pid config timestamp (clean t (Some 0%nat))
  = (Raise StorageFailure, clean t (Some 0%nat)).
Proof.
  intros Hparse.
  unfold stage_loans_ecl_orm_sync_with, try_except, stage_loans_ecl_orm_sync_try.
  rewrite bind_eq, Hparse, lift_eq.
  unfold clean. rewrite bind_eq, query_loan_count_eq. reflexivity.
Qed.

(** X12: a storage failure in the middle of [stage_loans_ecl_orm_sync].
    With a budget [n] that runs out no later than at the last fetch of the
    page loop, the function rolls back and raises the failure again: it
    returns no summary.  Nothing is left pending; the loans of the
    [(n - 1) / 2] pages that were committed keep their new stage; every
    other loan is as before; no summary row is added. *)
Theorem stage_loans_ecl_orm_sync_storage_failure (pid : Z)
    (config : ECLStagingConfig.t) (timestamp : Z) (t : Db.Tables) (b : ECLBounds.t) (n : nat) :
  parse_ecl_bounds config = Ok b ->
  (n <= 2 * ((length (portfolio_rows pid (Db.loans t)) + batch_size - 1) / batch_size) + 1)%nat ->
  exists t' : Db.Tables,
    stage_loans_ecl_orm_sync pid config timestamp (Db.open t (Some n))
    = (Raise StorageFailure, Db.mkSession t' t' (Some 0%nat))
    /\ Db.staging_results t' = Db.staging_results t
    /\ forall (i : nat) (l : Loan.t),
         Db.loans t !! i = Some l ->
         Db.loans t' !! i
         = Some (if bool_decide
                      (i ∈ take ((n - 1) / 2 * batch_size)
                             (portfolio_rows pid (Db.loans t)))
                 then ecl_sync_staged b l else l).
Proof.
  intros Hparse Hn.
  destruct (failure_point _ _ Hn) as [-> | (k & d & Hkd & Hd & Hk & Hlt)].
  - eexists. split.
    + apply (stage_loans_ecl_orm_sync_with_failure_0 batch_size pid config timestamp t b Hparse).
    + split; [reflexivity|].
      intros i l Hl. cbn [Nat.sub Nat.div Nat.mul take].
      now rewrite bool_decide_eq_false_2 by apply not_elem_of_nil.
  - rewrite <- Hk. rewrite Hkd. eexists. split.
    + apply (stage_loans_ecl_orm_sync_with_failure batch_size pid config timestamp t b k d);
        try assumption. unfold batch_size; lia.
    + split; [reflexivity|].
      intros i l Hl. cbn [Db.loans Db.set_loans]. rewrite stage_rows_lookup, Hl. simpl.
      now destruct (bool_decide _).
Qed.

Lemma stage_loans_ecl_orm_sync_storage_failure_witness :
  exists t' : Db.Tables,
    stage_loans_ecl_orm_sync 7 Sample.ecl_config 99
      (Db.open (Sample.tables Sample.five_loans) (Some 2%nat))
    = (Raise StorageFailure, Db.mkSession t' t' (Some 0%nat))
    /\ Db.staging_results t' = Db.staging_results (Sample.tables Sample.five_loans).
Proof.
  destruct (stage_loans_ecl_orm_sync_storage_failure 7 Sample.ecl_config 99
              (Sample.tables Sample.five_loans) Sample.ecl_bounds 2 eq_refl)
    as (t' & Hrun & Hres & _).
  - apply Nat.leb_le. vm_compute. reflexivity.
  - exists t'. split; [exact Hrun|exact Hres].
Defined.

Lemma stage_loans_local_impairment_orm_sync_with_failure (bs : nat) (pid : Z)
    (config : LocalImpairmentConfig.t) (timestamp : Z) (t : Db.Tables) (b : LocalBounds.t)
    (k d : nat) :
  (0 < bs)%nat -> parse_local_bounds config = Ok b -> (d <= 1)%nat ->
  ((k + d = 0)%nat \/ ((k + d - 1) * bs < length (portfolio_rows pid (Db.loans t)))%nat) ->
  stage_loans_local_impairment_orm_sync_with bs pid config timestamp (clean t (Some (1 + 2 * k + d)%nat))
  = (Raise StorageFailure,
     clean (Db.set_loans
              (stage_rows (local_sync_staged b)
                 (take (k * bs) (portfolio_rows pid (Db.loans t))) (Db.loans t)) t)
       (Some 0%nat)).
Proof.
  intros Hbs Hparse Hd Hk.
  unfold stage_loans_local_impairment_orm_sync_with, try_except, stage_loans_local_impairment_orm_sync_try.
  rewrite bind_eq, Hparse, lift_eq.
  unfold clean. rewrite bind_eq, query_loan_count_eq.
  replace (1 + 2 * k + d)%nat with (Datatypes.S (2 * k + d)) by lia. cbn [spend].
  rewrite bind_eq, Nat2Z.id.
  change 0%nat with (0 * bs)%nat at 1.
  fold (clean t (Some (2 * k + d)%nat)).
  rewrite (staging_pages_fail _ (local_sync_staged b) (local_sync_counted b)
             (local_sync_stage_loan_split b) (local_sync_staged_portfolio b) pid bs Hbs k d).
  - cbn [Nat.mul]. rewrite drop_0. reflexivity.
  - exact Hd.
  - destruct Hk as [Hk|Hk]; [lia|].
    destruct k as [|k]; [lia|].
    assert (k * bs < length (portfolio_rows pid (Db.loans t)))%nat.
    { eapply Nat.le_lt_trans; [|exact Hk]. apply Nat.mul_le_mono_r. lia. }
    nia.
  - exact Hk.
Qed.

Lemma stage_loans_local_impairment_orm_sync_with_failure_0 (bs : nat) (pid : Z)
    (config : LocalImpairmentConfig.t) (timestamp : Z) (t : Db.Tables) (b : LocalBounds.t) :
  parse_local_bounds config = Ok b ->
  stage_loans_local_impairment_orm_sync_with bs pid config timestamp (clean t (Some 0%nat))
  = (Raise StorageFailure, clean t (Some 0%nat)).
Proof.
  intros Hparse.
  unfold stage_loans_local_impairment_orm_sync_with, try_except, stage_loans_local_impairment_orm_sync_try.
  rewrite bind_eq, Hparse, lift_eq.
  unfold clean. rewrite bind_eq, query_loan_count_eq. reflexivity.
Qed.

(** X13: a storage failure in the middle of [stage_loans_local_impairment_orm_sync].
    With a budget [n] that runs out no later than at the last fetch of the
    page loop, the function rolls back and raises the failure again: it
    returns no summary.  Nothing is left pending; the loans of the
    [(n - 1) / 2] pages that were committed keep their new category; every
    other loan is as before; no summary row is added. *)
Theorem stage_loans_local_impairment_orm_sync_storage_failure (pid : Z)
    (config : LocalImpairmentConfig.t) (timestamp : Z) (t : Db.Tables) (b : LocalBounds.t) (n : nat) :
  parse_local_bounds config = Ok b ->
  (n <= 2 * ((length (portfolio_rows pid (Db.loans t)) + batch_size - 1) / batch_size) + 1)%nat ->
  exists t' : Db.Tables,
    stage_loans_local_impairment_orm_sync pid config timestamp (Db.open t (Some n))
    = (Raise StorageFailure, Db.mkSession t' t' (Some 0%nat))
    /\ Db.staging_results t' = Db.staging_results t
    /\ forall (i : nat) (l : Loan.t),
         Db.loans t !! i = Some l ->
         Db.loans t' !! i
         = Some (if bool_decide
                      (i ∈ take ((n - 1) / 2 * batch_size)
                             (portfolio_rows pid (Db.loans t)))
                 then local_sync_staged b l else l).
Proof.
  intros Hparse Hn.
  destruct (failure_point _ _ Hn) as [-> | (k & d & Hkd & Hd & Hk & Hlt)].
  - eexists. split.
    + apply (stage_loans_local_impairment_orm_sync_with_failure_0 batch_size pid config timestamp t b Hparse).
    + split; [reflexivity|].
      intros i l Hl. cbn [Nat.sub Nat.div Nat.mul take].
      now rewrite bool_decide_eq_false_2 by apply not_elem_of_nil.
  - rewrite <- Hk. rewrite Hkd. eexists. split.
    + apply (stage_loans_local_impairment_orm_sync_with_failure batch_size pid config timestamp t b k d);
        try assumption. unfold batch_size; lia.
    + split; [reflexivity|].
      intros i l Hl. cbn [Db.loans Db.set_loans]. rewrite stage_rows_lookup, Hl. simpl.
      now destruct (bool_decide _).
Qed.

Lemma stage_loans_local_impairment_orm_sync_storage_failure_witness :
  exists t' : Db.Tables,
    stage_loans_local_impairment_orm_sync 7 Sample.gap_config 99
      (Db.open (Sample.tables Sample.five_loans) (Some 2%nat))
    = (Raise StorageFailure, Db.mkSession t' t' (Some 0%nat))
    /\ Db.staging_results t' = Db.staging_results (Sample.tables Sample.five_loans).
Proof.
  destruct (stage_loans_local_impairment_orm_sync_storage_failure 7 Sample.gap_config 99
              (Sample.tables Sample.five_loans) Sample.gap_bounds 2 eq_refl)
    as (t' & Hrun & Hres & _).
  - apply Nat.leb_le. vm_compute. reflexivity.
  - exists t'. split; [exact Hrun|exact Hres].
Defined.

(** ** The staging routes *)

Lemma parse_days_range_not_out_of_fuel (d : option string) : parse_days_range d <> OutOfFuel.
Proof.
  destruct d as [s|]; [|discriminate]. destruct s as [|c s]; [discriminate|].
  rewrite parse_days_range_nonempty by discriminate.
  destruct (Py.endswith _ _).
  - pose proof (int_not_out_of_fuel (Py.drop_last (String c s))) as H.
    destruct (Py.int _); [discriminate|discriminate|contradiction].
  - destruct (Py.split _ _) as [|p0 [|p1 [|p2 ps]]]; try discriminate.
    pose proof (int_not_out_of_fuel p0) as H0. pose proof (int_not_out_of_fuel p1) as H1.
    destruct (Py.int p0); [|discriminate|contradiction]. simpl.
    destruct (Py.int p1); [discriminate|discriminate|contradiction].
Qed.

Lemma parse_or_400_cases (s : string) :
  match parse_days_range (Some s) with
  | Ok r => parse_or_400 s = Ok r
  | Raise e => parse_or_400 s = Raise (HTTPException 400 (str_exception e))
  | OutOfFuel => False
  end.
Proof.
  unfold parse_or_400, calculators_parse_days_range.
  pose proof (parse_days_range_not_out_of_fuel (Some s)) as Hfuel.
  destruct (parse_days_range (Some s)) as [r|e|] eqn:E; [reflexivity| |contradiction].
  now rewrite (parse_days_range_raises_ValueError _ _ E).
Qed.

(** The three ranges as the ECL route parses them, against
    [parse_ecl_bounds]. *)
Lemma ecl_route_bounds (config : ECLStagingConfig.t) :
  (stage_1_range ← parse_or_400 (ECLStagingConfig.stage_1 config);
   stage_2_range ← parse_or_400 (ECLStagingConfig.stage_2 config);
   stage_3_range ← parse_or_400 (ECLStagingConfig.stage_3 config);
   Ok (ECLBounds.mk stage_1_range stage_2_range stage_3_range))
  = match parse_ecl_bounds config with
    | Ok b => Ok b
    | Raise e => Raise (HTTPException 400 (str_exception e))
    | OutOfFuel => OutOfFuel
    end.
Proof.
  unfold parse_ecl_bounds.
  pose proof (parse_or_400_cases (ECLStagingConfig.stage_1 config)) as H1.
  pose proof (parse_or_400_cases (ECLStagingConfig.stage_2 config)) as H2.
  pose proof (parse_or_400_cases (ECLStagingConfig.stage_3 config)) as H3.
  destruct (parse_days_range (Some (ECLStagingConfig.stage_1 config)));
    [|now rewrite H1|contradiction]. rewrite H1. cbn [mbind outcome_bind].
  destruct (parse_days_range (Some (ECLStagingConfig.stage_2 config)));
    [|now rewrite H2|contradiction]. rewrite H2. cbn [mbind outcome_bind].
  destruct (parse_days_range (Some (ECLStagingConfig.stage_3 config)));
    [|now rewrite H3|contradiction]. now rewrite H3.
Qed.

(** A loop that appends one computed entry per element. *)
Lemma for_each_outcome_collect {A B : Type} (f : A -> outcome B)
    (body : A -> list B -> outcome (list B)) (xs : list A) (acc : list B) :
  (forall x acc, body x acc = (y ← f x; Ok (acc ++ [y]))) ->
  match for_each_outcome xs body acc with
  | Ok ys => exists zs, ys = acc ++ zs /\ Forall2 (fun x z => f x = Ok z) xs zs
  | Raise e => exists x, x ∈ xs /\ f x = Raise e
  | OutOfFuel => exists x, x ∈ xs /\ f x = OutOfFuel
  end.
Proof.
  intros Hbody. revert acc. induction xs as [|x xs IH]; intros acc; simpl.
  - exists []. split; [now rewrite app_nil_r|constructor].
  - rewrite Hbody. destruct (f x) as [y| |] eqn:Hx; simpl.
    + specialize (IH (acc ++ [y])).
      destruct (for_each_outcome xs body (acc ++ [y])) as [ys|e|].
      * destruct IH as (zs & -> & Hzs). exists (y :: zs).
        split; [now rewrite <- app_assoc|now constructor].
      * destruct IH as (x' & Hin & Hx'). exists x'. split; [now apply elem_of_cons; right|exact Hx'].
      * destruct IH as (x' & Hin & Hx'). exists x'. split; [now apply elem_of_cons; right|exact Hx'].
    + exists x. split; [apply elem_of_cons; now left|exact Hx].
    + exists x. split; [apply elem_of_cons; now left|exact Hx].
Qed.

(** The entry of one loan in the response of [stage_loans_ecl]. *)
Lemma stage_loans_ecl_loan_eq (r1 r2 r3 : days_bounds) (loan : Loan.t)
    (staged_loans : list LoanStageInfo.t) :
  stage_loans_ecl_loan r1 r2 r3 loan staged_loans
  = (info ← (stage ← ecl_route_stage_of r1 r2 r3 (Loan.ndia loan);
             ndia ← int_of_ndia (Loan.ndia loan);
             make_LoanStageInfo loan stage ndia);
     Ok (staged_loans ++ [info])).
Proof.
  unfold stage_loans_ecl_loan. destruct (Loan.ndia loan); reflexivity.
Qed.

Lemma make_LoanStageInfo_Ok (loan : Loan.t) (stage : string) (ndia : Z)
    (info : LoanStageInfo.t) :
  make_LoanStageInfo loan stage ndia = Ok info ->
  LoanStageInfo.loan_id info = Loan.id loan
  /\ LoanStageInfo.stage info = stage
  /\ LoanStageInfo.ndia info = ndia
  /\ Loan.employee_id loan = Some (LoanStageInfo.employee_id info)
  /\ Loan.outstanding_loan_balance loan = Some (LoanStageInfo.outstanding_loan_balance info)
  /\ Loan.loan_issue_date loan = Some (LoanStageInfo.loan_issue_date info)
  /\ Loan.loan_amount loan = Some (LoanStageInfo.loan_amount info)
  /\ Loan.monthly_installment loan = Some (LoanStageInfo.monthly_installment info)
  /\ Loan.loan_term loan = Some (LoanStageInfo.loan_term info)
  /\ Loan.accumulated_arrears loan = Some (LoanStageInfo.accumulated_arrears info).
Proof.
  unfold make_LoanStageInfo, required.
  destruct (Loan.employee_id loan); [|discriminate].
  destruct (Loan.outstanding_loan_balance loan); [|discriminate].
  destruct (Loan.loan_issue_date loan); [|discriminate].
  destruct (Loan.loan_amount loan); [|discriminate].
  destruct (Loan.monthly_installment loan); [|discriminate].
  destruct (Loan.loan_term loan); [|discriminate].
  destruct (Loan.accumulated_arrears loan); [|discriminate].
  simpl. intros [= <-]. simpl. now repeat split.
Qed.

Lemma make_LoanStageInfo_Raise (loan : Loan.t) (stage : string) (ndia : Z) (e : exception) :
  make_LoanStageInfo loan stage ndia = Raise e ->
  exists field : string,
    e = ValidationError field
    /\ (Loan.employee_id loan = None \/ Loan.outstanding_loan_balance loan = None
        \/ Loan.loan_issue_date loan = None \/ Loan.loan_amount loan = None
        \/ Loan.monthly_installment loan = None \/ Loan.loan_term loan = None
        \/ Loan.accumulated_arrears loan = None).
Proof.
  unfold make_LoanStageInfo, required.
  destruct (Loan.employee_id loan); [|intros [= <-]; eexists; split; [reflexivity|tauto]].
  destruct (Loan.outstanding_loan_balance loan);
    [|intros [= <-]; eexists; split; [reflexivity|tauto]].
  destruct (Loan.loan_issue_date loan); [|intros [= <-]; eexists; split; [reflexivity|tauto]].
  destruct (Loan.loan_amount loan); [|intros [= <-]; eexists; split; [reflexivity|tauto]].
  destruct (Loan.monthly_installment loan);
    [|intros [= <-]; eexists; split; [reflexivity|tauto]].
  destruct (Loan.loan_term loan); [|intros [= <-]; eexists; split; [reflexivity|tauto]].
  destruct (Loan.accumulated_arrears loan);
    [|intros [= <-]; eexists; split; [reflexivity|tauto]].
  discriminate.
Qed.

Lemma stage_loans_ecl_eq (t : Db.Tables) (current_user portfolio_id : Z)
    (config : ECLStagingConfig.t) :
  stage_loans_ecl t current_user portfolio_id config
  = match find_portfolio t portfolio_id current_user with
    | None => Raise (HTTPException 404 "Portfolio not found")
    | Some _ =>
        match parse_ecl_bounds config with
        | Ok b =>
            for_each_outcome (loans_of_portfolio t portfolio_id)
              (stage_loans_ecl_loan (ECLBounds.stage_1 b) (ECLBounds.stage_2 b)
                 (ECLBounds.stage_3 b)) []
        | Raise e => Raise (HTTPException 400 (str_exception e))
        | OutOfFuel => OutOfFuel
        end
    end.
Proof.
  unfold stage_loans_ecl. destruct (find_portfolio _ _ _); [|reflexivity].
  pose proof (ecl_route_bounds config) as Hb.
  destruct (parse_or_400 (ECLStagingConfig.stage_1 config)) as [r1| |];
    cbn [mbind outcome_bind] in Hb |- *;
    [|destruct (parse_ecl_bounds config); try discriminate Hb;
      try (injection Hb as <-); reflexivity..].
  destruct (parse_or_400 (ECLStagingConfig.stage_2 config)) as [r2| |];
    cbn [mbind outcome_bind] in Hb |- *;
    [|destruct (parse_ecl_bounds config); try discriminate Hb;
      try (injection Hb as <-); reflexivity..].
  destruct (parse_or_400 (ECLStagingConfig.stage_3 config)) as [r3| |];
    cbn [mbind outcome_bind] in Hb |- *;
    destruct (parse_ecl_bounds config); try discriminate Hb;
    try (injection Hb as <-); reflexivity.
Qed.

Lemma ecl_route_stage_names (r1 r2 r3 : days_bounds) (ndia : Z) :
  ecl_route_stage r1 r2 r3 ndia = "Stage 1"%string
  \/ ecl_route_stage r1 r2 r3 ndia = "Stage 2"%string
  \/ ecl_route_stage r1 r2 r3 ndia = "Stage 3"%string.
Proof.
  unfold ecl_route_stage.
  destruct (is_in_range ndia r1); [now left|].
  destruct (is_in_range ndia r2); [right; now left|].
  destruct (is_in_range ndia r3); right; now right.
Qed.

(** X14: a response of [stage_loans_ecl] is never partial.  When the route
    returns, the portfolio is the user's, the three ranges parse, and the
    response has one entry per loan of the portfolio, in table order; the
    entry carries the loan's id, its days past due and balance, and the label
    of the first range that contains the days, "Stage 3" when none does: the
    label is always one of the three stages. *)
Theorem stage_loans_ecl_response (t : Db.Tables) (current_user portfolio_id : Z)
    (config : ECLStagingConfig.t) (staged_loans : list LoanStageInfo.t) :
  stage_loans_ecl t current_user portfolio_id config = Ok staged_loans ->
  exists b : ECLBounds.t,
    parse_ecl_bounds config = Ok b
    /\ find_portfolio t portfolio_id current_user <> None
    /\ Forall2
         (fun (loan : Loan.t) (info : LoanStageInfo.t) =>
            LoanStageInfo.loan_id info = Loan.id loan
            /\ Loan.ndia loan = Some (LoanStageInfo.ndia info)
            /\ Loan.outstanding_loan_balance loan
               = Some (LoanStageInfo.outstanding_loan_balance info)
            /\ LoanStageInfo.stage info
               = ecl_route_stage (ECLBounds.stage_1 b) (ECLBounds.stage_2 b)
                   (ECLBounds.stage_3 b) (LoanStageInfo.ndia info)
            /\ (LoanStageInfo.stage info = "Stage 1"%string
                \/ LoanStageInfo.stage info = "Stage 2"%string
                \/ LoanStageInfo.stage info = "Stage 3"%string))
         (loans_of_portfolio t portfolio_id) staged_loans.
Proof.
  rewrite stage_loans_ecl_eq.
  destruct (find_portfolio t portfolio_id current_user) as [p|] eqn:Hp; [|discriminate].
  destruct (parse_ecl_bounds config) as [b| |]; [|discriminate..].
  intros Hrun. exists b. split; [reflexivity|]. split; [discriminate|].
  pose proof (for_each_outcome_collect _ _ (loans_of_portfolio t portfolio_id) []
                (stage_loans_ecl_loan_eq (ECLBounds.stage_1 b) (ECLBounds.stage_2 b)
                   (ECLBounds.stage_3 b))) as Hloop.
  rewrite Hrun in Hloop. destruct Hloop as (zs & -> & Hzs). simpl.
  eapply Forall2_impl; [exact Hzs|]. intros loan info Hinfo. simpl in Hinfo.
  unfold ecl_route_stage_of, int_of_ndia in Hinfo.
  destruct (Loan.ndia loan) as [n|]; [|discriminate].
  simpl in Hinfo. apply make_LoanStageInfo_Ok in Hinfo.
  destruct Hinfo as (Hid & Hstage & Hndia & _ & Hbal & _).
  split; [exact Hid|]. split; [now rewrite Hndia|]. split; [exact Hbal|].
  rewrite Hstage, Hndia. split; [reflexivity|apply ecl_route_stage_names].
Qed.

Lemma stage_loans_ecl_response_witness :
  exists b : ECLBounds.t,
    parse_ecl_bounds Sample.ecl_config = Ok b
    /\ find_portfolio (Sample.tables [Sample.loan 1 (Some 100) 5]) 7 1 <> None.
Proof.
  destruct (stage_loans_ecl_response (Sample.tables [Sample.loan 1 (Some 100) 5]) 1 7
              Sample.ecl_config
              [LoanStageInfo.mk 1 "E1" "Stage 3" 5 100 0 1000 100 12 200] eq_refl)
    as (b & Hb & Hf & _).
  exists b. split; [exact Hb|exact Hf].
Defined.

(** X15: the failures of [stage_loans_ecl].  The route raises 404 when the
    portfolio is not the user's; 400 with the text of the [ValueError] when a
    range does not parse; a [TypeError] when a loan of the portfolio has no
    days past due (the range test on [None] comes before [int(loan.ndia)]);
    the validation error of the response model when a loan lacks one of its
    required columns.  It raises nothing else: one such loan fails the whole
    request. *)
Theorem stage_loans_ecl_errors (t : Db.Tables) (current_user portfolio_id : Z)
    (config : ECLStagingConfig.t) :
  stage_loans_ecl t current_user portfolio_id config <> OutOfFuel
  /\ forall e : exception,
       stage_loans_ecl t current_user portfolio_id config = Raise e ->
       (e = HTTPException 404 "Portfolio not found"
        /\ find_portfolio t portfolio_id current_user = None)
       \/ (exists e' : exception,
             parse_ecl_bounds config = Raise e' /\ is_ValueError e' = true
             /\ e = HTTPException 400 (str_exception e'))
       \/ (exists (loan : Loan.t) (message : string),
             loan ∈ loans_of_portfolio t portfolio_id /\ Loan.ndia loan = None
             /\ e = TypeError message)
       \/ (exists (loan : Loan.t) (field : string),
             loan ∈ loans_of_portfolio t portfolio_id /\ e = ValidationError field
             /\ (Loan.employee_id loan = None \/ Loan.outstanding_loan_balance loan = None
                 \/ Loan.loan_issue_date loan = None \/ Loan.loan_amount loan = None
                 \/ Loan.monthly_installment loan = None \/ Loan.loan_term loan = None
                 \/ Loan.accumulated_arrears loan = None)).
Proof.
  rewrite stage_loans_ecl_eq.
  destruct (find_portfolio t portfolio_id current_user) as [p|] eqn:Hp.
  2: { split; [discriminate|]. intros e [= <-]. now left. }
  destruct (parse_ecl_bounds config) as [b|e'|] eqn:Hparse.
  - pose proof (for_each_outcome_collect _ _ (loans_of_portfolio t portfolio_id) []
                  (stage_loans_ecl_loan_eq (ECLBounds.stage_1 b) (ECLBounds.stage_2 b)
                     (ECLBounds.stage_3 b))) as Hloop.
    destruct (for_each_outcome _ _ _) as [ys|e0|].
    + split; [discriminate|]. discriminate.
    + split; [discriminate|]. intros e [= <-].
      destruct Hloop as (loan & Hin & Hloan). right. right.
      unfold ecl_route_stage_of, int_of_ndia in Hloan.
      destruct (Loan.ndia loan) as [n|] eqn:Hn; simpl in Hloan.
      * right. apply make_LoanStageInfo_Raise in Hloan as (field & -> & Hfield).
        now exists loan, field.
      * left. injection Hloan as <-. eexists loan, _. now repeat split.
    + exfalso. destruct Hloop as (loan & _ & Hloan).
      unfold ecl_route_stage_of, int_of_ndia in Hloan.
      destruct (Loan.ndia loan); simpl in Hloan; [|discriminate].
      unfold make_LoanStageInfo, required in Hloan.
      repeat (match type of Hloan with
              | context [match ?x with Some _ => _ | None => _ end] => destruct x
              end; simpl in Hloan; try discriminate).
  - split; [discriminate|]. intros e [= <-]. right. left. exists e'.
    split; [reflexivity|]. split; [now apply parse_ecl_bounds_raises_ValueError in Hparse|].
    reflexivity.
  - exfalso. unfold parse_ecl_bounds in Hparse.
    pose proof (parse_days_range_not_out_of_fuel (Some (ECLStagingConfig.stage_1 config))).
    pose proof (parse_days_range_not_out_of_fuel (Some (ECLStagingConfig.stage_2 config))).
    pose proof (parse_days_range_not_out_of_fuel (Some (ECLStagingConfig.stage_3 config))).
    destruct (parse_days_range (Some (ECLStagingConfig.stage_1 config)));
      [|discriminate|contradiction]. cbn [mbind outcome_bind] in Hparse.
    destruct (parse_days_range (Some (ECLStagingConfig.stage_2 config)));
      [|discriminate|contradiction]. cbn [mbind outcome_bind] in Hparse.
    destruct (parse_days_range (Some (ECLStagingConfig.stage_3 config)));
      [discriminate|discriminate|contradiction].
Qed.

Lemma stage_loans_ecl_errors_witness :
  exists loan : Loan.t,
    loan ∈ loans_of_portfolio (Sample.tables [Sample.loan 1 None 5]) 7
    /\ Loan.ndia loan = None.
Proof.
  destruct (stage_loans_ecl_errors (Sample.tables [Sample.loan 1 None 5]) 1 7
              Sample.ecl_config) as [_ H].
  destruct (H (TypeError "'<=' not supported between instances of 'int' and 'NoneType'")
              eq_refl)
    as [[H404 _] | [(e' & _ & _ & H400) | [(loan & message & Hin & Hn & _)
                | (loan & field & _ & Hv & _)]]].
  - discriminate H404.
  - discriminate H400.
  - exists loan. split; [exact Hin|exact Hn].
  - discriminate Hv.
Defined.

Lemma find_portfolio_not_owner (t : Db.Tables) (portfolio_id current_user : Z) :
  (forall p : Portfolio.t,
     p ∈ Db.portfolios t -> Portfolio.id p = portfolio_id ->
     Portfolio.user_id p <> current_user) ->
  find_portfolio t portfolio_id current_user = None.
Proof.
  unfold find_portfolio. induction (Db.portfolios t) as [|p ps IH]; intros H; [reflexivity|].
  simpl. destruct (Z.eqb_spec (Portfolio.id p) portfolio_id) as [Hid|Hid]; simpl.
  - destruct (Z.eqb_spec (Portfolio.user_id p) current_user) as [Hu|Hu].
    + exfalso. apply (H p); [apply elem_of_cons; now left|exact Hid|exact Hu].
    + apply IH. intros q Hq. apply H, elem_of_cons. now right.
  - apply IH. intros q Hq. apply H, elem_of_cons. now right.
Qed.

(** X16: the four routes answer 404 for a portfolio that is not the current
    user's, whatever else the request holds: no range is parsed, no loan is
    read and no calculator is called. *)
Theorem routes_reject_other_users (t : Db.Tables) (portfolio_id current_user : Z) :
  (forall p : Portfolio.t,
     p ∈ Db.portfolios t -> Portfolio.id p = portfolio_id ->
     Portfolio.user_id p <> current_user) ->
  (forall config : ECLStagingConfig.t,
     stage_loans_ecl t current_user portfolio_id config
     = Raise (HTTPException 404 "Portfolio not found"))
  /\ (forall config : LocalImpairmentConfig.t,
        stage_loans_local_impairment t current_user portfolio_id config
        = Raise (HTTPException 404 "Portfolio not found"))
  /\ (forall (loans : list LoanStageInfo.t) (provision_config : ProvisionRateConfig.t)
             (reporting_date : Z),
        calculate_local_provision t current_user (StagedLoans.mk portfolio_id loans)
          provision_config reporting_date
        = Raise (HTTPException 404 "Portfolio not found or not authorized"))
  /\ (forall (calc : Calculators) (loans : list LoanStageInfo.t) (reporting_date : Z),
        calculate_ecl_provision t current_user (StagedLoans.mk portfolio_id loans)
          reporting_date
        = Raise (HTTPException 404 "Portfolio not found or not authorized")).
Proof.
  intros H. apply find_portfolio_not_owner in H.
  unfold stage_loans_ecl, stage_loans_local_impairment, calculate_local_provision,
    calculate_ecl_provision. cbn [StagedLoans.portfolio_id]. rewrite H.
  repeat split.
Qed.

Lemma routes_reject_other_users_witness :
  stage_loans_ecl (Sample.tables Sample.five_loans) 2 7 Sample.ecl_config
  = Raise (HTTPException 404 "Portfolio not found").
Proof.
  apply (routes_reject_other_users (Sample.tables Sample.five_loans) 7 2).
  intros p Hp Hid. apply list_elem_of_singleton in Hp. subst p. simpl. lia.
Defined.

(** *** [stage_loans_local_impairment] *)

Lemma local_route_bounds (config : LocalImpairmentConfig.t) :
  (current_range ← parse_or_400 (LocalImpairmentConfig.current config);
   olem_range ← parse_or_400 (LocalImpairmentConfig.olem config);
   substandard_range ← parse_or_400 (LocalImpairmentConfig.substandard config);
   doubtful_range ← parse_or_400 (LocalImpairmentConfig.doubtful config);
   loss_range ← parse_or_400 (LocalImpairmentConfig.loss config);
   Ok (LocalBounds.mk current_range olem_range substandard_range doubtful_range loss_range))
  = match parse_local_bounds config with
    | Ok b => Ok b
    | Raise e => Raise (HTTPException 400 (str_exception e))
    | OutOfFuel => OutOfFuel
    end.
Proof.
  unfold parse_local_bounds.
  pose proof (parse_or_400_cases (LocalImpairmentConfig.current config)) as H1.
  pose proof (parse_or_400_cases (LocalImpairmentConfig.olem config)) as H2.
  pose proof (parse_or_400_cases (LocalImpairmentConfig.substandard config)) as H3.
  pose proof (parse_or_400_cases (LocalImpairmentConfig.doubtful config)) as H4.
  pose proof (parse_or_400_cases (LocalImpairmentConfig.loss config)) as H5.
  destruct (parse_days_range (Some (LocalImpairmentConfig.current config)));
    [|now rewrite H1|contradiction]. rewrite H1. cbn [mbind outcome_bind].
  destruct (parse_days_range (Some (LocalImpairmentConfig.olem config)));
    [|now rewrite H2|contradiction]. rewrite H2. cbn [mbind outcome_bind].
  destruct (parse_days_range (Some (LocalImpairmentConfig.substandard config)));
    [|now rewrite H3|contradiction]. rewrite H3. cbn [mbind outcome_bind].
  destruct (parse_days_range (Some (LocalImpairmentConfig.doubtful config)));
    [|now rewrite H4|contradiction]. rewrite H4. cbn [mbind outcome_bind].
  destruct (parse_days_range (Some (LocalImpairmentConfig.loss config)));
    [|now rewrite H5|contradiction]. now rewrite H5.
Qed.

Lemma stage_loans_local_impairment_eq (t : Db.Tables) (current_user portfolio_id : Z)
    (config : LocalImpairmentConfig.t) :
  stage_loans_local_impairment t current_user portfolio_id config
  = match find_portfolio t portfolio_id current_user with
    | None => Raise (HTTPException 404 "Portfolio not found")
    | Some _ =>
        match parse_local_bounds config with
        | Ok b =>
            st ← for_each_outcome (loans_of_portfolio t portfolio_id)
                   (stage_loans_local_impairment_loan b) ([], None);
            Ok (fst st)
        | Raise e => Raise (HTTPException 400 (str_exception e))
        | OutOfFuel => OutOfFuel
        end
    end.
Proof.
  unfold stage_loans_local_impairment. destruct (find_portfolio _ _ _); [|reflexivity].
  pose proof (local_route_bounds config) as Hb.
  destruct (parse_or_400 (LocalImpairmentConfig.current config)) as [r1| |];
    cbn [mbind outcome_bind] in Hb |- *;
    [|destruct (parse_local_bounds config); try discriminate Hb;
      try (injection Hb as <-); reflexivity..].
  destruct (parse_or_400 (LocalImpairmentConfig.olem config)) as [r2| |];
    cbn [mbind outcome_bind] in Hb |- *;
    [|destruct (parse_local_bounds config); try discriminate Hb;
      try (injection Hb as <-); reflexivity..].
  destruct (parse_or_400 (LocalImpairmentConfig.substandard config)) as [r3| |];
    cbn [mbind outcome_bind] in Hb |- *;
    [|destruct (parse_local_bounds config); try discriminate Hb;
      try (injection Hb as <-); reflexivity..].
  destruct (parse_or_400 (LocalImpairmentConfig.doubtful config)) as [r4| |];
    cbn [mbind outcome_bind] in Hb |- *;
    [|destruct (parse_local_bounds config); try discriminate Hb;
      try (injection Hb as <-); reflexivity..].
  destruct (parse_or_400 (LocalImpairmentConfig.loss config)) as [r5| |];
    cbn [mbind outcome_bind] in Hb |- *;
    destruct (parse_local_bounds config); try discriminate Hb;
    try (injection Hb as <-); reflexivity.
Qed.

(** The chain keeps the previous label exactly when no range contains the
    days. *)
Lemma local_route_stage_prev (b : LocalBounds.t) (ndia : Z) (prev : option string) :
  local_route_stage b ndia prev
  = match local_route_stage b ndia None with
    | Some c => Some c
    | None => prev
    end.
Proof.
  unfold local_route_stage.
  repeat (match goal with |- context [if ?x then _ else _] => destruct x end); reflexivity.
Qed.

Lemma local_route_stage_names (b : LocalBounds.t) (ndia : Z) (c : string) :
  local_route_stage b ndia None = Some c ->
  c ∈ ["Current"; "OLEM"; "Substandard"; "Doubtful"; "Loss"]%string.
Proof.
  unfold local_route_stage.
  repeat (match goal with |- context [if ?x then _ else _] => destruct x end);
    intros H; inversion H; set_solver.
Qed.

Lemma local_route_loop (b : LocalBounds.t) (loans : list Loan.t)
    (acc ys : list LoanStageInfo.t) (prev last : option string) :
  (forall c, prev = Some c ->
             c ∈ ["Current"; "OLEM"; "Substandard"; "Doubtful"; "Loss"]%string) ->
  for_each_outcome loans (stage_loans_local_impairment_loan b) (acc, prev) = Ok (ys, last) ->
  exists zs : list LoanStageInfo.t,
    ys = acc ++ zs
    /\ Forall2
         (fun (loan : Loan.t) (info : LoanStageInfo.t) =>
            LoanStageInfo.loan_id info = Loan.id loan
            /\ Loan.ndia loan = Some (LoanStageInfo.ndia info)
            /\ LoanStageInfo.stage info
               ∈ ["Current"; "OLEM"; "Substandard"; "Doubtful"; "Loss"]%string
            /\ (forall c, local_route_stage b (LoanStageInfo.ndia info) None = Some c ->
                          LoanStageInfo.stage info = c))
         loans zs.
Proof.
  revert acc prev ys. induction loans as [|loan loans IH]; intros acc prev ys Hprev; simpl.
  - intros [= <- <-]. exists []. split; [now rewrite app_nil_r|constructor].
  - unfold stage_loans_local_impairment_loan at 1, local_route_ndia, int_of_ndia.
    destruct (Loan.ndia loan) as [n|] eqn:Hn; [|discriminate]. simpl.
    rewrite local_route_stage_prev.
    destruct (local_route_stage b n None) as [c|] eqn:Hc.
    + simpl. destruct (make_LoanStageInfo loan c n) as [info| |] eqn:Hinfo;
        [|discriminate..]. simpl. intros Hrest.
      apply IH in Hrest as (zs & -> & Hzs).
      2: { intros c' [= <-]. now apply local_route_stage_names in Hc. }
      exists (info :: zs). split; [now rewrite <- app_assoc|]. constructor; [|exact Hzs].
      apply make_LoanStageInfo_Ok in Hinfo as (Hid & Hstage & Hndia & _).
      rewrite Hid, Hstage, Hndia. split; [reflexivity|]. split; [exact Hn|].
      split; [now apply local_route_stage_names in Hc|]. intros c'. rewrite Hc. now intros [= <-].
    + destruct prev as [c|]; [|discriminate]. simpl.
      destruct (make_LoanStageInfo loan c n) as [info| |] eqn:Hinfo;
        [|discriminate..]. simpl. intros Hrest.
      apply IH in Hrest as (zs & -> & Hzs); [|exact Hprev].
      exists (info :: zs). split; [now rewrite <- app_assoc|]. constructor; [|exact Hzs].
      apply make_LoanStageInfo_Ok in Hinfo as (Hid & Hstage & Hndia & _).
      rewrite Hid, Hstage, Hndia. split; [reflexivity|]. split; [exact Hn|].
      split; [now apply Hprev|]. intros c'. rewrite Hc. discriminate.
Qed.

(** X17: a response of [stage_loans_local_impairment] is never partial.
    When the route returns, the portfolio is the user's, the five ranges
    parse, and the response has one entry per loan of the portfolio, in table
    order.  Every loan has its days past due, so the days derived from the
    arrears are never the ones reported; the label is one of the five
    categories, and it is the category of the first range that contains the
    days whenever a range does. *)
Theorem stage_loans_local_impairment_response (t : Db.Tables)
    (current_user portfolio_id : Z) (config : LocalImpairmentConfig.t)
    (staged_loans : list LoanStageInfo.t) :
  stage_loans_local_impairment t current_user portfolio_id config = Ok staged_loans ->
  exists b : LocalBounds.t,
    parse_local_bounds config = Ok b
    /\ find_portfolio t portfolio_id current_user <> None
    /\ Forall2
         (fun (loan : Loan.t) (info : LoanStageInfo.t) =>
            LoanStageInfo.loan_id info = Loan.id loan
            /\ Loan.ndia loan = Some (LoanStageInfo.ndia info)
            /\ LoanStageInfo.stage info
               ∈ ["Current"; "OLEM"; "Substandard"; "Doubtful"; "Loss"]%string
            /\ (forall c, local_route_stage b (LoanStageInfo.ndia info) None = Some c ->
                          LoanStageInfo.stage info = c))
         (loans_of_portfolio t portfolio_id) staged_loans.
Proof.
  rewrite stage_loans_local_impairment_eq.
  destruct (find_portfolio t portfolio_id current_user) as [p|] eqn:Hp; [|discriminate].
  destruct (parse_local_bounds config) as [b| |]; [|discriminate..].
  destruct (for_each_outcome _ _ _) as [[ys last]| |] eqn:Hloop; [|discriminate..].
  simpl. intros [= <-]. exists b. split; [reflexivity|]. split; [discriminate|].
  apply local_route_loop in Hloop as (zs & -> & Hzs); [exact Hzs|discriminate].
Qed.

Lemma stage_loans_local_impairment_response_witness :
  exists b : LocalBounds.t,
    parse_local_bounds Sample.gap_config = Ok b
    /\ find_portfolio (Sample.tables [Sample.loan 1 (Some 100) 5]) 7 1 <> None.
Proof.
  destruct (stage_loans_local_impairment_response
              (Sample.tables [Sample.loan 1 (Some 100) 5]) 1 7 Sample.gap_config
              [LoanStageInfo.mk 1 "E1" "Substandard" 5 100 0 1000 100 12 200] eq_refl)
    as (b & Hb & Hf & _).
  exists b. split; [exact Hb|exact Hf].
Defined.

(** ** What the provision routes read of a staged loan *)

Lemma local_provision_loan_reads (t : Db.Tables) (a b : LoanStageInfo.t) (acc : LocalAcc.t) :
  LoanStageInfo.loan_id a = LoanStageInfo.loan_id b ->
  LoanStageInfo.outstanding_loan_balance a = LoanStageInfo.outstanding_loan_balance b ->
  Py.lower (LoanStageInfo.stage a) = Py.lower (LoanStageInfo.stage b) ->
  local_provision_loan t a acc = local_provision_loan t b acc.
Proof. intros Hid Hbal Hstage. unfold local_provision_loan. now rewrite Hid, Hbal, Hstage. Qed.

(** X18: [calculate_local_provision] reads three things of a staged loan:
    its id, its outstanding balance and its label in lower case.  Two
    requests whose loans agree on these, one by one, get the same answer:
    labels are compared without regard to case, and the days past due, the
    amounts and the employee id sent with a loan play no part. *)
Theorem calculate_local_provision_reads (t : Db.Tables) (current_user portfolio_id : Z)
    (loans loans' : list LoanStageInfo.t) (provision_config : ProvisionRateConfig.t)
    (reporting_date : Z) :
  Forall2
    (fun a b =>
       LoanStageInfo.loan_id a = LoanStageInfo.loan_id b
       /\ LoanStageInfo.outstanding_loan_balance a = LoanStageInfo.outstanding_loan_balance b
       /\ Py.lower (LoanStageInfo.stage a) = Py.lower (LoanStageInfo.stage b))
    loans loans' ->
  calculate_local_provision t current_user (StagedLoans.mk portfolio_id loans)
    provision_config reporting_date
  = calculate_local_provision t current_user (StagedLoans.mk portfolio_id loans')
      provision_config reporting_date.
Proof.
  intros H. unfold calculate_local_provision. cbn [StagedLoans.portfolio_id StagedLoans.loans].
  destruct (find_portfolio t portfolio_id current_user); [|reflexivity].
  do 2 f_equal. unfold local_provision_loop. generalize LocalAcc.empty.
  induction H as [|a b loans loans' (Hid & Hbal & Hstage) _ IH]; intros acc; [reflexivity|].
  simpl. rewrite (local_provision_loan_reads t a b acc Hid Hbal Hstage). apply IH.
Qed.

Lemma calculate_local_provision_reads_witness :
  calculate_local_provision (Sample.tables Sample.five_loans) 1
    (StagedLoans.mk 7 [Sample.staged 1 "CURRENT" 1000]) Sample.spec_rates 0
  = calculate_local_provision (Sample.tables Sample.five_loans) 1
      (StagedLoans.mk 7 [LoanStageInfo.mk 1 "E9" "current" 1000 45 3 1 2 6 9])
      Sample.spec_rates 0.
Proof.
  apply (calculate_local_provision_reads (Sample.tables Sample.five_loans) 1 7
           [Sample.staged 1 "CURRENT" 1000]
           [LoanStageInfo.mk 1 "E9" "current" 1000 45 3 1 2 6 9]).
  constructor; [|constructor]. repeat split.
Defined.

Lemma local_provision_loan_unknown (t : Db.Tables) (l : LoanStageInfo.t) (acc : LocalAcc.t) :
  existsb (String.eqb (Py.lower (LoanStageInfo.stage l)))
    ["current"; "olem"; "substandard"; "doubtful"; "loss"]%string = false ->
  local_provision_loan t l acc = acc.
Proof.
  intros H. unfold local_provision_loan. destruct (find_loan _ _); [|reflexivity].
  simpl in H. repeat (apply orb_false_elim in H as [? H]).
  repeat (match goal with Heq : String.eqb _ _ = false |- _ => rewrite Heq; clear Heq end).
  reflexivity.
Qed.

(** X19: [calculate_local_provision] passes over a staged loan whose label,
    in lower case, is none of "current", "olem", "substandard", "doubtful" and
    "loss": it is in no count and in no total, and no error is raised.  The
    answer is that of the request without such loans. *)
Theorem calculate_local_provision_unknown_labels (t : Db.Tables)
    (current_user portfolio_id : Z) (loans : list LoanStageInfo.t)
    (provision_config : ProvisionRateConfig.t) (reporting_date : Z) :
  calculate_local_provision t current_user (StagedLoans.mk portfolio_id loans)
    provision_config reporting_date
  = calculate_local_provision t current_user
      (StagedLoans.mk portfolio_id
         (List.filter
            (fun l => existsb (String.eqb (Py.lower (LoanStageInfo.stage l)))
                        ["current"; "olem"; "substandard"; "doubtful"; "loss"]%string)
            loans))
      provision_config reporting_date.
Proof.
  unfold calculate_local_provision. cbn [StagedLoans.portfolio_id StagedLoans.loans].
  destruct (find_portfolio t portfolio_id current_user); [|reflexivity].
  do 2 f_equal. unfold local_provision_loop. generalize LocalAcc.empty.
  induction loans as [|l loans IH]; intros acc; [reflexivity|].
  cbn [List.filter fold_left].
  destruct (existsb _ _) eqn:Hk.
  - cbn [fold_left]. apply IH.
  - rewrite (local_provision_loan_unknown t l acc Hk). apply IH.
Qed.

(** ** The loop of [calculate_ecl_provision] *)

Lemma for_each_outcome_raise {A S : Type} (body : A -> S -> outcome S) (xs : list A)
    (acc : S) (e : exception) :
  for_each_outcome xs body acc = Raise e ->
  exists (x : A) (acc' : S), x ∈ xs /\ body x acc' = Raise e.
Proof.
  revert acc. induction xs as [|x xs IH]; intros acc; simpl; [discriminate|].
  destruct (body x acc) as [acc1| |] eqn:Hx; simpl.
  - intros H. apply IH in H as (x' & acc' & Hin & Hx').
    exists x', acc'. split; [apply elem_of_cons; now right|exact Hx'].
  - intros [= <-]. exists x, acc. split; [apply elem_of_cons; now left|exact Hx].
  - discriminate.
Qed.

Section ECLLoop.
Context {calc : Calculators}.
Variable t : Db.Tables.

Lemma ecl_provision_loan_counts (cs : gmap string (list Security.t)) (d : Z)
    (l : LoanStageInfo.t) (acc acc' : ECLAcc.t) :
  ecl_provision_loan t cs d l acc = Ok acc' ->
  let hit (category : string) : nat :=
    if resolved t l && String.eqb (Py.lower (LoanStageInfo.stage l)) category
    then 1%nat else 0%nat in
  ECLAcc.total_loans acc' = ECLAcc.total_loans acc + (if resolved t l then 1 else 0)
  /\ length (fst (ECLAcc.stage_1 acc')) = (length (fst (ECLAcc.stage_1 acc)) + hit "stage 1")%nat
  /\ length (fst (ECLAcc.stage_2 acc')) = (length (fst (ECLAcc.stage_2 acc)) + hit "stage 2")%nat
  /\ length (fst (ECLAcc.stage_3 acc')) = (length (fst (ECLAcc.stage_3 acc)) + hit "stage 3")%nat.
Proof.
  unfold ecl_provision_loan, resolved.
  destruct (find_loan t (LoanStageInfo.loan_id l)) as [loan|].
  2: { intros [= <-]. cbv zeta. simpl. repeat split; lia. }
  cbv zeta. cbn [andb].
  destruct (String.eqb (Py.lower (LoanStageInfo.stage l)) "stage 1") eqn:E1.
  { apply String.eqb_eq in E1. rewrite E1.
    destruct (ecl_components _ _ _ _) as [[[[lgd pd] ead] ecl]| |]; simpl; [|discriminate..].
    intros [= <-]. simpl. rewrite length_app. simpl. repeat split; lia. }
  destruct (String.eqb (Py.lower (LoanStageInfo.stage l)) "stage 2") eqn:E2.
  { apply String.eqb_eq in E2. rewrite E2.
    destruct (ecl_components _ _ _ _) as [[[[lgd pd] ead] ecl]| |]; simpl; [|discriminate..].
    intros [= <-]. simpl. rewrite length_app. simpl. repeat split; lia. }
  destruct (String.eqb (Py.lower (LoanStageInfo.stage l)) "stage 3") eqn:E3.
  { apply String.eqb_eq in E3.
    destruct (ecl_components _ _ _ _) as [[[[lgd pd] ead] ecl]| |]; simpl; [|discriminate..].
    intros [= <-]. simpl. rewrite length_app. simpl. repeat split; lia. }
  simpl. intros [= <-]. simpl. repeat split; lia.
Qed.

Lemma ecl_provision_for_each_counts (cs : gmap string (list Security.t)) (d : Z)
    (loans : list LoanStageInfo.t) (acc acc' : ECLAcc.t) :
  for_each_outcome loans (ecl_provision_loan t cs d) acc = Ok acc' ->
  ECLAcc.total_loans acc'
  = ECLAcc.total_loans acc + Z.of_nat (length (List.filter (resolved t) loans))
  /\ length (fst (ECLAcc.stage_1 acc'))
     = (length (fst (ECLAcc.stage_1 acc)) + length (category_loans t "stage 1" loans))%nat
  /\ length (fst (ECLAcc.stage_2 acc'))
     = (length (fst (ECLAcc.stage_2 acc)) + length (category_loans t "stage 2" loans))%nat
  /\ length (fst (ECLAcc.stage_3 acc'))
     = (length (fst (ECLAcc.stage_3 acc)) + length (category_loans t "stage 3" loans))%nat.
Proof.
  revert acc. induction loans as [|l loans IH]; intros acc; simpl.
  - intros [= <-]. repeat split; lia.
  - destruct (ecl_provision_loan t cs d l acc) as [acc1| |] eqn:Hl; simpl; [|discriminate..].
    intros Hrest. apply IH in Hrest as (H0 & H1 & H2 & H3).
    apply ecl_provision_loan_counts in Hl as (G0 & G1 & G2 & G3).
    unfold category_loans in *. cbn [List.filter]. revert G0 G1 G2 G3.
    destruct (resolved t l); cbn [andb];
      repeat (match goal with
              | |- context [String.eqb ?a ?b] => destruct (String.eqb a b)
              end); simpl length; intros; repeat split; lia.
Qed.

End ECLLoop.

(** X20: the counts behind the averages of [calculate_ecl_provision].  When
    the loop returns, every staged loan that resolves in the store has been
    counted in [total_loans], the denominator of the average PD, LGD and
    EAD, whatever its label; the loans of a stage are the resolved loans
    labelled "stage 1", "stage 2" or "stage 3" (in any case).  A resolved
    loan with another label adds to the denominator and to nothing else. *)
Theorem ecl_provision_loop_counts (calc : Calculators) (t : Db.Tables) (reporting_date : Z)
    (loans : list LoanStageInfo.t) (acc : ECLAcc.t) :
  ecl_provision_loop t reporting_date loans = Ok acc ->
  ECLAcc.total_loans acc = Z.of_nat (length (List.filter (resolved t) loans))
  /\ length (fst (ECLAcc.stage_1 acc)) = length (category_loans t "stage 1" loans)
  /\ length (fst (ECLAcc.stage_2 acc)) = length (category_loans t "stage 2" loans)
  /\ length (fst (ECLAcc.stage_3 acc)) = length (category_loans t "stage 3" loans).
Proof.
  unfold ecl_provision_loop. intros H.
  apply ecl_provision_for_each_counts in H as (H0 & H1 & H2 & H3).
  simpl in H0, H1, H2, H3. repeat split; assumption.
Qed.

Lemma ecl_provision_loop_counts_witness :
  exists acc : ECLAcc.t,
    @ecl_provision_loop Sample.calculators (Sample.tables Sample.five_loans) 0
      [Sample.staged 1 "Stage 1" 1000; Sample.staged 2 "Watch" 200] = Ok acc
    /\ ECLAcc.total_loans acc = 2
    /\ length (fst (ECLAcc.stage_1 acc)) = 1%nat.
Proof.
  destruct (@ecl_provision_loop Sample.calculators (Sample.tables Sample.five_loans) 0
              [Sample.staged 1 "Stage 1" 1000; Sample.staged 2 "Watch" 200])
    as [acc| |] eqn:Hloop; [|discriminate Hloop..].
  - exists acc. split; [reflexivity|].
    destruct (ecl_provision_loop_counts Sample.calculators
                (Sample.tables Sample.five_loans) 0
                [Sample.staged 1 "Stage 1" 1000; Sample.staged 2 "Watch" 200] acc Hloop)
      as (H0 & H1 & _).
    split; [exact H0|exact H1].
Defined.

Lemma for_each_outcome_total {A S : Type} (body : A -> S -> outcome S) (xs : list A)
    (acc : S) :
  (forall x acc, x ∈ xs -> exists acc', body x acc = Ok acc') ->
  exists r, for_each_outcome xs body acc = Ok r.
Proof.
  revert acc. induction xs as [|x xs IH]; intros acc Hbody; simpl; [now exists acc|].
  destruct (Hbody x acc) as [acc1 ->]; [apply elem_of_cons; now left|]. simpl.
  apply IH. intros y acc' Hy. apply Hbody, elem_of_cons. now right.
Qed.

(** X21: where a failure of [calculate_ecl_provision] comes from.  The route
    raises 404 when the portfolio is not the user's; or the exception that
    one of the four calculators raised on a staged loan that resolves in the
    store and is labelled "stage 1", "stage 2" or "stage 3"; or, once the
    loop has returned, [InvalidOperation] from rounding a rate or the
    percentage that does not fit the decimal context.  An unresolved loan, a
    loan with another label and the divisions of the summary never raise. *)
Theorem calculate_ecl_provision_errors (calc : Calculators) (t : Db.Tables)
    (current_user : Z) (staged_loans : StagedLoans.t) (reporting_date : Z) (e : exception) :
  calculate_ecl_provision t current_user staged_loans reporting_date = Raise e ->
  (e = HTTPException 404 "Portfolio not found or not authorized"
   /\ find_portfolio t (StagedLoans.portfolio_id staged_loans) current_user = None)
  \/ (exists (l : LoanStageInfo.t) (loan : Loan.t),
        l ∈ StagedLoans.loans staged_loans
        /\ find_loan t (LoanStageInfo.loan_id l) = Some loan
        /\ Py.lower (LoanStageInfo.stage l) ∈ ["stage 1"; "stage 2"; "stage 3"]%string
        /\ ecl_components loan
             (default []
                (group_securities t (client_ids_of (StagedLoans.loans staged_loans))
                 !! LoanStageInfo.employee_id l))
             (LoanStageInfo.ndia l) reporting_date
           = Raise e)
  \/ (exists acc : ECLAcc.t,
        ecl_provision_loop t reporting_date (StagedLoans.loans staged_loans) = Ok acc
        /\ e = InvalidOperation /\ summary_overflows acc).
Proof.
  unfold calculate_ecl_provision.
  destruct (find_portfolio _ _ _); [|intros [= <-]; now left].
  destruct (ecl_provision_loop _ _ _) as [acc|e'|] eqn:Hloop; cbn [mbind outcome_bind];
    [| |discriminate].
  { intros Hsum. right. right. exists acc. split; [reflexivity|].
    destruct (ecl_provision_summary_cases (StagedLoans.portfolio_id staged_loans)
                reporting_date acc) as [(r & Hr & _) | (Hr & Hover)];
      rewrite Hr in Hsum; [discriminate|].
    injection Hsum as <-. split; [reflexivity|exact Hover]. }
  intros [= ->]. right. left. unfold ecl_provision_loop in Hloop.
  apply for_each_outcome_raise in Hloop as (l & acc & Hin & Hl).
  unfold ecl_provision_loan in Hl.
  destruct (find_loan t (LoanStageInfo.loan_id l)) as [loan|] eqn:Hloan; [|discriminate].
  exists l, loan. split; [exact Hin|]. split; [exact Hloan|].
  destruct (String.eqb (Py.lower (LoanStageInfo.stage l)) "stage 1") eqn:E1.
  { apply String.eqb_eq in E1. rewrite E1. split; [set_solver|].
    destruct (ecl_components _ _ _ _) as [[[[lgd pd] ead] ecl]| |]; simpl in Hl;
      [discriminate|congruence|discriminate]. }
  destruct (String.eqb (Py.lower (LoanStageInfo.stage l)) "stage 2") eqn:E2.
  { apply String.eqb_eq in E2. rewrite E2. split; [set_solver|].
    destruct (ecl_components _ _ _ _) as [[[[lgd pd] ead] ecl]| |]; simpl in Hl;
      [discriminate|congruence|discriminate]. }
  destruct (String.eqb (Py.lower (LoanStageInfo.stage l)) "stage 3") eqn:E3.
  { apply String.eqb_eq in E3. rewrite E3. split; [set_solver|].
    destruct (ecl_components _ _ _ _) as [[[[lgd pd] ead] ecl]| |]; simpl in Hl;
      [discriminate|congruence|discriminate]. }
  discriminate.
Qed.

Lemma calculate_ecl_provision_errors_witness :
  exists (l : LoanStageInfo.t) (loan : Loan.t),
    l ∈ [Sample.staged 1 "Stage 1" 1000]
    /\ find_loan (Sample.tables Sample.five_loans) (LoanStageInfo.loan_id l) = Some loan.
Proof.
  destruct (calculate_ecl_provision_errors Sample.failing_calculators
              (Sample.tables Sample.five_loans) 1
              (StagedLoans.mk 7 [Sample.staged 1 "Stage 1" 1000]) 0
              (CalculatorError "pd") eq_refl)
    as [[H404 _] | [(l & loan & Hin & Hloan & _) | (acc & _ & He & _)]].
  - discriminate H404.
  - exists l, loan. split; [exact Hin|exact Hloan].
  - discriminate He.
Defined.

(** X22: [calculate_ecl_provision] fails only in its roundings.  For a
    portfolio of the user and calculators that return on every loan, the
    loop returns for every list of staged loans (unresolved references,
    unknown labels, empty stages and an empty list included), and the route
    returns a summary unless the rounding of a rate or of the percentage
    does not fit the decimal context, in which case it raises
    [InvalidOperation]. *)
Theorem calculate_ecl_provision_total (calc : Calculators) (t : Db.Tables)
    (current_user : Z) (staged_loans : StagedLoans.t) (reporting_date : Z) :
  find_portfolio t (StagedLoans.portfolio_id staged_loans) current_user <> None ->
  (forall loan securities, exists q, calculate_loss_given_default loan securities = Ok q) ->
  (forall loan ndia, exists q, calculate_probability_of_default loan ndia = Ok q) ->
  (forall loan date, exists q, calculate_exposure_at_default_percentage loan date = Ok q) ->
  (forall loan ead pd lgd, exists q, calculate_marginal_ecl loan ead pd lgd = Ok q) ->
  exists acc : ECLAcc.t,
    ecl_provision_loop t reporting_date (StagedLoans.loans staged_loans) = Ok acc
    /\ ((exists r : ECLSummary.t,
           calculate_ecl_provision t current_user staged_loans reporting_date = Ok r)
        \/ (calculate_ecl_provision t current_user staged_loans reporting_date
            = Raise InvalidOperation
            /\ summary_overflows acc)).
Proof.
  intros Hp Hlgd Hpd Head Hecl. unfold calculate_ecl_provision.
  destruct (find_portfolio _ _ _); [|contradiction].
  assert (forall loan securities ndia,
            exists c, ecl_components loan securities ndia reporting_date = Ok c) as Hc.
  { intros loan securities ndia. unfold ecl_components.
    destruct (Hlgd loan securities) as [lgd ->]. simpl.
    destruct (Hpd loan ndia) as [pd ->]. simpl.
    destruct (Head loan reporting_date) as [ead ->]. simpl.
    destruct (Hecl loan ead pd lgd) as [ecl ->]. simpl. now eexists. }
  destruct (for_each_outcome_total
              (ecl_provision_loan t
                 (group_securities t (client_ids_of (StagedLoans.loans staged_loans)))
                 reporting_date)
              (StagedLoans.loans staged_loans) ECLAcc.empty) as [acc Hacc].
  - intros l acc _. unfold ecl_provision_loan.
    destruct (find_loan t (LoanStageInfo.loan_id l)) as [loan|]; [|now eexists].
    destruct (Hc loan
                (default []
                   (group_securities t (client_ids_of (StagedLoans.loans staged_loans))
                    !! LoanStageInfo.employee_id l))
                (LoanStageInfo.ndia l)) as [[[[lgd pd] ead] ecl] Hcomp].
    rewrite Hcomp.
    destruct (String.eqb _ "stage 1"); [now eexists|].
    destruct (String.eqb _ "stage 2"); [now eexists|].
    destruct (String.eqb _ "stage 3"); now eexists.
  - exists acc. unfold ecl_provision_loop. rewrite Hacc. split; [reflexivity|].
    cbn [mbind outcome_bind].
    destruct (ecl_provision_summary_cases (StagedLoans.portfolio_id staged_loans)
                reporting_date acc) as [(r & -> & _) | (-> & Hover)].
    + left. now exists r.
    + right. split; [reflexivity|exact Hover].
Qed.

Lemma calculate_ecl_provision_total_witness :
  exists r : ECLSummary.t,
    @calculate_ecl_provision Sample.calculators (Sample.tables Sample.five_loans) 1
      (StagedLoans.mk 7 [Sample.staged 1 "Stage 1" 1000; Sample.staged 8 "Stage 9" 5]) 0
    = Ok r.
Proof.
  destruct (calculate_ecl_provision_total Sample.calculators
              (Sample.tables Sample.five_loans) 1
              (StagedLoans.mk 7 [Sample.staged 1 "Stage 1" 1000;
                                 Sample.staged 8 "Stage 9" 5]) 0)
    as (acc & _ & [Hr | (Hraise & _)]).
  - discriminate.
  - intros; eexists; reflexivity.
  - intros; eexists; reflexivity.
  - intros; eexists; reflexivity.
  - intros; eexists; reflexivity.
  - exact Hr.
  - vm_compute in Hraise. discriminate Hraise.
Defined.

(** X23: the securities [calculate_ecl_provision] hands to the LGD calculator
    for a staged loan.  They are the securities of the store whose client
    exists and carries the employee id sent with the staged loan, a non-empty
    one, in table order; a loan with an empty employee id gets none. *)
Theorem ecl_loan_securities (t : Db.Tables) (loans : list LoanStageInfo.t)
    (l : LoanStageInfo.t) :
  l ∈ loans ->
  default [] (group_securities t (client_ids_of loans) !! LoanStageInfo.employee_id l)
  = filter (fun s => security_owner t s = Some (LoanStageInfo.employee_id l))
      (Db.securities t)
  /\ (LoanStageInfo.employee_id l = EmptyString ->
      default [] (group_securities t (client_ids_of loans) !! LoanStageInfo.employee_id l)
      = []).
Proof.
  intros Hin.
  assert (default [] (group_securities t (client_ids_of loans)
                       !! LoanStageInfo.employee_id l)
          = filter (fun s => security_owner t s = Some (LoanStageInfo.employee_id l))
              (Db.securities t)) as Heq.
  { apply group_securities_lookup. unfold client_ids_of.
    apply elem_of_list_to_set, list_elem_of_fmap. now exists l. }
  split; [exact Heq|]. intros Hempty. rewrite Heq, Hempty. clear Heq.
  induction (Db.securities t) as [|s ss IH]; [reflexivity|].
  rewrite filter_cons, decide_False; [exact IH|].
  unfold security_owner. destruct (find_client t _) as [c|]; [|discriminate].
  destruct (Client.employee_id c) as [e|]; [|discriminate].
  destruct (String.eqb e EmptyString) eqn:E; [discriminate|].
  intros [= ->]. discriminate.
Qed.

Lemma ecl_loan_securities_witness :
  default []
    (group_securities (Sample.tables Sample.five_loans)
       (client_ids_of [Sample.staged 1 "Stage 1" 1000]) !! "E1"%string)
  = filter (fun s => security_owner (Sample.tables Sample.five_loans) s = Some "E1"%string)
      (Db.securities (Sample.tables Sample.five_loans)).
Proof.
  apply (ecl_loan_securities (Sample.tables Sample.five_loans)
           [Sample.staged 1 "Stage 1" 1000] (Sample.staged 1 "Stage 1" 1000)).
  apply list_elem_of_singleton. reflexivity.
Defined.

(** ** Range strings written with decimal digits *)

Lemma is_digit_not_space (c : ascii) : Py.is_digit c = true -> Py.is_space c = false.
Proof.
  unfold Py.is_digit, Py.is_space. intros H.
  apply andb_true_iff in H as [H1 H2]. apply Nat.leb_le in H1, H2.
  apply orb_false_iff. split.
  - apply andb_false_iff. right. apply Nat.leb_gt. lia.
  - apply Nat.eqb_neq. lia.
Qed.

Lemma digit_value_nonneg (c : ascii) : Py.is_digit c = true -> 0 <= Py.digit_value c.
Proof.
  unfold Py.is_digit, Py.digit_value. intros H.
  apply andb_true_iff in H as [H1 _]. apply Nat.leb_le in H1. lia.
Qed.

Lemma digits_all_digits (s : string) (acc : Z) (sep : bool) :
  all_digits s = true -> s <> EmptyString \/ sep = false ->
  Py.digits acc sep s = Some (decimal_value acc s).
Proof.
  revert acc sep. induction s as [|c s IH]; intros acc sep Hs Hne; simpl.
  - destruct Hne as [Hne| ->]; [contradiction|reflexivity].
  - simpl in Hs. apply andb_true_iff in Hs as [Hc Hs]. rewrite Hc.
    apply IH; [exact Hs|now right].
Qed.

Lemma decimal_value_nonneg (s : string) (acc : Z) :
  all_digits s = true -> 0 <= acc -> 0 <= decimal_value acc s.
Proof.
  revert acc. induction s as [|c s IH]; intros acc Hs Hacc; simpl; [exact Hacc|].
  simpl in Hs. apply andb_true_iff in Hs as [Hc Hs].
  apply IH; [exact Hs|]. pose proof (digit_value_nonneg c Hc). lia.
Qed.

Lemma lstrip_all_digits (s : string) : all_digits s = true -> Py.lstrip s = s.
Proof.
  destruct s as [|c s]; [reflexivity|]. simpl. intros H.
  apply andb_true_iff in H as [Hc _]. now rewrite (is_digit_not_space c Hc).
Qed.

Lemma rstrip_all_digits (s : string) : all_digits s = true -> Py.rstrip s = s.
Proof.
  induction s as [|c s IH]; [reflexivity|]. simpl. intros H.
  apply andb_true_iff in H as [Hc Hs]. rewrite (IH Hs).
  destruct s; [now rewrite (is_digit_not_space c Hc)|reflexivity].
Qed.

Lemma int_all_digits (s : string) :
  s <> EmptyString -> all_digits s = true -> Py.int s = Ok (decimal_value 0 s).
Proof.
  intros Hne Hs. unfold Py.int, Py.strip.
  rewrite (lstrip_all_digits s Hs), (rstrip_all_digits s Hs).
  pose proof (digits_all_digits s 0 true Hs (or_introl Hne)) as Hd.
  destruct s as [|c s]; [contradiction|].
  assert (Py.is_digit c = true) as Hc by (simpl in Hs; now apply andb_true_iff in Hs as [? _]).
  destruct c as [[] [] [] [] [] [] [] []]; try discriminate Hc; now rewrite Hd.
Qed.

Lemma count_char_all_digits (s : string) : all_digits s = true -> count_char "-" s = 0%nat.
Proof.
  induction s as [|c s IH]; [reflexivity|]. simpl. intros H.
  apply andb_true_iff in H as [Hc Hs]. rewrite (IH Hs).
  destruct c as [[] [] [] [] [] [] [] []]; try discriminate Hc; reflexivity.
Qed.

Lemma endswith_dash_digits (a b : string) :
  b <> EmptyString -> all_digits b = true -> Py.endswith (a +:+ String "-" b) "+" = false.
Proof.
  intros Hne Hb.
  assert (forall c, Py.endswith (String c b) "+" = false) as Hend.
  { clear a. intros c. revert c. induction b as [|d b IH]; intros c; [contradiction|].
    simpl in Hb. apply andb_true_iff in Hb as [Hd Hb].
    destruct b as [|d' b'].
    - simpl. destruct d as [[] [] [] [] [] [] [] []]; try discriminate Hd; reflexivity.
    - change (Py.endswith (String c (String d (String d' b'))) "+")
        with (Py.endswith (String d (String d' b')) "+").
      apply IH; [discriminate|exact Hb]. }
  induction a as [|x a IH]; [exact (Hend "-"%char)|].
  change (String x a +:+ String "-" b) with (String x (a +:+ String "-" b)).
  destruct (a +:+ String "-" b) eqn:E; [destruct a; discriminate E|].
  exact IH.
Qed.

(** X24: range strings written with decimal digits parse.  For non-empty
    strings of ASCII digits [a] and [b], each of at most 4300 digits (the
    limit of int() on the digits of a literal), the range [a-b] parses to
    the numbers they write, as the bounds (a, b), and [a+] parses to (a,
    unbounded); the bounds are not negative. *)
Theorem parse_days_range_decimal (a b : string) :
  a <> EmptyString -> b <> EmptyString -> all_digits a = true -> all_digits b = true ->
  (String.length a <= Py.int_max_str_digits)%nat ->
  (String.length b <= Py.int_max_str_digits)%nat ->
  parse_days_range (Some (a +:+ String "-" b))
  = Ok (decimal_value 0 a, Some (decimal_value 0 b))
  /\ parse_days_range (Some (a +:+ "+")) = Ok (decimal_value 0 a, None)
  /\ 0 <= decimal_value 0 a /\ 0 <= decimal_value 0 b.
Proof.
  intros Ha Hb Hda Hdb _ _. split; [|split].
  - rewrite parse_days_range_dash
      by (first [now apply count_char_all_digits | now apply endswith_dash_digits]).
    now rewrite (int_all_digits a Ha Hda), (int_all_digits b Hb Hdb).
  - rewrite parse_days_range_plus. now rewrite (int_all_digits a Ha Hda).
  - split; now apply decimal_value_nonneg.
Qed.

Lemma parse_days_range_decimal_witness :
  parse_days_range (Some ("31" +:+ String "-" "90")) = Ok (31, Some 90)
  /\ parse_days_range (Some ("31" +:+ "+")) = Ok (31, None).
Proof.
  destruct (parse_days_range_decimal "31" "90") as (H1 & H2 & _);
    [discriminate|discriminate|reflexivity|reflexivity
    |unfold Py.int_max_str_digits; simpl; lia
    |unfold Py.int_max_str_digits; simpl; lia|].
  split; [exact H1|exact H2].
Defined.

(** ** The sign of parsed bounds *)

Lemma split_parts_no_sep (s : string) (sep : ascii) (p : string) :
  p ∈ Py.split s sep -> count_char sep p = 0%nat.
Proof.
  revert p. induction s as [|a s IH]; intros p; simpl.
  - intros Hp. apply list_elem_of_singleton in Hp. now subst p.
  - destruct (Ascii.eqb a sep) eqn:Ea.
    + intros Hp. apply elem_of_cons in Hp as [-> | Hp]; [reflexivity|now apply IH].
    + destruct (Py.split s sep) as [|q qs].
      * intros Hp. apply list_elem_of_singleton in Hp. subst p. simpl. now rewrite Ea.
      * intros Hp. apply elem_of_cons in Hp as [-> | Hp].
        -- simpl. rewrite Ea. apply IH, elem_of_cons. now left.
        -- apply IH, elem_of_cons. now right.
Qed.

Lemma count_char_lstrip (c : ascii) (s : string) :
  (count_char c (Py.lstrip s) <= count_char c s)%nat.
Proof.
  induction s as [|a s IH]; simpl; [lia|].
  destruct (Py.is_space a); [destruct (Ascii.eqb a c); lia|]. simpl. lia.
Qed.

Lemma count_char_rstrip (c : ascii) (s : string) :
  (count_char c (Py.rstrip s) <= count_char c s)%nat.
Proof.
  induction s as [|a s IH]; simpl; [lia|].
  destruct (Py.rstrip s) as [|b r]; simpl in *.
  - destruct (Py.is_space a); simpl; destruct (Ascii.eqb a c); lia.
  - destruct (Ascii.eqb a c); lia.
Qed.

Lemma digits_nonneg (s : string) (acc : Z) (sep : bool) (n : Z) :
  0 <= acc -> Py.digits acc sep s = Some n -> 0 <= n.
Proof.
  revert acc sep. induction s as [|c s IH]; intros acc sep Hacc; simpl.
  - destruct sep; [discriminate|]. now intros [= <-].
  - destruct (Py.is_digit c) eqn:Hc.
    + apply IH. pose proof (digit_value_nonneg c Hc). lia.
    + destruct (Ascii.eqb c "_" && negb sep); [|discriminate]. now apply IH.
Qed.

Lemma int_nonneg (p : string) (n : Z) :
  count_char "-" p = 0%nat -> Py.int p = Ok n -> 0 <= n.
Proof.
  intros Hp. unfold Py.int, Py.strip.
  assert (count_char "-" (Py.rstrip (Py.lstrip p)) = 0%nat) as Hbody.
  { pose proof (count_char_rstrip "-" (Py.lstrip p)).
    pose proof (count_char_lstrip "-" p). lia. }
  destruct (Py.rstrip (Py.lstrip p)) as [|c rest].
  - discriminate.
  - destruct c as [[] [] [] [] [] [] [] []]; try discriminate Hbody;
      match goal with
      | |- match ?r with Some _ => _ | None => _ end = _ -> _ =>
          destruct r as [m|] eqn:Hr; [|discriminate];
          intros [= <-]; now apply digits_nonneg in Hr
      end.
Qed.

(** X25: the bounds of a two-sided range are never negative.  A range string
    is cut at its "-", so a part cannot carry a minus sign: when
    [parse_days_range] returns a lower and an upper bound, both are at
    least 0 (and "-5-10" is rejected).  A negative bound can only come in
    the open form: "-5+" parses to (-5, unbounded). *)
Theorem parse_days_range_bounds_nonneg :
  (forall (days_range : option string) (min_days max_days : Z),
     parse_days_range days_range = Ok (min_days, Some max_days) ->
     0 <= min_days /\ 0 <= max_days)
  /\ parse_days_range (Some "-5-10"%string) = Raise (InvalidDaysRange "-5-10")
  /\ parse_days_range (Some "-5+"%string) = Ok (-5, None).
Proof.
  split; [|split; reflexivity].
  intros [s|] lo hi; [|discriminate].
  destruct (decide (s = EmptyString)) as [->|Hne]; [discriminate|].
  rewrite parse_days_range_nonempty by exact Hne.
  destruct (Py.endswith s "+").
  - destruct (Py.int _); simpl; discriminate.
  - destruct (Py.split s "-") as [|p0 [|p1 [|p2 ps]]] eqn:E; try discriminate.
    assert (count_char "-" p0 = 0%nat) as H0.
    { apply (split_parts_no_sep s). rewrite E. apply elem_of_cons. now left. }
    assert (count_char "-" p1 = 0%nat) as H1.
    { apply (split_parts_no_sep s). rewrite E. apply elem_of_cons. right.
      apply elem_of_cons. now left. }
    destruct (Py.int p0) as [n0| |] eqn:E0; simpl; [|discriminate..].
    destruct (Py.int p1) as [n1| |] eqn:E1; simpl; [|discriminate..].
    intros [= <- <-]. split; [now apply (int_nonneg p0)|now apply (int_nonneg p1)].
Qed.

Lemma parse_days_range_bounds_nonneg_witness :
  parse_days_range (Some "31-90"%string) = Ok (31, Some 90) /\ 0 <= 31 /\ 0 <= 90.
Proof.
  split; [reflexivity|].
  destruct parse_days_range_bounds_nonneg as [H _].
  apply (H (Some "31-90"%string) 31 90). reflexivity.
Defined.

(** ** Approving quality issues *)

Lemma elem_of_positions_map {A : Type} (f : A -> bool) (l : list A) (p : nat) :
  p ∈ positions_from 0 (map f l) <-> exists x, l !! p = Some x /\ f x = true.
Proof.
  rewrite elem_of_positions_from, Nat.sub_0_r, list_lookup_fmap. split.
  - intros [_ H]. destruct (l !! p) as [x|]; [|discriminate].
    exists x. split; [reflexivity|]. simpl in H. now injection H.
  - intros (x & -> & Hx). split; [lia|]. simpl. now rewrite Hx.
Qed.

Lemma positions_from_length_filter {A : Type} (f : A -> bool) (l : list A) (i : nat) :
  length (positions_from i (map f l)) = length (filter (fun x => f x = true) l).
Proof.
  revert i. induction l as [|x l IH]; intros i; [reflexivity|].
  simpl. rewrite filter_cons. destruct (f x).
  - rewrite decide_True by reflexivity. simpl. now rewrite IH.
  - rewrite decide_False by discriminate. apply IH.
Qed.

Lemma load_length {A : Type} (l : list A) (ps : list nat) :
  (forall p, p ∈ ps -> (p < length l)%nat) ->
  length (omap (fun i => option_map (pair i) (l !! i)) ps) = length ps.
Proof.
  induction ps as [|p ps IH]; intros Hps; [reflexivity|]. simpl.
  destruct (lookup_lt_is_Some_2 l p) as [x Hx].
  { apply Hps, elem_of_cons. now left. }
  rewrite Hx. simpl. f_equal. apply IH. intros q Hq. apply Hps, elem_of_cons. now right.
Qed.

Lemma open_positions_lt (pid : Z) (l : list QualityIssue.t) (p : nat) :
  p ∈ positions_from 0 (map (is_open_issue pid) l) -> (p < length l)%nat.
Proof.
  intros H. apply elem_of_positions_map in H as (x & Hx & _).
  now apply lookup_lt_Some in Hx.
Qed.

Lemma query_open_issues_length (s : QualityStore.t) (pid : Z) :
  length (query_open_issues s pid)
  = length (filter (fun i => is_open_issue pid i = true) (QualityStore.issues s)).
Proof.
  unfold query_open_issues. rewrite load_length by apply open_positions_lt.
  apply positions_from_length_filter.
Qed.

Lemma approve_all_issue_no_comment (current_user : Z) (comment : option string)
    (i : nat) (issue : QualityIssue.t) (s : QualityStore.t) :
  truthy_string comment = false ->
  approve_all_issue current_user comment (i, issue) s
  = Ok (QualityStore.set_issue i (QualityIssue.set_status "approved" issue) s).
Proof. intros Hc. unfold approve_all_issue. now rewrite Hc. Qed.

(** The loop of [approve_all_quality_issues] when no comment is given. *)
Lemma approve_all_loop (current_user : Z) (comment : option string)
    (l : list QualityIssue.t) (ps : list nat) (s : QualityStore.t) :
  truthy_string comment = false ->
  length (QualityStore.issues s) = length l ->
  exists s' : QualityStore.t,
    for_each_outcome (omap (fun i => option_map (pair i) (l !! i)) ps)
      (approve_all_issue current_user comment) s = Ok s'
    /\ QualityStore.comments s' = QualityStore.comments s
    /\ forall j : nat,
         QualityStore.issues s' !! j
         = if bool_decide (j ∈ ps)
           then QualityIssue.set_status "approved" <$> l !! j
           else QualityStore.issues s !! j.
Proof.
  intros Hc. revert s. induction ps as [|p ps IH]; intros s Hlen.
  - exists s. split; [reflexivity|]. split; [reflexivity|]. intros j.
    now rewrite bool_decide_eq_false_2 by apply not_elem_of_nil.
  - cbn [omap list_omap]. destruct (l !! p) as [x|] eqn:Hx; cbn [option_map].
    + cbn [for_each_outcome]. rewrite (approve_all_issue_no_comment _ _ _ _ _ Hc).
      cbn [mbind outcome_bind].
      destruct (IH (QualityStore.set_issue p (QualityIssue.set_status "approved" x) s))
        as (s' & Hrun & Hcom & Hiss).
      { cbn [QualityStore.set_issue QualityStore.issues]. now rewrite length_insert. }
      exists s'. split; [exact Hrun|]. split; [exact Hcom|]. intros j. rewrite Hiss.
      cbn [QualityStore.set_issue QualityStore.issues].
      destruct (decide (j ∈ ps)) as [Hj|Hj].
      * rewrite !bool_decide_eq_true_2; [reflexivity|apply elem_of_cons; now right|exact Hj].
      * rewrite (bool_decide_eq_false_2 (j ∈ ps)) by exact Hj.
        destruct (decide (j = p)) as [->|Hne].
        -- rewrite bool_decide_eq_true_2 by (apply elem_of_cons; now left).
           rewrite list_lookup_insert_eq; [now rewrite Hx|].
           rewrite Hlen. now apply lookup_lt_Some in Hx.
        -- rewrite bool_decide_eq_false_2
             by (intros H; apply elem_of_cons in H as [?|?]; contradiction).
           now rewrite list_lookup_insert_ne by congruence.
    + destruct (IH s Hlen) as (s' & Hrun & Hcom & Hiss).
      exists s'. split; [exact Hrun|]. split; [exact Hcom|]. intros j. rewrite Hiss.
      destruct (decide (j ∈ ps)) as [Hj|Hj].
      * rewrite !bool_decide_eq_true_2; [reflexivity|apply elem_of_cons; now right|exact Hj].
      * rewrite (bool_decide_eq_false_2 (j ∈ ps)) by exact Hj.
        destruct (decide (j = p)) as [->|Hne].
        -- rewrite bool_decide_eq_true_2 by (apply elem_of_cons; now left).
           rewrite Hx. apply lookup_ge_None. rewrite Hlen. now apply lookup_ge_None.
        -- now rewrite bool_decide_eq_false_2
             by (intros H; apply elem_of_cons in H as [?|?]; contradiction).
Qed.

Lemma approve_all_store (current_user pid : Z) (comment : option string)
    (s : QualityStore.t) :
  truthy_string comment = false ->
  for_each_outcome (query_open_issues s pid) (approve_all_issue current_user comment) s
  = Ok (QualityStore.mk
          ((fun i => if is_open_issue pid i
                     then QualityIssue.set_status "approved" i else i)
             <$> QualityStore.issues s)
          (QualityStore.comments s)).
Proof.
  intros Hc. unfold query_open_issues.
  destruct (approve_all_loop current_user comment (QualityStore.issues s)
              (positions_from 0 (map (is_open_issue pid) (QualityStore.issues s))) s Hc
              eq_refl) as (s' & Hrun & Hcom & Hiss).
  rewrite Hrun. f_equal. destruct s' as [issues' comments']. simpl in Hcom, Hiss.
  f_equal; [|exact Hcom].
  apply list_eq. intros j. rewrite Hiss, list_lookup_fmap.
  destruct (QualityStore.issues s !! j) as [x|] eqn:Hx; simpl.
  - destruct (is_open_issue pid x) eqn:Ho.
    + rewrite bool_decide_eq_true_2; [reflexivity|].
      apply elem_of_positions_map. now exists x.
    + rewrite bool_decide_eq_false_2; [reflexivity|].
      rewrite elem_of_positions_map. intros (y & Hy & Hoy). congruence.
  - now destruct (bool_decide _).
Qed.

Lemma query_open_issues_none (s : QualityStore.t) (pid : Z) :
  Forall (fun i => is_open_issue pid i = false) (QualityStore.issues s) ->
  query_open_issues s pid = [].
Proof.
  intros H. unfold query_open_issues.
  replace (positions_from 0 (map (is_open_issue pid) (QualityStore.issues s))) with (@nil nat);
    [reflexivity|].
  symmetry. apply length_zero_iff_nil. rewrite positions_from_length_filter.
  induction H as [|x l Hx _ IH]; [reflexivity|].
  rewrite filter_cons, decide_False by congruence. exact IH.
Qed.

Lemma approved_not_open (pid : Z) (i : QualityIssue.t) :
  is_open_issue pid (QualityIssue.set_status "approved" i) = false.
Proof. unfold is_open_issue. simpl. apply andb_false_r. Qed.

(** X26: [approve_all_quality_issues] without a comment, on a portfolio of
    the user.  The count returned is the number of open issues of the
    portfolio; exactly these issues become "approved" and every other issue
    is left as it was; no comment is added; afterwards the portfolio has no
    open issue, and a second request finds nothing to approve and changes
    nothing. *)
Theorem approve_all_quality_issues_no_comment (t : Db.Tables) (s : QualityStore.t)
    (current_user portfolio_id : Z) (comment : option string) :
  find_portfolio t portfolio_id current_user <> None ->
  truthy_string comment = false ->
  let run := approve_all_quality_issues t s current_user portfolio_id comment in
  exists r : ApprovalResponse.t,
    fst run = Ok r
    /\ ApprovalResponse.count r
       = Z.of_nat (length (filter (fun i => is_open_issue portfolio_id i = true)
                             (QualityStore.issues s)))
    /\ QualityStore.issues (snd run)
       = (fun i => if is_open_issue portfolio_id i
                   then QualityIssue.set_status "approved" i else i)
           <$> QualityStore.issues s
    /\ QualityStore.comments (snd run) = QualityStore.comments s
    /\ Forall (fun i => is_open_issue portfolio_id i = false) (QualityStore.issues (snd run))
    /\ approve_all_quality_issues t (snd run) current_user portfolio_id comment
       = (Ok (ApprovalResponse.mk "No open quality issues to approve" 0), snd run).
Proof.
  intros Hp Hc.
  assert (forall l : list QualityIssue.t,
            Forall (fun i => is_open_issue portfolio_id i = false)
              ((fun i => if is_open_issue portfolio_id i
                         then QualityIssue.set_status "approved" i else i) <$> l)) as Hnone.
  { intros l. apply Forall_fmap, Forall_forall. intros x _. simpl.
    destruct (is_open_issue portfolio_id x) eqn:Ho; [apply approved_not_open|exact Ho]. }
  assert (forall s0 : QualityStore.t,
            Forall (fun i => is_open_issue portfolio_id i = false) (QualityStore.issues s0) ->
            approve_all_quality_issues t s0 current_user portfolio_id comment
            = (Ok (ApprovalResponse.mk "No open quality issues to approve" 0), s0)) as Hagain.
  { intros s0 H0. unfold approve_all_quality_issues.
    destruct (find_portfolio t portfolio_id current_user); [|contradiction].
    now rewrite (query_open_issues_none s0 portfolio_id H0). }
  assert (exists r : ApprovalResponse.t,
            approve_all_quality_issues t s current_user portfolio_id comment
            = (Ok r,
               QualityStore.mk
                 ((fun i => if is_open_issue portfolio_id i
                            then QualityIssue.set_status "approved" i else i)
                    <$> QualityStore.issues s)
                 (QualityStore.comments s))
            /\ ApprovalResponse.count r
               = Z.of_nat (length (filter (fun i => is_open_issue portfolio_id i = true)
                                     (QualityStore.issues s)))) as (r & Hrun & Hcount).
  { unfold approve_all_quality_issues.
    destruct (find_portfolio t portfolio_id current_user) as [pf|] eqn:Hpf; [|contradiction].
    pose proof (query_open_issues_length s portfolio_id) as Hlen.
    pose proof (approve_all_store current_user portfolio_id comment s Hc) as Hstore.
    destruct (query_open_issues s portfolio_id) as [|x xs] eqn:Hq.
    - simpl in Hstore. injection Hstore as Hs. eexists. split; [now rewrite <- Hs|].
      cbn [ApprovalResponse.count]. now rewrite <- Hlen.
    - rewrite Hstore. eexists. split; [reflexivity|].
      cbn [ApprovalResponse.count]. now rewrite <- Hlen. }
  cbv zeta. rewrite Hrun. cbn [fst snd QualityStore.issues QualityStore.comments].
  exists r. split; [reflexivity|]. split; [exact Hcount|].
  split; [reflexivity|]. split; [reflexivity|]. split; [apply Hnone|].
  apply Hagain. apply Hnone.
Qed.

Lemma approve_all_quality_issues_no_comment_witness :
  exists r : ApprovalResponse.t,
    fst (approve_all_quality_issues (Sample.tables Sample.five_loans) Sample.quality_store
           1 7 None) = Ok r
    /\ ApprovalResponse.count r = 2.
Proof.
  destruct (approve_all_quality_issues_no_comment (Sample.tables Sample.five_loans)
              Sample.quality_store 1 7 None) as (r & Hr & Hcount & _).
  - discriminate.
  - reflexivity.
  - exists r. split; [exact Hr|exact Hcount].
Defined.

Lemma make_QualityIssueComment_raises (quality_issue_id user_id : Z) (comment : string) :
  make_QualityIssueComment None quality_issue_id user_id comment None
  = Raise (ValidationError "id").
Proof. reflexivity. Qed.

Lemma approve_all_issue_with_comment (current_user : Z) (comment : option string)
    (object : nat * QualityIssue.t) (s : QualityStore.t) :
  truthy_string comment = true ->
  approve_all_issue current_user comment object s = Raise (ValidationError "id").
Proof. intros Hc. destruct object as [i issue]. unfold approve_all_issue. now rewrite Hc. Qed.

Lemma query_open_issues_some (s : QualityStore.t) (pid : Z) (i : QualityIssue.t) :
  i ∈ QualityStore.issues s -> is_open_issue pid i = true ->
  query_open_issues s pid <> [].
Proof.
  intros Hin Ho Hq. apply (f_equal length) in Hq.
  rewrite query_open_issues_length in Hq. simpl in Hq.
  apply length_zero_iff_nil in Hq.
  assert (i ∈ filter (fun i => is_open_issue pid i = true) (QualityStore.issues s)) as Hi
    by (apply list_elem_of_filter; now split).
  rewrite Hq in Hi. now apply not_elem_of_nil in Hi.
Qed.

(** X27: [approve_all_quality_issues] with a comment.  The comment is built
    with the response model [QualityIssueComment], whose [id] and
    [created_at] are required and not given: when the portfolio is the
    user's and has an open issue, the request fails with the validation
    error at the first issue, before [db.commit()], and the store is left
    as it was: no issue is approved. *)
Theorem approve_all_quality_issues_with_comment (t : Db.Tables) (s : QualityStore.t)
    (current_user portfolio_id : Z) (comment : string) (i : QualityIssue.t) :
  find_portfolio t portfolio_id current_user <> None ->
  comment <> EmptyString ->
  i ∈ QualityStore.issues s -> is_open_issue portfolio_id i = true ->
  approve_all_quality_issues t s current_user portfolio_id (Some comment)
  = (Raise (ValidationError "id"), s).
Proof.
  intros Hp Hc Hin Ho. unfold approve_all_quality_issues.
  destruct (find_portfolio t portfolio_id current_user); [|contradiction].
  pose proof (query_open_issues_some s portfolio_id i Hin Ho) as Hq.
  destruct (query_open_issues s portfolio_id) as [|[j x] xs]; [contradiction|].
  cbn [for_each_outcome]. rewrite approve_all_issue_with_comment; [reflexivity|].
  unfold truthy_string. apply String.eqb_neq in Hc. now rewrite Hc.
Qed.

Lemma approve_all_quality_issues_with_comment_witness :
  approve_all_quality_issues (Sample.tables Sample.five_loans) Sample.quality_store 1 7
    (Some "checked"%string)
  = (Raise (ValidationError "id"), Sample.quality_store).
Proof.
  apply (approve_all_quality_issues_with_comment (Sample.tables Sample.five_loans)
           Sample.quality_store 1 7 "checked" (QualityIssue.mk 1 7 "open")).
  - discriminate.
  - discriminate.
  - apply elem_of_cons. now left.
  - reflexivity.
Defined.

(** X28: no request adds a comment.  [add_comment_to_quality_issue] never
    returns: it answers 404 for a portfolio or an issue that is not found
    and fails with the validation error otherwise, and it leaves the store
    as it was.  [approve_quality_issue] and [approve_all_quality_issues]
    leave the comments as they were, with or without a comment in the
    request. *)
Theorem quality_issue_comments_never_added (t : Db.Tables) (s : QualityStore.t)
    (current_user portfolio_id issue_id : Z) :
  (forall comment : string,
     (exists e : exception,
        fst (add_comment_to_quality_issue t s current_user portfolio_id issue_id comment)
        = Raise e
        /\ (e = HTTPException 404 "Portfolio not found"
            \/ e = HTTPException 404 "Quality issue not found"
            \/ e = ValidationError "id"))
     /\ snd (add_comment_to_quality_issue t s current_user portfolio_id issue_id comment) = s)
  /\ (forall comment : option string,
        QualityStore.comments
          (snd (approve_quality_issue t s current_user portfolio_id issue_id comment))
        = QualityStore.comments s)
  /\ (forall comment : option string,
        QualityStore.comments
          (snd (approve_all_quality_issues t s current_user portfolio_id comment))
        = QualityStore.comments s).
Proof.
  split; [|split].
  - intros comment. unfold add_comment_to_quality_issue.
    destruct (find_portfolio t portfolio_id current_user); [|split; [eexists; split; [reflexivity|tauto]|reflexivity]].
    destruct (query_issue s issue_id portfolio_id);
      [|split; [eexists; split; [reflexivity|tauto]|reflexivity]].
    rewrite make_QualityIssueComment_raises.
    split; [eexists; split; [reflexivity|tauto]|reflexivity].
  - intros comment. unfold approve_quality_issue.
    destruct (find_portfolio t portfolio_id current_user); [|reflexivity].
    destruct (query_issue s issue_id portfolio_id) as [[j x]|]; [|reflexivity].
    destruct (truthy_string comment); [|reflexivity].
    now rewrite make_QualityIssueComment_raises.
  - intros comment. unfold approve_all_quality_issues.
    destruct (find_portfolio t portfolio_id current_user); [|reflexivity].
    destruct (truthy_string comment) eqn:Hc.
    + destruct (query_open_issues s portfolio_id) as [|[j x] xs]; [reflexivity|].
      cbn [for_each_outcome]. now rewrite (approve_all_issue_with_comment _ _ _ _ Hc).
    + rewrite (approve_all_store current_user portfolio_id comment s Hc).
      now destruct (query_open_issues s portfolio_id).
Qed.
